(** * MyPIVXWallet: the explorer backend and the masternode glue

    A shallow embedding of [network.js] (classes [Network] and
    [ExplorerNetwork], and the top-level functions left behind in that file)
    and of the masternode functions of [scripts/global.js].

    Conventions of the embedding.

    - An [async] function is run to completion: what the environment answers
      at each [await] (an explorer response, a key derivation, a signature)
      is an explicit argument of the function, and interleavings with other
      tasks are not modelled.  A call that the source does not await
      ([this.getUTXOs()] in [getBlockCount]) runs to completion after the
      caller's synchronous code, detached from the caller.
    - Mutable objects are records threaded through a state-and-exception
      monad.  As in JavaScript, what a computation wrote before it threw
      stays written.
    - [EventEmitter.emit], [fetch], [createAlert] and the writes to the page
      append to a trace; the listeners themselves live in other files.
      Console output is not modelled.
    - JSON integers (block heights, confirmations, output indexes, times) are
      [Z]: Number arithmetic on integers of magnitude below 2^53 is exact.
      Quantities the code scales by [COIN] are IEEE-754 doubles, the kernel's
      [float].
    - What the explorer answers is a record with the fields the code reads;
      the one answer the code inspects dynamically, that of [sendtx], is a
      JavaScript value.
    - A [string] stands for a JavaScript string, one character per code unit. *)

From Stdlib Require Import ZArith List String Ascii Bool Lia DecimalString.
From Stdlib Require Import Floats SpecFloat.
Import ListNotations.

Local Open Scope string_scope.
Local Open Scope list_scope.
Local Set Warnings "-register-all".

(** ** JavaScript numbers and strings *)

(** The Number nearest to an integer. *)
Definition Z2float (z : Z) : float :=
  SF2Prim (binary_normalize prec emax z 0 false).


(** [String(n)] for an integer-valued Number. *)
Definition show_Z (z : Z) : string := NilZero.string_of_int (Z.to_int z).

(** [Math.round]: the nearest integer, ties towards +infinity; NaN, the
    infinities and the zeros are returned as they are, and a negative
    argument that rounds to zero gives -0. *)
Definition Math_round (x : float) : float :=
  match Prim2SF x with
  | S754_finite s m e =>
      let sm := if s then Z.neg m else Z.pos m in
      let n :=
        if (0 <=? e)%Z then (sm * 2 ^ e)%Z
        else ((2 * sm + 2 ^ (- e)) / 2 ^ (- e + 1))%Z in
      if (n =? 0)%Z then (if s then (-0)%float else 0%float) else Z2float n
  | _ => x
  end.

(** [Math.max] of two Numbers. *)
Definition Math_max (a b : float) : float :=
  if PrimFloat.is_nan a || PrimFloat.is_nan b then nan
  else if (a <? b)%float then b
  else if (b <? a)%float then a
  else if PrimFloat.get_sign a then b else a.

Definition is_ws (c : ascii) : bool :=
  match nat_of_ascii c with
  | 9 | 10 | 11 | 12 | 13 | 32 => true
  | _ => false
  end.

Fixpoint skip_ws (s : string) : string :=
  match s with
  | String c r => if is_ws c then skip_ws r else s
  | EmptyString => s
  end.

Definition digit_val (radix : Z) (c : ascii) : option Z :=
  let n := Z.of_nat (nat_of_ascii c) in
  let d :=
    if ((48 <=? n) && (n <=? 57))%Z then Some (n - 48)%Z
    else if ((97 <=? n) && (n <=? 122))%Z then Some (n - 87)%Z
    else if ((65 <=? n) && (n <=? 90))%Z then Some (n - 55)%Z
    else None in
  match d with
  | Some v => if (v <? radix)%Z then Some v else None
  | None => None
  end.

Fixpoint parse_digits (radix : Z) (s : string) (acc : option Z) : option Z :=
  match s with
  | String c r =>
      match digit_val radix c with
      | Some v =>
          parse_digits radix r
            (Some (match acc with Some a => a * radix + v | None => v end)%Z)
      | None => acc
      end
  | EmptyString => acc
  end.

(** [parseInt(s)] with no radix: leading white space, a sign, an optional
    [0x], then the longest run of digits; NaN when there is none. *)
Definition parseInt (s : string) : float :=
  let s := skip_ws s in
  let '(neg, s) :=
    match s with
    | String "-" r => (true, r)
    | String "+" r => (false, r)
    | _ => (false, s)
    end in
  let '(radix, s) :=
    match s with
    | String "0" (String "x" r) => (16%Z, r)
    | String "0" (String "X" r) => (16%Z, r)
    | _ => (10%Z, s)
    end in
  match parse_digits radix s None with
  | None => nan
  | Some n => if neg then (- Z2float n)%float else Z2float n
  end.

(** [s.split(sep)] for a one-character separator. *)
Fixpoint split (sep : ascii) (s : string) : list string :=
  match s with
  | EmptyString => [EmptyString]
  | String c r =>
      if Ascii.eqb c sep then EmptyString :: split sep r
      else match split sep r with
           | hd :: tl => String c hd :: tl
           | [] => [String c EmptyString]
           end
  end.

(** [a.join(sep)]. *)
Definition join (sep : string) (a : list string) : string := String.concat sep a.

(** [a[i] = x] on an array of strings.  Past the end JavaScript extends the
    array, leaving holes; a hole reads as [undefined], which [join] prints as
    the empty string and [parseInt] reads as NaN, just as it does [""]. *)
Fixpoint array_set (a : list string) (i : nat) (x : string) : list string :=
  match i, a with
  | O, [] => [x]
  | O, _ :: tl => x :: tl
  | S j, [] => "" :: array_set [] j x
  | S j, hd :: tl => hd :: array_set tl j x
  end.

(** [a[i]] read as a string ([undefined] as [""], see [array_set]). *)
Definition array_get (a : list string) (i : nat) : string := nth i a "".

(** ** JavaScript values, as [JSON.parse] builds them *)

Inductive js_value : Type :=
| VUndefined
| VNull
| VBool (b : bool)
| VNum (x : float)
| VStr (s : string)
| VArr (elems : list js_value)
| VObj (fields : list (string * js_value)).

(** ToBoolean. *)
Definition truthy (v : js_value) : bool :=
  match v with
  | VUndefined | VNull => false
  | VBool b => b
  | VNum x => negb (PrimFloat.is_zero x || PrimFloat.is_nan x)
  | VStr s => negb (s =? "")
  | VArr _ | VObj _ => true
  end.

(** The last binding of a key wins, as in [JSON.parse]. *)
Fixpoint obj_get (fields : list (string * js_value)) (k : string) : js_value :=
  match fields with
  | [] => VUndefined
  | (k', v) :: tl =>
      match obj_get tl k with
      | VUndefined => if k' =? k then v else VUndefined
      | found => found
      end
  end.

Inductive exn : Type :=
| TypeError        (* a property read on null or undefined *)
| Rejected.        (* a rejected promise: fetch, json(), a key operation *)

Inductive result (A : Type) : Type :=
| Ok (a : A)
| Throw (e : exn).
Arguments Ok {A} a.
Arguments Throw {A} e.

(** [v.k] for a property name that strings, arrays and the other primitives
    do not have (the code reads [result] and [error] this way). *)
Definition get_prop (v : js_value) (k : string) : result js_value :=
  match v with
  | VUndefined | VNull => Throw TypeError
  | VObj fields => Ok (obj_get fields k)
  | VBool _ | VNum _ | VStr _ | VArr _ => Ok VUndefined
  end.

(** [v === n] for a Number [n]. *)
Definition strict_eq_num (v : js_value) (n : float) : bool :=
  match v with
  | VNum x => (x =? n)%float
  | _ => false
  end.

(** [v.length === n] for a [v] that is neither null nor undefined and a
    small literal [n]: the length of a string or of an array is an integer,
    an object has whatever its [length] field holds, the other primitives
    have none. *)
Definition length_is (v : js_value) (n : nat) : bool :=
  match v with
  | VStr s => Nat.eqb (String.length s) n
  | VArr l => Nat.eqb (List.length l) n
  | VObj fields => strict_eq_num (obj_get fields "length") (Z2float (Z.of_nat n))
  | _ => false
  end.

(** ['...' + v]: whether the concatenation can turn [v] into a string.  A
    primitive always has one.  For an object built by [JSON.parse] neither
    [valueOf] nor an own property gives a primitive (no JSON value can be
    called), so the conversion rests on the inherited [toString]: when the
    object has a [toString] property of its own, whatever it holds, the
    conversion throws a TypeError.  An array is joined from the strings of
    its elements, so it converts when all of them do. *)
Fixpoint stringifies (v : js_value) : bool :=
  match v with
  | VObj fields => negb (existsb (fun kv => fst kv =? "toString") fields)
  | VArr elems => forallb stringifies elems
  | _ => true
  end.

(** The conversion as a step that may throw. *)
Definition to_string_step (v : js_value) : result unit :=
  if stringifies v then Ok tt else Throw TypeError.

(** ** The state-and-exception monad *)

Definition M (S A : Type) : Type := S -> result A * S.

Definition ret {S A} (a : A) : M S A := fun s => (Ok a, s).

Definition bind {S A B} (c : M S A) (k : A -> M S B) : M S B :=
  fun s =>
    match c s with
    | (Ok a, s') => k a s'
    | (Throw e, s') => (Throw e, s')
    end.

Definition throw {S A} (e : exn) : M S A := fun s => (Throw e, s).

Definition get {S} : M S S := fun s => (Ok s, s).

Definition modify {S} (f : S -> S) : M S unit := fun s => (Ok tt, f s).

(** [try { c } catch (e) { h e }]. *)
Definition try_catch {S A} (c : M S A) (h : exn -> M S A) : M S A :=
  fun s =>
    match c s with
    | (Ok a, s') => (Ok a, s')
    | (Throw e, s') => h e s'
    end.

(** [try { c } finally { f }], for an [f] that completes normally. *)
Definition try_finally {S A} (c : M S A) (f : M S unit) : M S A :=
  fun s =>
    match c s with
    | (r, s') =>
        match f s' with
        | (Ok _, s'') => (r, s'')
        | (Throw e, s'') => (Throw e, s'')
        end
    end.

(** [await p] for a promise the environment settles: [None] is a rejection. *)
Definition await {S A} (p : option A) : M S A :=
  match p with
  | Some a => ret a
  | None => throw Rejected
  end.

(** A call of an [async] function that the caller does not await: it runs,
    but neither its value nor its rejection reaches the caller.  The model
    places such a call where no synchronous code of the caller follows it. *)
Definition detached {S A} (c : M S A) : M S unit :=
  fun s => match c s with (_, s') => (Ok tt, s') end.

(** Lift a property read or another pure fallible step. *)
Definition lift {S A} (r : result A) : M S A := fun s => (r, s).

Declare Scope js_scope.
Delimit Scope js_scope with js.
Notation "x <- c ;; k" := (bind c (fun x => k))
  (at level 61, c at next level, right associativity) : js_scope.
Notation "c ;;; k" := (bind c (fun _ => k))
  (at level 61, right associativity) : js_scope.
Local Open Scope js_scope.

(** ** What the code takes from files that are not part of this development *)

(** [chain_params.js] ([COIN], [cChainParams.current]) and [wallet.js]
    ([getDerivationPath]). *)
Class Externals : Type := {
  COIN : float;
  BIP44_TYPE : Z;
  BIP44_TYPE_LEDGER : Z;
  collateralInSats : float;
  TICKER : string;
  getDerivationPath : bool -> string;
  (* misc.js, i18n.js and the platform, used by global.js *)
  sanitizeHTML : string -> string;
  toUpperCase : string -> string;
  toLocaleTimeString : Z -> string;      (* of [new Date(ms)] *)
  show_Number : float -> string;         (* [String(x)] *)
  (* [swapHEXEndian(hash(hexToBytes(hash(hexToBytes(tx)))))] *)
  txidOf : string -> string;
  CONFIRM_POPUP_MN_P_KEY : string;
  CONFIRM_POPUP_MN_P_KEY_HTML : string
}.

(** The wallet's master key object, as far as the code reads it. *)
Record MasterKey : Type := {
  isHD : bool;
  isHardwareWallet : bool;
  isViewOnly : bool;
  getxpub : string -> option string;           (* [None]: the promise rejects *)
  getAddress : option string -> option string  (* argument: the path, if any *)
}.

(** ** Data model *)

Inductive Status : Type := PENDING | CONFIRMED.

Definition Status_eqb (a b : Status) : bool :=
  match a, b with
  | PENDING, PENDING | CONFIRMED, CONFIRMED => true
  | _, _ => false
  end.

(** Modelled from the spec: the [UTXO] class of [mempool.js], which is not
    part of the sources; its constructor stores the fields it is given
    (spec, data model: [{id, vout, sats, script, path, height, status,
    isDelegate, isReward}]).  A field the caller leaves out is [None]
    ([undefined]) or [false]. *)
Record UTXO : Type := {
  id : string;
  path : option string;
  sats : float;
  script : string;
  vout : Z;
  height : option Z;
  status : Status;
  isDelegate : bool;
  isReward : bool
}.

(** [{id, time, blockHeight, amount}], an entry of [arrRewards]. *)
Record StakingReward : Type := {
  rw_id : string;
  time : Z;
  blockHeight : Z;
  amount : float
}.

(** What [eventEmitter.emit], [fetch], [createAlert] and the writes to the page
    leave behind. *)
Inductive effect : Type :=
| Emit (event : string) (args : list js_value)
| Fetch (url : string) (body : option string)
| CreateAlert (type message : string)
| DomStyle (element property v : string)      (* doms.element.style.property = v *)
| DomHtml (element html : string)             (* innerHTML or innerText *)
| DomAppendOption (element : string) (key : option string) (text : string)
| WindowAlert (message : string)
| ConfirmPopup (title html : string)
| UpdateStakingRewardsGUI (fCallback : bool).

Definition is_emit (e : effect) : bool :=
  match e with Emit _ _ => true | _ => false end.

(** The events of a trace, oldest first. *)
Definition events (t : list effect) : list effect := filter is_emit t.

(** The URLs a trace has sent a request to, oldest first. *)
Definition requests (t : list effect) : list string :=
  flat_map (fun e => match e with Fetch url _ => [url] | _ => [] end) t.

(** ** [network.js]: the object state *)

(** The fields of an [ExplorerNetwork] instance: those the [Network]
    constructor sets, those the subclass adds, and [isSyncing], which
    [getUTXOs] creates ([undefined], hence falsy, before). *)
Record network : Type := {
  _enabled : bool;
  masterKey : option MasterKey;
  lastWallet : float;
  strUrl : string;
  blocks : Z;
  arrRewards : list StakingReward;
  isSyncing : bool
}.

Definition set__enabled (v : bool) (n : network) : network :=
  {| _enabled := v; masterKey := masterKey n; lastWallet := lastWallet n;
     strUrl := strUrl n; blocks := blocks n; arrRewards := arrRewards n;
     isSyncing := isSyncing n |}.

Definition set_masterKey (v : option MasterKey) (n : network) : network :=
  {| _enabled := _enabled n; masterKey := v; lastWallet := lastWallet n;
     strUrl := strUrl n; blocks := blocks n; arrRewards := arrRewards n;
     isSyncing := isSyncing n |}.

Definition set_lastWallet (v : float) (n : network) : network :=
  {| _enabled := _enabled n; masterKey := masterKey n; lastWallet := v;
     strUrl := strUrl n; blocks := blocks n; arrRewards := arrRewards n;
     isSyncing := isSyncing n |}.

Definition set_blocks (v : Z) (n : network) : network :=
  {| _enabled := _enabled n; masterKey := masterKey n; lastWallet := lastWallet n;
     strUrl := strUrl n; blocks := v; arrRewards := arrRewards n;
     isSyncing := isSyncing n |}.

Definition set_arrRewards (v : list StakingReward) (n : network) : network :=
  {| _enabled := _enabled n; masterKey := masterKey n; lastWallet := lastWallet n;
     strUrl := strUrl n; blocks := blocks n; arrRewards := v;
     isSyncing := isSyncing n |}.

Definition set_isSyncing (v : bool) (n : network) : network :=
  {| _enabled := _enabled n; masterKey := masterKey n; lastWallet := lastWallet n;
     strUrl := strUrl n; blocks := blocks n; arrRewards := arrRewards n;
     isSyncing := v |}.

(** The object together with the trace of its effects. *)
Record World : Type := {
  this : network;
  trace : list effect
}.

Definition on_this (f : network -> network) : M World unit :=
  modify (fun w => {| this := f (this w); trace := trace w |}).

Definition perform (e : effect) : M World unit :=
  modify (fun w => {| this := this w; trace := trace w ++ [e] |}).

Definition emit (event : string) (args : list js_value) : M World unit :=
  perform (Emit event args).

(** [await (await fetch(url, init)).json()]: the request is recorded and the
    environment's answer [resp] comes back ([None]: the request or the
    parsing fails). *)
Definition fetch_json {A} (url : string) (body : option string)
    (resp : option A) : M World A :=
  perform (Fetch url body) ;;; await resp.

(** [new ExplorerNetwork(strUrl, masterKey)]. *)
Definition new_ExplorerNetwork (url : string) (mk : option MasterKey) : network :=
  {| _enabled := true; masterKey := mk; lastWallet := 0%float; strUrl := url;
     blocks := 0%Z; arrRewards := []; isSyncing := false |}.

(** ** class [Network] *)

Module Network.

(** [set enabled(value)]. *)
Definition set_enabled (value : bool) : M World unit :=
  w <- get ;;
  if negb (Bool.eqb value (_enabled (this w))) then
    emit "network-toggle" [VBool value] ;;;
    on_this (set__enabled value)
  else ret tt.

(** [get enabled()]. *)
Definition enabled : M World bool :=
  w <- get ;; ret (_enabled (this w)).

Definition enable : M World unit := set_enabled true.

Definition disable : M World unit := set_enabled false.

Definition toggle : M World unit :=
  e <- enabled ;; set_enabled (negb e).

(** 50 sat/byte. *)
Definition getFee (bytes : float) : float := (bytes * 50)%float.

Definition setMasterKey (k : option MasterKey) : M World unit :=
  on_this (set_masterKey k).

End Network.

(** ** Explorer responses, as far as the code reads them *)

(** [GET /api/v2/api]. *)
Record api_status : Type := {
  backend_blocks : Z                     (* [backend.blocks] *)
}.

(** An entry of [GET /api/v2/utxo/...], the argument of [getUTXOFullInfo]. *)
Record explorer_utxo : Type := {
  eu_txid : string;
  eu_vout : Z;
  eu_path : option string
}.

(** [GET /api/v2/tx-specific/<txid>]. *)
Module TxSpecific.

Record scriptPubKey_t : Type := {
  type : string;
  hex : string
}.

Record vout_t : Type := {
  value : float;
  n : Z;
  scriptPubKey : scriptPubKey_t
}.

Record t : Type := {
  vout : list vout_t;
  confirmations : Z
}.

End TxSpecific.

(** [GET /api/v2/xpub/...?details=txs] and [GET /api/v2/address/...]. *)
Module History.

Record token_t : Type := {
  name : string;
  path : string
}.

(** An input or an output of a transaction. *)
Record vio_t : Type := {
  addresses : list string;
  value : string
}.

Record tx_t : Type := {
  txid : string;
  blockTime : Z;
  blockHeight : Z;
  vin : list vio_t;
  vout : list vio_t
}.

(** [tokens], [transactions] and [itemsOnPage] may be missing. *)
Record t : Type := {
  tokens : option (list token_t);
  transactions : option (list tx_t);
  itemsOnPage : option Z
}.

End History.

(** [a[i]] for an integer index; [None] is [undefined]. *)
Definition index {A} (a : list A) (i : Z) : option A :=
  if (i <? 0)%Z then None else nth_error a (Z.to_nat i).

(** [a[a.length - 1]]. *)
Definition last_elem {A} (a : list A) : option A :=
  nth_error a (List.length a - 1).

(** ** A JavaScript [Map]: insertion-ordered, keys compared by [eqb] *)

Section JsMap.

Context {K V : Type} (eqb : K -> K -> bool).

Fixpoint Map_get (m : list (K * V)) (k : K) : option V :=
  match m with
  | [] => None
  | (k', v) :: tl => if eqb k' k then Some v else Map_get tl k
  end.

(** [set] keeps the place of a key that is already there. *)
Fixpoint Map_set (m : list (K * V)) (k : K) (v : V) : list (K * V) :=
  match m with
  | [] => [(k, v)]
  | (k', v') :: tl => if eqb k' k then (k, v) :: tl else (k', v') :: Map_set tl k v
  end.

End JsMap.

(** The [mapPaths] of the reward computation. *)
Definition Map_t : Type := list (string * string).

(** ToBoolean of what [mapPaths.get] returns. *)
Definition truthy_entry (o : option string) : bool :=
  match o with
  | Some s => negb (s =? "")
  | None => false
  end.

(** [a.filter(p)] for a predicate that may throw. *)
Fixpoint filter_throwing {A} (p : A -> result bool) (a : list A) : result (list A) :=
  match a with
  | [] => Ok []
  | x :: tl =>
      match p x with
      | Throw e => Throw e
      | Ok b =>
          match filter_throwing p tl with
          | Throw e => Throw e
          | Ok r => Ok (if b then x :: r else r)
          end
      end
  end.

(** ** class [ExplorerNetwork] *)

Module ExplorerNetwork.

Definition error : M World unit :=
  e <- Network.enabled ;;
  if e then
    Network.disable ;;;
    perform (CreateAlert "warning"
      ("<b>Failed to synchronize!</b> Please try again later." ++
       "<br>You can attempt re-connect via the Settings."))
  else ret tt.

(** [get cachedBlockCount()]. *)
Definition cachedBlockCount : M World Z :=
  w <- get ;; ret (blocks (this w)).

(** [getDerivationPath(fLedger).split('/').slice(0, 4).join('/')]. *)
Definition accountPath `{Externals} (fLedger : bool) : string :=
  join "/" (firstn 4 (split "/" (getDerivationPath fLedger))).

(** [utxo_resp] is what the explorer answers to the UTXO request. *)
Definition getUTXOs `{Externals} (utxo_resp : option js_value) : M World unit :=
  w <- get ;;
  match masterKey (this w) with
  | None => ret tt
  | Some mk =>
      if isSyncing (this w) then ret tt
      else
        on_this (set_isSyncing true) ;;;
        try_finally
          (try_catch
             (publicKey <-
                (if isHD mk then
                   let derivationPath := accountPath (isHardwareWallet mk) in
                   await (getxpub mk derivationPath)
                 else await (getAddress mk None)) ;;
              w' <- get ;;
              utxos <- fetch_json (strUrl (this w') ++ "/api/v2/utxo/" ++ publicKey)
                         None utxo_resp ;;
              emit "utxo" [utxos])
             (fun _ => error))
          (on_this (set_isSyncing false))
  end.

(** [api_resp] is what the explorer answers to [/api/v2/api]. *)
Definition getBlockCount `{Externals} (api_resp : option api_status)
    (utxo_resp : option js_value) : M World unit :=
  try_catch
    (w <- get ;;
     r <- fetch_json (strUrl (this w) ++ "/api/v2/api") None api_resp ;;
     w' <- get ;;
     if (blocks (this w') <? backend_blocks r)%Z then
       on_this (set_blocks (backend_blocks r)) ;;;
       emit "sync-status" [VStr "start"] ;;;
       detached (getUTXOs utxo_resp)
     else ret tt)
    (fun e => error ;;; throw e).

(** [null] is [None].  The height is computed on [Z], see [safe_integer]. *)
Definition getUTXOFullInfo `{Externals} (cUTXO : explorer_utxo)
    (tx_resp : option TxSpecific.t) : M World (option UTXO) :=
  w <- get ;;
  cTx <- fetch_json (strUrl (this w) ++ "/api/v2/tx-specific/" ++ eu_txid cUTXO)
           None tx_resp ;;
  let cVout := index (TxSpecific.vout cTx) (eu_vout cUTXO) in
  path <-
    (match eu_path cUTXO with
     | Some p =>
         if p =? "" then ret None
         else
           let path := split "/" p in
           mk <- (match masterKey (this w) with
                  | Some mk => ret mk
                  | None => throw TypeError
                  end) ;;
           let path :=
             array_set path 2
               (show_Z (if isHardwareWallet mk then BIP44_TYPE_LEDGER
                        else BIP44_TYPE) ++ "'") in
           on_this (fun n =>
             set_lastWallet (Math_max (parseInt (array_get path 5)) (lastWallet n)) n) ;;;
           ret (Some (join "/" path))
     | None => ret None
     end) ;;
  match cVout, index (TxSpecific.vout cTx) 0 with
  | Some cVout, Some cVout0 =>
      let isColdStake :=
        TxSpecific.type (TxSpecific.scriptPubKey cVout) =? "coldstake" in
      let isStandard :=
        TxSpecific.type (TxSpecific.scriptPubKey cVout) =? "pubkeyhash" in
      let isReward := TxSpecific.hex (TxSpecific.scriptPubKey cVout0) =? "" in
      if negb isColdStake && negb isStandard then ret None
      else
        nBlocks <- cachedBlockCount ;;
        ret (Some
          {| id := eu_txid cUTXO;
             path := path;
             sats := Math_round (TxSpecific.value cVout * COIN)%float;
             script := TxSpecific.hex (TxSpecific.scriptPubKey cVout);
             vout := TxSpecific.n cVout;
             height := Some (nBlocks - (TxSpecific.confirmations cTx - 1))%Z;
             status := if (TxSpecific.confirmations cTx <? 1)%Z then PENDING
                       else CONFIRMED;
             isDelegate := isColdStake;
             isReward := isReward |})
  | _, _ => throw TypeError
  end.

(** [send_resp] is the parsed answer to the POST; the result is [None] for
    [undefined]. *)
Definition sendTransaction (hex : string) (send_resp : option js_value)
    : M World (option bool) :=
  try_catch
    (w <- get ;;
     data <- fetch_json (strUrl (this w) ++ "/api/v2/sendtx/") (Some hex) send_resp ;;
     res <- lift (get_prop data "result") ;;
     if truthy res && length_is res 64 then
       (* console.log('Transaction sent! ' + data.result) *)
       lift (to_string_step res) ;;;
       emit "transaction-sent" [VBool true] ;;;
       ret (Some true)
     else
       (* console.log('Error sending transaction: ' + data.result) *)
       lift (to_string_step res) ;;;
       err <- lift (get_prop data "error") ;;
       emit "transaction-sent" [VBool false; err] ;;;
       ret (Some false))
    (fun _ => error ;;; ret None).

(** The closure [txSum], with the [mapPaths] it captures. *)
Definition txSum (mapPaths : Map_t) (v : list History.vio_t) : float :=
  fold_left
    (fun t s =>
       (t + (if negb (Nat.eqb
                        (List.length
                           (filter truthy_entry
                              (map (Map_get String.eqb mapPaths) (History.addresses s))))
                        0)
                && Nat.eqb (List.length (History.addresses s)) 2
             then parseInt (History.value s)
             else 0))%float)
    v 0%float.

(** [tx.vout[0].addresses[0] === 'CoinStake TX']. *)
Definition isCoinStake (tx : History.tx_t) : result bool :=
  match History.vout tx with
  | [] => Throw TypeError
  | o :: _ =>
      Ok (match History.addresses o with
          | a :: _ => a =? "CoinStake TX"
          | [] => false
          end)
  end.

(** [history_resp] is the parsed answer to the history request ([Some None]
    for a JSON [null]); the result is [None] for [undefined]. *)
Definition getStakingRewards `{Externals}
    (history_resp : option (option History.t))
    : M World (option (list StakingReward)) :=
  w <- get ;;
  match _enabled (this w), masterKey (this w) with
  | true, Some mk =>
      let nHeight :=
        match last_elem (arrRewards (this w)) with
        | Some r => blockHeight r
        | None => 0%Z
        end in
      fetched <-
        (if isHD mk then
           let derivationPath := accountPath (isHardwareWallet mk) in
           xpub <- await (getxpub mk derivationPath) ;;
           cData <- fetch_json
                      (strUrl (this w) ++ "/api/v2/xpub/" ++ xpub ++
                       "?details=txs&pageSize=500&to=" ++
                       show_Z (if (nHeight =? 0)%Z then 0 else nHeight - 1))
                      None history_resp ;;
           match cData with
           | None => throw TypeError
           | Some d =>
               ret (cData,
                    match History.tokens d with
                    | Some tokens =>
                        fold_left
                          (fun m cAddrPath =>
                             Map_set String.eqb m (History.name cAddrPath)
                               (History.path cAddrPath))
                          tokens []
                    | None => []
                    end)
           end
         else
           address <- await (getAddress mk None) ;;
           cData <- fetch_json
                      (strUrl (this w) ++ "/api/v2/address/" ++ address ++
                       "?details=txs&pageSize=500&to=" ++
                       show_Z (if (nHeight =? 0)%Z then 0 else nHeight - 1))
                      None history_resp ;;
           ret (cData, Map_set String.eqb [] address ":)")) ;;
      let '(cData, mapPaths) := fetched in
      match cData with
      | Some {| History.transactions := Some transactions |} =>
          stakes <- lift (filter_throwing isCoinStake transactions) ;;
          on_this (fun n =>
            set_arrRewards
              (arrRewards n ++
               filter (fun tx => negb (amount tx =? 0)%float)
                 (map (fun tx =>
                         {| rw_id := History.txid tx;
                            time := History.blockTime tx;
                            blockHeight := History.blockHeight tx;
                            amount := ((txSum mapPaths (History.vout tx)
                                        - txSum mapPaths (History.vin tx))
                                       / COIN)%float |})
                      stakes))
              n)
      | _ => ret tt
      end ;;;
      w' <- get ;;
      ret (Some (arrRewards (this w')))
  | _, _ => ret None
  end.

Definition setMasterKey (k : option MasterKey) : M World unit :=
  on_this (set_masterKey k) ;;;
  on_this (set_arrRewards []).

End ExplorerNetwork.

(** ** [network.js]: the top-level functions left after the class *)

Module NetworkJs.

(** The left-over functions read four identifiers that [network.js]
    neither declares nor imports: [networkEnabled], [masterKey],
    [arrRewards] and [cExplorer].  They are taken as parameters: the state
    these functions run in has one field for each, holding whatever the
    binding holds, and [arrRewards], which [getStakingRewards] assigns, is
    read from the state that is returned.  ([global.js] imports
    [networkEnabled] and [arrRewards] from [network.js] and [cExplorer] from
    [settings.js]; the spec lists [masterKey] and [arrRewards] among the
    global mutable state.)  The functions stand between the markers of an
    unresolved merge; each is read as the function it is on its own.  The
    fields carry a [g_] where the name is taken by a field of [network]. *)
Record Globals : Type := {
  networkEnabled : bool;
  g_masterKey : option MasterKey;
  g_arrRewards : list StakingReward;
  cExplorer_url : string;
  g_trace : list effect
}.

Definition set_g_arrRewards (v : list StakingReward) (g : Globals) : Globals :=
  {| networkEnabled := networkEnabled g; g_masterKey := g_masterKey g;
     g_arrRewards := v; cExplorer_url := cExplorer_url g; g_trace := g_trace g |}.

Definition perform (e : effect) : M Globals unit :=
  modify (fun g =>
    {| networkEnabled := networkEnabled g; g_masterKey := g_masterKey g;
       g_arrRewards := g_arrRewards g; cExplorer_url := cExplorer_url g;
       g_trace := g_trace g ++ [e] |}).

Definition fetch_json {A} (url : string) (resp : option A) : M Globals A :=
  perform (Fetch url None) ;;; await resp.

Definition getFee (bytes : float) : float := (bytes * 50)%float.

Definition txSum (mapPaths : Map_t) (v : list History.vio_t) : float :=
  fold_left
    (fun t s =>
       (t + (if negb (Nat.eqb
                        (List.length
                           (filter truthy_entry
                              (map (Map_get String.eqb mapPaths) (History.addresses s))))
                        0)
                && Nat.eqb (List.length (History.addresses s)) 2
             then parseInt (History.value s)
             else 0))%float)
    v 0%float.

Definition isCoinStake (tx : History.tx_t) : result bool :=
  match History.vout tx with
  | [] => Throw TypeError
  | o :: _ =>
      Ok (match History.addresses o with
          | a :: _ => a =? "CoinStake TX"
          | [] => false
          end)
  end.

Definition stopAnim : M Globals unit :=
  perform (DomStyle "domGuiStakingLoadMoreIcon" "opacity" "1").

Definition getStakingRewards `{Externals}
    (history_resp : option (option History.t)) : M Globals unit :=
  g <- get ;;
  match networkEnabled g, g_masterKey g with
  | true, Some mk =>
      perform (DomStyle "domGuiStakingLoadMoreIcon" "opacity" "0.5") ;;;
      let nHeight :=
        match last_elem (g_arrRewards g) with
        | Some r => blockHeight r
        | None => 0%Z
        end in
      fetched <-
        (if isHD mk then
           let derivationPath :=
             join "/" (firstn 4 (split "/" (getDerivationPath (isHardwareWallet mk)))) in
           xpub <- await (getxpub mk derivationPath) ;;
           cData <- fetch_json
                      (cExplorer_url g ++ "/api/v2/xpub/" ++ xpub ++
                       "?details=txs&pageSize=500&to=" ++
                       show_Z (if (nHeight =? 0)%Z then 0 else nHeight - 1))
                      history_resp ;;
           match cData with
           | None => throw TypeError
           | Some d =>
               ret (cData,
                    match History.tokens d with
                    | Some tokens =>
                        fold_left
                          (fun m cAddrPath =>
                             Map_set String.eqb m (History.name cAddrPath)
                               (History.path cAddrPath))
                          tokens []
                    | None => []
                    end)
           end
         else
           address <- await (getAddress mk None) ;;
           cData <- fetch_json
                      (cExplorer_url g ++ "/api/v2/address/" ++ address ++
                       "?details=txs&pageSize=500&to=" ++
                       show_Z (if (nHeight =? 0)%Z then 0 else nHeight - 1))
                      history_resp ;;
           ret (cData, Map_set String.eqb [] address ":)")) ;;
      let '(cData, mapPaths) := fetched in
      match cData with
      | Some {| History.transactions := Some transactions;
                History.itemsOnPage := itemsOnPage |} =>
          stakes <- lift (filter_throwing isCoinStake transactions) ;;
          modify (fun g' =>
            set_g_arrRewards
              (g_arrRewards g' ++
               filter (fun tx => negb (amount tx =? 0)%float)
                 (map (fun tx =>
                         {| rw_id := History.txid tx;
                            time := History.blockTime tx;
                            blockHeight := History.blockHeight tx;
                            amount := ((txSum mapPaths (History.vout tx)
                                        - txSum mapPaths (History.vin tx))
                                       / COIN)%float |})
                      stakes))
              g') ;;;
          (match itemsOnPage with
           | Some k =>
               if (Z.of_nat (List.length transactions) =? k)%Z then ret tt
               else perform (DomStyle "domGuiStakingLoadMore" "display" "none")
           | None => perform (DomStyle "domGuiStakingLoadMore" "display" "none")
           end) ;;;
          stopAnim ;;;
          perform (UpdateStakingRewardsGUI true)
      | _ =>
          perform (DomStyle "domGuiStakingLoadMore" "display" "none") ;;;
          stopAnim
      end
  | _, _ => ret tt
  end.

End NetworkJs.

(** ** More of JavaScript's arrays and strings *)

(** The relative index of [slice]: a negative index counts from the end,
    and both ends are clamped to the array. *)
Definition slice_bound (len : nat) (i : Z) : nat :=
  if (i <? 0)%Z then Z.to_nat (Z.max (Z.of_nat len + i) 0)
  else Nat.min (Z.to_nat i) len.

(** [a.slice(start, end)]; [a.slice(start)] when [end_] is [None]. *)
Definition slice {A} (a : list A) (start : Z) (end_ : option Z) : list A :=
  let len := List.length a in
  let k := slice_bound len start in
  let final :=
    match end_ with
    | Some e => slice_bound len e
    | None => len
    end in
  firstn (final - k) (skipn k a).

(** [s.includes(c)] for a one-character needle. *)
Fixpoint includes (s : string) (c : ascii) : bool :=
  match s with
  | EmptyString => false
  | String c' r => Ascii.eqb c' c || includes r c
  end.

(** [a === b] on array reads that may be [undefined] ([None]). *)
Definition read_eqb (a b : option Z) : bool :=
  match a, b with
  | Some x, Some y => (x =? y)%Z
  | None, None => true
  | _, _ => false
  end.

(** [cChainParams.current.MASTERNODE_PORT], read by [importMasternode]. *)
Class MoreExternals : Type := {
  MASTERNODE_PORT : Z
}.

(** ** [global.js]: the masternode functions *)

(** [{walletPrivateKeyPath, mnPrivateKey, collateralTxId, outidx, addr}]: what
    [new Masternode({...})] is given and what [JSON.parse] of the stored blob
    yields.  Local storage's [masternode] entry is modelled by this parsed
    form, [None] when there is no entry. *)
Record Masternode : Type := {
  walletPrivateKeyPath : string;
  mnPrivateKey : string;
  collateralTxId : string;
  outidx : Z;
  addr : string
}.

(** The argument of [autoRemoveUTXO]. *)
Record outpoint_ref : Type := {
  or_id : string;
  or_path : option string;
  or_vout : Z
}.

(** The methods of [Mempool] ([mempool.js], not part of the sources) that
    [global.js] calls. *)
Class Mempool (T : Type) : Type := {
  getConfirmed : T -> list UTXO;
  getBalance : T -> float;
  addUTXO : UTXO -> T -> T;
  autoRemoveUTXO : outpoint_ref -> T -> T
}.

(** Modelled from the spec: [mempool.js] is missing.  The mempool is the
    in-memory UTXO set ("Mempool — in-memory UTXO set; ... tracks confirmed
    vs pending state"); a UTXO is "created on explorer fetch or optimistic
    post-broadcast insertion; removed when spent ([autoRemoveUTXO])".  The
    balance sums the confirmed outputs. *)
Definition ListMempool : Mempool (list UTXO) := {|
  getConfirmed := filter (fun u => Status_eqb (status u) CONFIRMED);
  getBalance := fun m =>
    fold_left (fun t u => (t + sats u)%float)
      (filter (fun u => Status_eqb (status u) CONFIRMED) m) 0%float;
  addUTXO := fun u m => m ++ [u];
  autoRemoveUTXO := fun o m =>
    filter (fun u => negb ((id u =? or_id o) && (vout u =? or_vout o)%Z)) m
|}.

Module Global.

(** The state [global.js] works on: [masterKey] (imported from [wallet.js]),
    the [mempool] singleton, local storage's [masternode] entry, what
    [hasEncryptedWallet()] answers, and the trace of page writes and alerts. *)
Record App (T : Type) : Type := {
  app_masterKey : option MasterKey;
  mempool : T;
  storage_masternode : option Masternode;
  encryptedWallet : bool;
  app_trace : list effect
}.
Arguments app_masterKey {T} _.
Arguments mempool {T} _.
Arguments storage_masternode {T} _.
Arguments encryptedWallet {T} _.
Arguments app_trace {T} _.

Section Functions.

Context `{Externals} {T : Type} `{Mempool T}.

Definition perform (e : effect) : M (App T) unit :=
  modify (fun a =>
    {| app_masterKey := app_masterKey a; mempool := mempool a;
       storage_masternode := storage_masternode a;
       encryptedWallet := encryptedWallet a;
       app_trace := app_trace a ++ [e] |}).

Definition on_mempool (f : T -> T) : M (App T) unit :=
  modify (fun a =>
    {| app_masterKey := app_masterKey a; mempool := f (mempool a);
       storage_masternode := storage_masternode a;
       encryptedWallet := encryptedWallet a;
       app_trace := app_trace a |}).

(** [localStorage.setItem("masternode", JSON.stringify(m))] for [Some m],
    [localStorage.removeItem("masternode")] for [None]. *)
Definition store_masternode (v : option Masternode) : M (App T) unit :=
  modify (fun a =>
    {| app_masterKey := app_masterKey a; mempool := mempool a;
       storage_masternode := v;
       encryptedWallet := encryptedWallet a;
       app_trace := app_trace a |}).

Definition createAlert (type message : string) : M (App T) unit :=
  perform (CreateAlert type message).

(** [masterKey.x]: a TypeError when no wallet is loaded. *)
Definition the_masterKey : M (App T) MasterKey :=
  a <- get ;;
  match app_masterKey a with
  | Some mk => ret mk
  | None => throw TypeError
  end.

(** Set in [start()]. *)
Definition masternodeLegacyAccessText : string :=
  "Access the masternode linked to this address<br> Note: the masternode MUST have been already created (however it can be online or offline)<br>  If you want to create a new masternode access with a HD wallet".

Definition masternodeHDAccessText : string :=
  "Access your masternodes if you have any! If you don't you can create one".

(** An input of the transaction under construction ([cTx.inputs]). *)
Record tx_input : Type := {
  outpoint_hash : string;
  outpoint_index : Z;
  in_path : option string
}.

(** What [chooseUTXOs(cTx, nValue, 0, false)] returns, with the inputs it
    has added to [cTx]. *)
Record coin_control : Type := {
  success : bool;
  msg : string;
  cc_nValue : float;
  cc_inputs : list tx_input
}.

(** What the environment answers during one run of [createMasternode]. *)
Record create_env : Type := {
  domMnCreateType_value : string;
  newAddress : option (string * string);       (* first [getNewAddress()] *)
  cCoinControl : coin_control;
  serializedLength : float;                    (* [cTx.serialize().length] *)
  changeAddressAnswer : option (string * string);
  outputScript0 : string;     (* [bytesToHex(cTx.outputs[0].script)] *)
  outputScript1 : string;
  signedTx : option string;   (* [cTx.sign(masterKey, 1)], or the Ledger's
                                 serialised transaction; [None]: rejected *)
  sendResult : option js_value;  (* what [sendTransaction] resolves to *)
  mnPrivkey : option string;     (* [generateMnPrivkey()] *)
  debug : bool                   (* the [debug] setting *)
}.

(** The block that follows [sendTransaction] in both signing branches. *)
Definition afterBroadcast (env : create_env) (strTx : string)
    (nChange nValue : float) (changeAddressPath strAddressPath : string)
    : M (App T) unit :=
  result <- await (sendResult env) ;;
  if truthy result then
    on_mempool (fun m =>
      fold_left
        (fun m tx =>
           autoRemoveUTXO
             {| or_id := outpoint_hash tx; or_path := in_path tx;
                or_vout := outpoint_index tx |} m)
        (cc_inputs (cCoinControl env)) m) ;;;
    let futureTxid := txidOf strTx in
    on_mempool (addUTXO
      {| id := futureTxid; path := Some changeAddressPath; sats := nChange;
         script := outputScript0 env; vout := 0; height := None;
         status := PENDING; isDelegate := false; isReward := false |}) ;;;
    on_mempool (addUTXO
      {| id := futureTxid; path := Some strAddressPath; sats := nValue;
         script := outputScript1 env; vout := 1; height := None;
         status := PENDING; isDelegate := false; isReward := false |})
  else ret tt.

(** The text the debug setting puts into [domHumanReadable]. *)
Definition humanReadable (nBalance nFee : float) (strAddress : string)
    (nValue nChange : float) (changeAddress : string) : string :=
  "Balance: " ++ show_Number (nBalance / COIN)%float ++
  "<br>Fee: " ++ show_Number (nFee / COIN)%float ++
  "<br>To: " ++ strAddress ++
  "<br>Sent: " ++ show_Number (nValue / COIN)%float ++
  (if (0 <? nChange)%float
   then "<br>Change Address: " ++ changeAddress ++
        "<br>Change: " ++ show_Number (nChange / COIN)%float
   else "").

(** For a hardware wallet the preparation of the inputs and the
    confirmation popup of the Ledger are part of what [signedTx] answers:
    they leave no effect of their own on the trace. *)
Definition createMasternode (env : create_env) : M (App T) unit :=
  mk <- the_masterKey ;;
  if isViewOnly mk then
    createAlert "warning" "Can't create a masternode in view only mode"
  else
    let fGeneratePrivkey := domMnCreateType_value env =? "VPS" in
    addr <- await (newAddress env) ;;
    let '(strAddress, strAddressPath) := addr in
    let nValue := collateralInSats in
    a0 <- get ;;
    let nBalance := getBalance (mempool a0) in
    if negb (success (cCoinControl env)) then
      perform (WindowAlert (msg (cCoinControl env)))
    else
      let nFee := NetworkJs.getFee (serializedLength env) in
      let nChange := (cc_nValue (cCoinControl env) - (nFee + nValue))%float in
      change <- await (changeAddressAnswer env) ;;
      let '(changeAddress, changeAddressPath) := change in
      if negb (0 <? nChange)%float then
        createAlert "warning"
          ("You don't have enough " ++ TICKER ++ " to create a masternode")
      else
        (if debug env then
           perform (DomHtml "domHumanReadable"
                      (humanReadable nBalance nFee strAddress nValue nChange
                         changeAddress))
         else ret tt) ;;;
        (if negb (isHardwareWallet mk) then
           sign <- await (signedTx env) ;;
           afterBroadcast env sign nChange nValue changeAddressPath strAddressPath
         else
           strSerialisedTx <- await (signedTx env) ;;
           afterBroadcast env strSerialisedTx nChange nValue
             changeAddressPath strAddressPath) ;;;
        (if fGeneratePrivkey then
           masternodePrivateKey <- await (mnPrivkey env) ;;
           perform (ConfirmPopup CONFIRM_POPUP_MN_P_KEY
                      (masternodePrivateKey ++ CONFIRM_POPUP_MN_P_KEY_HTML))
         else ret tt) ;;;
        createAlert "success"
          "<b>Masternode Created!<b><br>Wait 15 confirmations to proceed further" ;;;
        store_masternode None.

(** [storage] is local storage's entry; [masternode] the optional argument. *)
Definition isMasternodeUTXO (storage : option Masternode) (cUTXO : UTXO)
    (masternode : option Masternode) : bool :=
  let cMasternode :=
    match masternode with
    | Some m => Some m
    | None => storage
    end in
  match cMasternode with
  | Some m => (collateralTxId m =? id cUTXO) && (vout cUTXO =? outidx m)%Z
  | None => false
  end.

(** What [getFullData()] resolves to. *)
Record masternode_data : Type := {
  md_status : string;
  md_version : string;
  md_network : string;
  md_lastseen : Z
}.

(** [fullData]: the answer of [cMasternode.getFullData()] ([Some None] for
    null); [started]: the answer of [cMasternode.start()]. *)
Definition refreshMasternodeData (fullData : option (option masternode_data))
    (started : option bool) (cMasternode : Masternode) (fAlert : bool)
    : M (App T) (option masternode_data) :=
  cMasternodeData <- await fullData ;;
  match cMasternodeData with
  | None => throw TypeError
  | Some d =>
      (if negb (md_status d =? "MISSING") then
         perform (DomHtml "domMnTextErrors" "") ;;;
         perform (DomHtml "domMnProtocol" ("(" ++ sanitizeHTML (md_version d) ++ ")")) ;;;
         perform (DomHtml "domMnStatus" (sanitizeHTML (md_status d))) ;;;
         perform (DomHtml "domMnNetType" (sanitizeHTML (toUpperCase (md_network d)))) ;;;
         perform (DomHtml "domMnNetIP" (addr cMasternode)) ;;;
         perform (DomHtml "domMnLastSeen" (toLocaleTimeString (md_lastseen d * 1000)))
       else ret tt) ;;;
      (if md_status d =? "MISSING" then
         perform (DomHtml "domMnTextErrors" "Masternode is currently <b>OFFLINE</b>") ;;;
         mk <- the_masterKey ;;
         if negb (isViewOnly mk) then
           createAlert "warning" "Your masternode is offline, we will try to start it" ;;;
           ok <- await started ;;
           if ok then
             perform (DomHtml "domMnTextErrors" "Masternode successfully started!") ;;;
             createAlert "success" "Masternode successfully started!, it will be soon online" ;;;
             store_masternode (Some cMasternode)
           else
             perform (DomHtml "domMnTextErrors" "We couldn't start your masternode") ;;;
             createAlert "warning" "We could not start your masternode"
         else ret tt
       else if (md_status d =? "ENABLED") || (md_status d =? "PRE_ENABLED") then
         (if fAlert then
            createAlert "success"
              ("Your masternode status is <b> " ++ sanitizeHTML (md_status d) ++ " </b>")
          else ret tt) ;;;
         store_masternode (Some cMasternode)
       else if md_status d =? "REMOVED" then
         perform (DomHtml "domMnTextErrors" "Masternode is currently <b>REMOVED</b>") ;;;
         (if fAlert then
            createAlert "warning" "Your masternode is in <b>REMOVED</b> state"
          else ret tt)
       else
         perform (DomHtml "domMnTextErrors" "Unable to connect!") ;;;
         (if fAlert then createAlert "warning" "Unable to connect!" else ret tt)) ;;;
      ret cMasternodeData
  end.

Definition option_string_eqb (a b : option string) : bool :=
  match a, b with
  | Some x, Some y => x =? y
  | None, None => true
  | _, _ => false
  end.

(** [for (const [key, value] of mapCollateralAddresses)]: one option of the
    selector per collateral address. *)
Fixpoint appendOptions (mk : MasterKey) (entries : list (option string * UTXO))
    : M (App T) unit :=
  match entries with
  | [] => ret tt
  | (key, _) :: tl =>
      text <- await (getAddress mk key) ;;
      perform (DomAppendOption "domMnTxId" key text) ;;;
      appendOptions mk tl
  end.

Definition updateMasternodeTab (fullData : option (option masternode_data))
    (started : option bool) : M (App T) unit :=
  perform (DomHtml "domMnTextErrors" "") ;;;
  perform (DomStyle "domAccessMasternode" "display" "none") ;;;
  perform (DomStyle "domCreateMasternode" "display" "none") ;;;
  perform (DomStyle "domMnDashboard" "display" "none") ;;;
  a <- get ;;
  match app_masterKey a with
  | None =>
      perform (DomHtml "domMnTextErrors"
        ("Please " ++ (if encryptedWallet a then "unlock" else "import") ++
         " your <b>COLLATERAL WALLET</b> first."))
  | Some mk =>
      if isHardwareWallet mk then
        perform (DomStyle "domMnTxId" "display" "none") ;;;
        perform (DomHtml "domMnTextErrors" "Ledger is not yet supported")
      else if Nat.eqb (List.length (getConfirmed (mempool a))) 0 then
        perform (DomHtml "domMnTextErrors"
          "Your wallet is empty or still loading, re-open the tab in a few seconds!")
      else
        strMasternodeJSON <-
          (match storage_masternode a with
           | Some cMasternode =>
               if negb (existsb
                          (fun utxo =>
                             isMasternodeUTXO (storage_masternode a) utxo
                               (Some cMasternode))
                          (getConfirmed (mempool a)))
               then store_masternode None ;;; ret None
               else ret (Some cMasternode)
           | None => ret None
           end) ;;
        perform (DomStyle "domControlMasternode" "display"
                   (match strMasternodeJSON with
                    | Some _ => "block"
                    | None => "none"
                    end)) ;;;
        if negb (isHD mk) then
          perform (DomHtml "domMnAccessMasternodeText" masternodeLegacyAccessText) ;;;
          perform (DomStyle "domMnTxId" "display" "none") ;;;
          let cCollaUTXO :=
            find (fun cUTXO => (sats cUTXO =? collateralInSats)%float)
              (getConfirmed (mempool a)) in
          let balance := getBalance (mempool a) in
          match cCollaUTXO with
          | Some _ =>
              match strMasternodeJSON with
              | Some _ =>
                  a' <- get ;;
                  match storage_masternode a' with
                  | Some cMasternode =>
                      refreshMasternodeData fullData started cMasternode false ;;;
                      perform (DomStyle "domMnDashboard" "display" "")
                  | None => throw TypeError
                  end
              | None =>
                  perform (DomStyle "domMnTxId" "display" "none") ;;;
                  (* [doms.domccessMasternode] is undefined *)
                  throw TypeError
              end
          | None =>
              if (balance <? collateralInSats)%float then
                perform (DomHtml "domMnTextErrors"
                  ("You need <b>" ++
                   show_Number ((collateralInSats - balance) / COIN)%float ++
                   " more " ++ TICKER ++ "</b> to create a Masternode!"))
              else
                perform (DomStyle "domCreateMasternode" "display" "block") ;;;
                perform (DomStyle "domMnTxId" "display" "none") ;;;
                perform (DomHtml "domMnTxId" "")
          end
        else
          perform (DomStyle "domMnTxId" "display" "none") ;;;
          perform (DomHtml "domMnTxId" "") ;;;
          perform (DomHtml "domMnAccessMasternodeText" masternodeHDAccessText) ;;;
          let mapCollateralAddresses :=
            fold_left
              (fun m cUTXO =>
                 if negb (sats cUTXO =? collateralInSats)%float then m
                 else Map_set option_string_eqb m (path cUTXO) cUTXO)
              (getConfirmed (mempool a)) [] in
          let fHasCollateral :=
            negb (Nat.eqb (List.length mapCollateralAddresses) 0) in
          (if match strMasternodeJSON with Some _ => false | None => true end
              && fHasCollateral then
             perform (DomStyle "domMnTxId" "display" "block") ;;;
             perform (DomStyle "domAccessMasternode" "display" "block") ;;;
             appendOptions mk mapCollateralAddresses
           else ret tt) ;;;
          (if negb fHasCollateral then
             perform (DomStyle "domCreateMasternode" "display" "block")
           else ret tt) ;;;
          match fHasCollateral, strMasternodeJSON with
          | true, Some cMasternode =>
              perform (DomStyle "domMnDashboard" "display" "") ;;;
              detached (refreshMasternodeData fullData started cMasternode false)
          | _, _ => ret tt
          end
  end.

(** [updateMasternodeTab()] is the last statement and is not awaited. *)
Definition destroyMasternode (fullData : option (option masternode_data))
    (started : option bool) : M (App T) unit :=
  a <- get ;;
  match storage_masternode a with
  | Some _ =>
      store_masternode None ;;;
      createAlert "success"
        "<b>Masternode destroyed!</b><br>Your coins are now spendable." ;;;
      detached (updateMasternodeTab fullData started)
  | None => ret tt
  end.

(** The three inputs of the import form, which [importMasternode] reads and
    clears. *)
Record mn_form : Type := {
  domMnPrivateKey_value : string;
  domMnIP_value : string;
  domMnTxId_value : string
}.

(** Run a computation on the application state, leaving the form alone. *)
Definition on_app {A} (c : M (App T) A) : M (mn_form * App T) A :=
  fun s =>
    match c (snd s) with
    | (r, a') => (r, (fst s, a'))
    end.

Definition on_form (f : mn_form -> mn_form) : M (mn_form * App T) unit :=
  modify (fun s => (f (fst s), snd s)).

(** [u.path === path] for a string [path]. *)
Definition path_is (strPath : string) (u : UTXO) : bool :=
  match path u with
  | Some p => p =? strPath
  | None => false
  end.

(** [a.findLast(p)]. *)
Definition findLast {A} (p : A -> bool) (a : list A) : option A :=
  find p (rev a).

(** [fullData1], [started1] answer the [refreshMasternodeData] of the
    import; [fullData2], [started2] the [updateMasternodeTab] that follows. *)
Definition importMasternode `{MoreExternals}
    (fullData1 : option (option masternode_data)) (started1 : option bool)
    (fullData2 : option (option masternode_data)) (started2 : option bool)
    : M (mn_form * App T) unit :=
  s <- get ;;
  let mnPrivKey := domMnPrivateKey_value (fst s) in
  let ip := domMnIP_value (fst s) in
  on_form (fun f =>
    {| domMnPrivateKey_value := domMnPrivateKey_value f;
       domMnIP_value := "";
       domMnTxId_value := domMnTxId_value f |}) ;;;
  on_form (fun f =>
    {| domMnPrivateKey_value := "";
       domMnIP_value := domMnIP_value f;
       domMnTxId_value := domMnTxId_value f |}) ;;;
  let address :=
    if negb (includes ip ":") then (ip ++ ":" ++ show_Z MASTERNODE_PORT)%string
    else ip in
  mk <- on_app the_masterKey ;;
  collateral <-
    (if negb (isHD mk) then
       match find (fun cUTXO => (sats cUTXO =? collateralInSats)%float)
               (getConfirmed (mempool (snd s))) with
       | None =>
           (if (getBalance (mempool (snd s)) <? collateralInSats)%float then
              on_app (createAlert "warning"
                ("You need <b>" ++
                 show_Number ((collateralInSats - getBalance (mempool (snd s)))
                              / COIN)%float ++
                 " more " ++ TICKER ++ "</b> to create a Masternode!"))
            else
              on_app (createAlert "warning"
                ("You have enough balance for a Masternode, but no valid collateral UTXO of " ++
                 show_Number (collateralInSats / COIN)%float ++ " " ++ TICKER))) ;;;
           ret None
       | Some cCollaUTXO =>
           ret (Some (id cCollaUTXO, vout cCollaUTXO, "legacy"))
       end
     else
       s' <- get ;;
       let path := domMnTxId_value (fst s') in
       match findLast (path_is path) (getConfirmed (mempool (snd s'))) with
       | None => throw TypeError
       | Some masterUtxo =>
           if negb (sats masterUtxo =? collateralInSats)%float then
             on_app (createAlert "warning"
                       "This is not a suitable UTXO for a Masternode") ;;;
             ret None
           else ret (Some (id masterUtxo, vout masterUtxo, path))
       end) ;;
  match collateral with
  | None => ret tt
  | Some (collateralTxId, outidx, collateralPrivKeyPath) =>
      on_form (fun f =>
        {| domMnPrivateKey_value := domMnPrivateKey_value f;
           domMnIP_value := domMnIP_value f;
           domMnTxId_value := "" |}) ;;;
      let cMasternode :=
        {| walletPrivateKeyPath := collateralPrivKeyPath;
           mnPrivateKey := mnPrivKey;
           collateralTxId := collateralTxId;
           outidx := outidx;
           addr := address |} in
      on_app (refreshMasternodeData fullData1 started1 cMasternode true) ;;;
      on_app (updateMasternodeTab fullData2 started2)
  end.

End Functions.

(** *** The byte-array helpers *)

(** [[...arr.slice(0, index), newItem, ...arr.slice(index)]]. *)
Definition insert {A} (arr : list A) (index : Z) (newItem : A) : list A :=
  slice arr 0 (Some index) ++ [newItem] ++ slice arr index None.

(** [a[i]++] on an element that is there. *)
Fixpoint array_incr (a : list Z) (i : nat) : list Z :=
  match a, i with
  | [], _ => []
  | x :: tl, O => (x + 1)%Z :: tl
  | x :: tl, S j => x :: array_incr tl j
  end.

(** The loop of [addScriptLength] with [n] iterations left, at index [i].
    [new_transaction_bytes] is the array [arrTxBytes] itself, so the
    increments are seen by the later reads: the result is what is returned
    ([None]: undefined) together with the array as the call leaves it. *)
Fixpoint addScriptLength_loop (n i : nat) (arrTxBytes : list Z)
    (n_found nInputLen : Z) : option (list Z) * list Z :=
  match n with
  | O => (None, arrTxBytes)
  | S n' =>
      if read_eqb (nth_error arrTxBytes (i + 1)) (Some 71%Z)
         || read_eqb (nth_error arrTxBytes (i + 1)) (Some 72%Z)
         || read_eqb (nth_error arrTxBytes (i + 1)) (Some 73%Z)
      then
        match nth_error arrTxBytes i with
        | Some len_i =>
            if read_eqb (index arrTxBytes (Z.of_nat i + len_i))
                 (nth_error arrTxBytes (List.length arrTxBytes - 1))
            then
              let new_transaction_bytes := array_incr arrTxBytes i in
              let n_found := (n_found + 1)%Z in
              if (n_found =? nInputLen)%Z
              then (Some new_transaction_bytes, new_transaction_bytes)
              else addScriptLength_loop n' (S i) new_transaction_bytes
                     n_found nInputLen
            else addScriptLength_loop n' (S i) arrTxBytes n_found nInputLen
        | None => addScriptLength_loop n' (S i) arrTxBytes n_found nInputLen
        end
      else addScriptLength_loop n' (S i) arrTxBytes n_found nInputLen
  end.

(** The second parameter is not used. *)
Definition addScriptLength (arrTxBytes arrTxBytes2 : list Z) (nInputLen : Z)
    : option (list Z) * list Z :=
  addScriptLength_loop (List.length arrTxBytes) 0 arrTxBytes 0 nInputLen.

(** The loop of [findCompressedPubKey]; an entry of the key is [None] where
    the read falls past the end of the array. *)
Fixpoint findCompressedPubKey_loop (n i : nat) (arrTxBytes : list Z)
    : option (list (option Z)) :=
  match n with
  | O => None
  | S n' =>
      if read_eqb (nth_error arrTxBytes i) (Some 1%Z) then
        if read_eqb (nth_error arrTxBytes (i + 1)) (Some 33%Z) then
          Some (map (fun j => nth_error arrTxBytes (i + 2 + j)) (seq 0 33))
        else findCompressedPubKey_loop n' (S i) arrTxBytes
      else findCompressedPubKey_loop n' (S i) arrTxBytes
  end.

Definition findCompressedPubKey (arrTxBytes : list Z) : option (list (option Z)) :=
  findCompressedPubKey_loop (List.length arrTxBytes) 0 arrTxBytes.

(** The inner loop of [addExtraBytes]: does [arrPubkeyBytes] start at [i]? *)
Definition pubkey_at (arrTxBytes arrPubkeyBytes : list Z) (i : nat) : bool :=
  forallb
    (fun j => read_eqb (nth_error arrTxBytes (i + j)) (nth_error arrPubkeyBytes j))
    (seq 0 (List.length arrPubkeyBytes)).

Fixpoint addExtraBytes_loop (n i : nat) (arrTxBytes arrPubkeyBytes : list Z)
    (nLen : Z) (arrNewTxBytes : list Z) (nFound : Z) : list Z :=
  match n with
  | O => arrNewTxBytes
  | S n' =>
      match nth_error arrTxBytes i with
      | None => arrNewTxBytes
      | Some b =>
          let arrNewTxBytes := arrNewTxBytes ++ [b] in
          if negb (nFound =? nLen)%Z && pubkey_at arrTxBytes arrPubkeyBytes i
          then
            addExtraBytes_loop n' (S i) arrTxBytes arrPubkeyBytes nLen
              (insert arrNewTxBytes (Z.of_nat (List.length arrNewTxBytes) - 2) 0%Z)
              (nFound + 1)%Z
          else
            addExtraBytes_loop n' (S i) arrTxBytes arrPubkeyBytes nLen
              arrNewTxBytes nFound
      end
  end.

Definition addExtraBytes (arrTxBytes arrPubkeyBytes : list Z) (nLen : Z)
    : list Z :=
  addExtraBytes_loop (List.length arrTxBytes) 0 arrTxBytes arrPubkeyBytes nLen [] 0%Z.

End Global.

(** ** The rewards update in the words of the spec *)

(** "The transactions whose first output address is 'CoinStake TX'". *)
Definition first_output_is_CoinStake (tx : History.tx_t) : bool :=
  match History.vout tx with
  | o :: _ =>
      match History.addresses o with
      | a :: _ => a =? "CoinStake TX"
      | [] => false
      end
  | [] => false
  end.

(** "The {id, time, blockHeight, amount} record", the amount being the
    [txSum] over the outputs minus the one over the inputs, in coins. *)
Definition reward_record `{Externals} (mapPaths : Map_t) (tx : History.tx_t)
    : StakingReward :=
  {| rw_id := History.txid tx;
     time := History.blockTime tx;
     blockHeight := History.blockHeight tx;
     amount := ((ExplorerNetwork.txSum mapPaths (History.vout tx)
                 - ExplorerNetwork.txSum mapPaths (History.vin tx)) / COIN)%float |}.

(** "Select, build the records, discard zero-amount entries, append." *)
Definition spec_rewards_update `{Externals} (mapPaths : Map_t)
    (txs : list History.tx_t) (old : list StakingReward) : list StakingReward :=
  old ++
  filter (fun r => negb (amount r =? 0)%float)
    (map (reward_record mapPaths) (filter first_output_is_CoinStake txs)).

(** ** Readings of a master key *)

(** The public key [getUTXOs] and [getStakingRewards] ask the master key
    for: the account's xpub of an HD wallet, the address otherwise. *)
Definition utxo_key `{Externals} (mk : MasterKey) : option string :=
  if isHD mk then getxpub mk (ExplorerNetwork.accountPath (isHardwareWallet mk))
  else getAddress mk None.

(** The public key [getUTXOs] gets to ask the explorer about: none without
    a master key, none while a scan is running, none when the key operation
    is rejected. *)
Definition scan_key `{Externals} (n : network) : option string :=
  match masterKey n with
  | Some mk => if isSyncing n then None else utxo_key mk
  | None => None
  end.

(** The addresses [txSum] counts for a wallet whose public key is [key]:
    the ones the explorer lists as tokens for an HD wallet, the wallet's one
    address otherwise. *)
Definition history_mapPaths (mk : MasterKey) (key : string) (d : History.t)
    : Map_t :=
  if isHD mk then
    match History.tokens d with
    | Some tokens =>
        fold_left
          (fun m cAddrPath =>
             Map_set String.eqb m (History.name cAddrPath) (History.path cAddrPath))
          tokens []
    | None => []
    end
  else Map_set String.eqb [] key ":)".

(** ** Readings of a trace *)

(** How many times the event [name] was emitted. *)
Definition emitted (name : string) (t : list effect) : nat :=
  List.length
    (filter (fun e => match e with
                      | Emit ev _ => ev =? name
                      | _ => false
                      end) t).

(** What an effect writes to [doms.element.style.display], if it does. *)
Definition display_write (element : string) (e : effect) : option string :=
  match e with
  | DomStyle el property v =>
      if (el =? element) && (property =? "display") then Some v else None
  | _ => None
  end.

(** The last value written to [doms.element.style.display], if any. *)
Fixpoint display_of (element : string) (t : list effect) : option string :=
  match t with
  | [] => None
  | e :: tl =>
      match display_of element tl with
      | Some v => Some v
      | None => display_write element e
      end
  end.

(** ** Readings of a byte array *)

(** [b] is [a] with zeros put in at some places. *)
Inductive zero_padded : list Z -> list Z -> Prop :=
| zp_nil : zero_padded [] []
| zp_keep (x : Z) (a b : list Z) :
    zero_padded a b -> zero_padded (x :: a) (x :: b)
| zp_zero (a b : list Z) :
    zero_padded a b -> zero_padded a (0%Z :: b).

(** The sum of the elements. *)
Definition sumZ (a : list Z) : Z := fold_right Z.add 0%Z a.

(** ** Sample data for the examples *)

(** An instantiation of the externals with the values of the PIVX main
    network (100,000,000 satoshis per coin, BIP44 coin type 119, a collateral
    of 10,000 coins); the rendering functions are placeholders. *)
Definition sample_externals : Externals := {|
  COIN := 100000000%float;
  BIP44_TYPE := 119;
  BIP44_TYPE_LEDGER := 77;
  collateralInSats := 1000000000000%float;
  TICKER := "PIV";
  getDerivationPath := fun fLedger =>
    if fLedger then "m/44'/77'/0'/0/0" else "m/44'/119'/0'/0/0";
  sanitizeHTML := fun s => s;
  toUpperCase := fun s => s;
  toLocaleTimeString := show_Z;
  show_Number := fun _ => "?";
  txidOf := fun tx => ("txid:" ++ tx)%string;
  CONFIRM_POPUP_MN_P_KEY := "Your Masternode Private Key";
  CONFIRM_POPUP_MN_P_KEY_HTML := ""
|}.

(** A legacy (non-HD) software wallet with one address. *)
Definition sample_key : MasterKey := {|
  isHD := false;
  isHardwareWallet := false;
  isViewOnly := false;
  getxpub := fun _ => None;
  getAddress := fun _ => Some "DLabsktzGMnsK5K9uRTMCF6NoYNY6ET4Bb"
|}.

(** An HD software wallet. *)
Definition sample_hd_key : MasterKey := {|
  isHD := true;
  isHardwareWallet := false;
  isViewOnly := false;
  getxpub := fun _ => Some "xpub6Sample";
  getAddress := fun _ => Some "DLabsktzGMnsK5K9uRTMCF6NoYNY6ET4Bb"
|}.

Definition sample_network : network :=
  new_ExplorerNetwork "https://explorer.example" (Some sample_key).

Definition sample_world : World := {| this := sample_network; trace := [] |}.

(** The alert [error()] raises. *)
Definition sync_failed_alert : effect :=
  CreateAlert "warning"
    "<b>Failed to synchronize!</b> Please try again later.<br>You can attempt re-connect via the Settings.".

(** A transaction with a cold-stake output in second place, paying 0.29
    coins, confirmed three times, and the explorer entry that selects it. *)
Definition sample_tx : TxSpecific.t := {|
  TxSpecific.vout :=
    [ {| TxSpecific.value := 0%float; TxSpecific.n := 0;
         TxSpecific.scriptPubKey :=
           {| TxSpecific.type := "nonstandard"; TxSpecific.hex := "" |} |};
      {| TxSpecific.value := 0x1.28f5c28f5c28fp-2%float; TxSpecific.n := 1;
         TxSpecific.scriptPubKey :=
           {| TxSpecific.type := "coldstake"; TxSpecific.hex := "76a97b63" |} |} ];
  TxSpecific.confirmations := 3
|}.

Definition sample_cUTXO : explorer_utxo :=
  {| eu_txid := "ab12"; eu_vout := 1; eu_path := Some "m/44'/1'/0'/0/7" |}.



(** A reward found at height 100, a network that has stored it, and an
    answer of the explorer: one cold-stake reward of 2 coins at height 90. *)
Definition reward_at_100 : StakingReward :=
  {| rw_id := "beef"; time := 1577836800; blockHeight := 100; amount := 3%float |}.

Definition world_with_reward_at_100 : World :=
  {| this := set_arrRewards [reward_at_100] sample_network; trace := [] |}.



Definition sample_history : History.t := {|
  History.tokens := None;
  History.transactions := Some
    [ {| History.txid := "feed";
         History.blockTime := 1577800000;
         History.blockHeight := 90;
         History.vin :=
           [ {| History.addresses :=
                  ["DLabsktzGMnsK5K9uRTMCF6NoYNY6ET4Bb"; "SdgQDpS8jDRJDX8yK8m9KnTMarsE84zdsy"];
                History.value := "100000000" |} ];
         History.vout :=
           [ {| History.addresses := ["CoinStake TX"]; History.value := "0" |};
             {| History.addresses :=
                  ["DLabsktzGMnsK5K9uRTMCF6NoYNY6ET4Bb"; "SdgQDpS8jDRJDX8yK8m9KnTMarsE84zdsy"];
                History.value := "300000000" |} ] |} ];
  History.itemsOnPage := Some 1%Z
|}.

(** A wallet that holds one confirmed output of 10,001 coins, and a run in
    which coin selection picks it, the fee leaves a change of 0.9999 coins
    and the explorer accepts the transaction. *)
Definition sample_funds : UTXO :=
  {| id := "f00d"; path := Some "m/44'/119'/0'/0/0"; sats := 1000100000000%float;
     script := "76a914"; vout := 0; height := Some 100%Z; status := CONFIRMED;
     isDelegate := false; isReward := false |}.

Definition sample_app : Global.App (list UTXO) :=
  {| Global.app_masterKey := Some sample_key;
     Global.mempool := [sample_funds];
     Global.storage_masternode := None;
     Global.encryptedWallet := false;
     Global.app_trace := [] |}.

Definition sample_create_env : Global.create_env :=
  {| Global.domMnCreateType_value := "Remote";
     Global.newAddress := Some ("DCollateral", "m/44'/119'/0'/0/1");
     Global.cCoinControl :=
       {| Global.success := true; Global.msg := "";
          Global.cc_nValue := 1000100000000%float;
          Global.cc_inputs :=
            [ {| Global.outpoint_hash := "f00d"; Global.outpoint_index := 0;
                 Global.in_path := Some "m/44'/119'/0'/0/0" |} ] |};
     Global.serializedLength := 200%float;
     Global.changeAddressAnswer := Some ("DChange", "m/44'/119'/0'/0/2");
     Global.outputScript0 := "76a9aa";
     Global.outputScript1 := "76a9bb";
     Global.signedTx := Some "0100beef";
     Global.sendResult := Some (VBool true);
     Global.mnPrivkey := None;
     Global.debug := false |}.

(** A masternode whose collateral is output 1 of transaction [c011]. *)
Definition sample_masternode : Masternode :=
  {| walletPrivateKeyPath := "legacy"; mnPrivateKey := "93HaYBVUCYjEMe";
     collateralTxId := "c011"; outidx := 1; addr := "10.0.0.1:51472" |}.

(** A wallet whose only output is still pending, with that masternode stored. *)
Definition loading_app : Global.App (list UTXO) :=
  {| Global.app_masterKey := Some sample_key;
     Global.mempool :=
       [ {| id := "c011"; path := None; sats := 1000000000000%float;
            script := "76a914"; vout := 1; height := None; status := PENDING;
            isDelegate := false; isReward := false |} ];
     Global.storage_masternode := Some sample_masternode;
     Global.encryptedWallet := false;
     Global.app_trace := [] |}.

(** A wallet with a confirmed output that is not the collateral, with that
    masternode stored. *)
Definition orphan_app : Global.App (list UTXO) :=
  {| Global.app_masterKey := Some sample_key;
     Global.mempool := [sample_funds];
     Global.storage_masternode := Some sample_masternode;
     Global.encryptedWallet := false;
     Global.app_trace := [] |}.

(** The chain's masternode port, a confirmed output of the collateral size
    (output 1 of transaction [c011]) in a wallet that also holds
    [sample_funds], the import form filled in for it, and a node that
    reports [ENABLED]. *)
Definition sample_more_externals : MoreExternals := {| MASTERNODE_PORT := 51472 |}.

Definition sample_collateral : UTXO :=
  {| id := "c011"; path := None; sats := 1000000000000%float;
     script := "76a914"; vout := 1; height := Some 90%Z; status := CONFIRMED;
     isDelegate := false; isReward := false |}.

Definition funded_app : Global.App (list UTXO) :=
  {| Global.app_masterKey := Some sample_key;
     Global.mempool := [sample_funds; sample_collateral];
     Global.storage_masternode := None;
     Global.encryptedWallet := false;
     Global.app_trace := [] |}.

Definition sample_form : Global.mn_form :=
  {| Global.domMnPrivateKey_value := "93HaYBVUCYjEMe";
     Global.domMnIP_value := "10.0.0.1";
     Global.domMnTxId_value := "" |}.

Definition sample_node_data : Global.masternode_data :=
  {| Global.md_status := "ENABLED"; Global.md_version := "70926";
     Global.md_network := "ipv4"; Global.md_lastseen := 1700000000 |}.

(** A run in which coin selection fails, and one in which the explorer
    rejects the transaction. *)
Definition refused_env : Global.create_env :=
  {| Global.domMnCreateType_value := "Remote";
     Global.newAddress := Some ("DCollateral", "m/44'/119'/0'/0/1");
     Global.cCoinControl :=
       {| Global.success := false; Global.msg := "Balance is too small!";
          Global.cc_nValue := 0%float; Global.cc_inputs := [] |};
     Global.serializedLength := 10%float;
     Global.changeAddressAnswer := Some ("DChange", "m/44'/119'/0'/0/2");
     Global.outputScript0 := "";
     Global.outputScript1 := "";
     Global.signedTx := None;
     Global.sendResult := None;
     Global.mnPrivkey := None;
     Global.debug := false |}.

Definition rejected_env : Global.create_env :=
  {| Global.domMnCreateType_value := Global.domMnCreateType_value sample_create_env;
     Global.newAddress := Global.newAddress sample_create_env;
     Global.cCoinControl := Global.cCoinControl sample_create_env;
     Global.serializedLength := Global.serializedLength sample_create_env;
     Global.changeAddressAnswer := Global.changeAddressAnswer sample_create_env;
     Global.outputScript0 := Global.outputScript0 sample_create_env;
     Global.outputScript1 := Global.outputScript1 sample_create_env;
     Global.signedTx := Global.signedTx sample_create_env;
     Global.sendResult := Some (VBool false);
     Global.mnPrivkey := None;
     Global.debug := true |}.

(** The wallet of [funded_app] with [sample_masternode] stored: its
    collateral is confirmed. *)
Definition running_app : Global.App (list UTXO) :=
  {| Global.app_masterKey := Some sample_key;
     Global.mempool := [sample_funds; sample_collateral];
     Global.storage_masternode := Some sample_masternode;
     Global.encryptedWallet := false;
     Global.app_trace := [] |}.

(** * Properties *)

(** ** Traces *)

Lemma emitted_app (name : string) (a b : list effect) :
  emitted name (a ++ b) = emitted name a + emitted name b.
Proof.
  unfold emitted. now rewrite filter_app, length_app.
Qed.

Lemma events_app (a b : list effect) : events (a ++ b) = events a ++ events b.
Proof. apply filter_app. Qed.

Lemma display_of_app (element : string) (a b : list effect) :
  display_of element (a ++ b) =
  match display_of element b with
  | Some v => Some v
  | None => display_of element a
  end.
Proof.
  induction a as [|e a IH]; simpl.
  - now destruct (display_of element b).
  - rewrite IH. now destruct (display_of element b).
Qed.

Lemma display_of_snoc (element : string) (t : list effect) (e : effect) :
  display_of element (t ++ [e]) =
  match display_write element e with
  | Some v => Some v
  | None => display_of element t
  end.
Proof.
  rewrite display_of_app. reflexivity.
Qed.

(** Unfold the monad and the primitive effects, leaving the data alone. *)
Ltac js_simpl :=
  cbn [fst snd negb Bool.eqb
       this trace _enabled masterKey lastWallet strUrl blocks arrRewards
       isSyncing set__enabled set_masterKey set_lastWallet set_blocks
       set_arrRewards set_isSyncing].

Ltac js_unfold :=
  cbv beta iota zeta delta
    [ret bind throw get modify try_catch try_finally await lift detached
     on_this perform emit fetch_json
     Network.set_enabled Network.enabled Network.enable Network.disable
     Network.toggle Network.setMasterKey
     ExplorerNetwork.error ExplorerNetwork.cachedBlockCount
     ExplorerNetwork.setMasterKey];
  js_simpl.

(** ** The [enabled] flag and [error()] *)

(** C9.  Assigning [enabled] its current value changes nothing and emits
    nothing; assigning the opposite value emits exactly one
    ['network-toggle'] event carrying the new value and stores it.  Hence
    [error()] disables the network and raises its alert when the network is
    enabled, does nothing otherwise, and a second [error()] in a row does
    nothing. *)
Theorem enabled_setter_emits_iff_changed : forall w : World,
  Network.set_enabled (_enabled (this w)) w = (Ok tt, w)
  /\ Network.set_enabled (negb (_enabled (this w))) w =
     (Ok tt,
      {| this := set__enabled (negb (_enabled (this w))) (this w);
         trace := trace w ++
                  [Emit "network-toggle" [VBool (negb (_enabled (this w)))]] |})
  /\ ExplorerNetwork.error w =
     (if _enabled (this w)
      then (Ok tt,
            {| this := set__enabled false (this w);
               trace := trace w ++
                        [Emit "network-toggle" [VBool false]; sync_failed_alert] |})
      else (Ok tt, w))
  /\ ExplorerNetwork.error (snd (ExplorerNetwork.error w)) =
     (Ok tt, snd (ExplorerNetwork.error w)).
Proof.
  intros [[en mk lw url b ar sy] t].
  destruct en; js_unfold; rewrite <- ?app_assoc; repeat split; reflexivity.
Qed.

(** ** [setMasterKey] *)

(** C10.  [ExplorerNetwork.setMasterKey(k)] stores [k], empties
    [arrRewards] and leaves every other field and the trace as they were;
    the method it overrides, [Network.setMasterKey], only stores [k]. *)
Theorem setMasterKey_resets_rewards :
  forall (k : option MasterKey) (w : World),
    ExplorerNetwork.setMasterKey k w =
    (Ok tt,
     {| this := {| _enabled := _enabled (this w);
                   masterKey := k;
                   lastWallet := lastWallet (this w);
                   strUrl := strUrl (this w);
                   blocks := blocks (this w);
                   arrRewards := [];
                   isSyncing := isSyncing (this w) |};
        trace := trace w |})
    /\ Network.setMasterKey k w =
       (Ok tt,
        {| this := {| _enabled := _enabled (this w);
                      masterKey := k;
                      lastWallet := lastWallet (this w);
                      strUrl := strUrl (this w);
                      blocks := blocks (this w);
                      arrRewards := arrRewards (this w);
                      isSyncing := isSyncing (this w) |};
           trace := trace w |}).
Proof.
  intros k w. split; reflexivity.
Qed.

(** ** [isMasternodeUTXO] *)

(** C7.  Given a masternode record, [isMasternodeUTXO] answers true exactly
    when its [collateralTxId] is the UTXO's [id] and the UTXO's [vout] is its
    [outidx]; given none it consults the stored one, and with none stored
    either it answers false. *)
Theorem isMasternodeUTXO_spec :
  forall (storage : option Masternode) (cUTXO : UTXO),
    (forall m : Masternode,
        Global.isMasternodeUTXO storage cUTXO (Some m) = true
        <-> collateralTxId m = id cUTXO /\ vout cUTXO = outidx m)
    /\ Global.isMasternodeUTXO storage cUTXO None =
       match storage with
       | Some m => Global.isMasternodeUTXO None cUTXO (Some m)
       | None => false
       end
    /\ Global.isMasternodeUTXO None cUTXO None = false.
Proof.
  intros storage cUTXO. split; [|split].
  - intros m. unfold Global.isMasternodeUTXO.
    rewrite andb_true_iff, String.eqb_eq, Z.eqb_eq. reflexivity.
  - destruct storage; reflexivity.
  - reflexivity.
Qed.

(** ** [getBlockCount] *)

(** C1 as stated fails here.  The network holds no master key and has
    cached height 0; the explorer reports height 10.  The cache takes 10 and
    the ['sync-status'] event is emitted, but no UTXO request follows: the
    only request of the run is the one for the height. *)
Lemma getBlockCount_counterexample :
  let w := {| this := new_ExplorerNetwork "https://explorer.example" None;
              trace := [] |} in
  let w' := snd (ExplorerNetwork.getBlockCount (H := sample_externals)
                   (Some {| backend_blocks := 10 |}) (Some (VArr [])) w) in
  (blocks (this w) < 10)%Z
  /\ blocks (this w') = 10%Z
  /\ emitted "sync-status" (trace w') = 1
  /\ requests (trace w') = ["https://explorer.example/api/v2/api"]
  /\ trace w' = [Fetch "https://explorer.example/api/v2/api" None;
                 Emit "sync-status" [VStr "start"]].
Proof.
  vm_compute. repeat split.
Qed.

Section BlockCount.

Context `{Externals}.

(** [getUTXOs] catches what it throws, leaves the cached height alone and
    emits no ['sync-status'] event. *)
Lemma getUTXOs_frame (utxo_resp : option js_value) (w : World) :
  exists w',
    ExplorerNetwork.getUTXOs utxo_resp w = (Ok tt, w')
    /\ blocks (this w') = blocks (this w)
    /\ emitted "sync-status" (trace w') = emitted "sync-status" (trace w).
Proof.
  destruct w as [[en mk lw url b ar sy] t].
  unfold ExplorerNetwork.getUTXOs.
  destruct mk as [k|]; [|eexists; js_unfold; repeat split; reflexivity].
  destruct sy; [eexists; js_unfold; repeat split; reflexivity|].
  js_unfold.
  destruct (isHD k);
    [destruct (getxpub k _)|destruct (getAddress k None)];
    try destruct utxo_resp; destruct en;
    eexists; (split; [reflexivity|]); split; try reflexivity;
    cbn [trace]; rewrite ?emitted_app; cbn; lia.
Qed.

(** When a key is loaded, no scan is running and the key yields its public
    key, [getUTXOs] does ask the explorer for the UTXOs. *)
Lemma getUTXOs_fetches (utxo_resp : option js_value) (w : World)
    (mk : MasterKey) (publicKey : string) :
  masterKey (this w) = Some mk ->
  isSyncing (this w) = false ->
  (if isHD mk then getxpub mk (ExplorerNetwork.accountPath (isHardwareWallet mk))
   else getAddress mk None) = Some publicKey ->
  exists rest,
    trace (snd (ExplorerNetwork.getUTXOs utxo_resp w)) =
    trace w ++ Fetch (strUrl (this w) ++ "/api/v2/utxo/" ++ publicKey) None :: rest.
Proof.
  destruct w as [[en k lw url b ar sy] t]. cbn [this masterKey isSyncing strUrl trace].
  intros -> -> Hpk. unfold ExplorerNetwork.getUTXOs. js_unfold.
  destruct (isHD mk); rewrite Hpk; destruct utxo_resp; destruct en;
    js_unfold; rewrite <- ?app_assoc; eexists; reflexivity.
Qed.

(** A run of [getUTXOs] that passes its guards, in closed form. *)
Lemma getUTXOs_run (utxo_resp : option js_value) (w : World) (mk : MasterKey) :
  masterKey (this w) = Some mk ->
  isSyncing (this w) = false ->
  ExplorerNetwork.getUTXOs utxo_resp w =
  (Ok tt,
   match utxo_key mk with
   | Some publicKey =>
       let request :=
         Fetch (strUrl (this w) ++ "/api/v2/utxo/" ++ publicKey) None in
       match utxo_resp with
       | Some utxos =>
           {| this := this w;
              trace := trace w ++ [request; Emit "utxo" [utxos]] |}
       | None =>
           snd (ExplorerNetwork.error
                  {| this := this w; trace := trace w ++ [request] |})
       end
   | None => snd (ExplorerNetwork.error w)
   end).
Proof.
  destruct w as [[en k lw url b ar sy] t]. cbn [this masterKey isSyncing].
  intros -> ->. unfold ExplorerNetwork.getUTXOs, utxo_key. js_unfold.
  destruct (isHD mk);
    [destruct (getxpub mk _)|destruct (getAddress mk None)];
    try destruct utxo_resp; destruct en;
    js_unfold; rewrite <- ?app_assoc; reflexivity.
Qed.

Lemma requests_app (a b : list effect) :
  requests (a ++ b) = requests a ++ requests b.
Proof. apply flat_map_app. Qed.

(** The request and the event of [getUTXOs]: one request when there is a
    key to ask about, and then one ['utxo'] event when the explorer
    answers. *)
Lemma getUTXOs_effects (utxo_resp : option js_value) (w : World) :
  let w' := snd (ExplorerNetwork.getUTXOs utxo_resp w) in
  requests (trace w') =
    requests (trace w) ++
    match scan_key (this w) with
    | Some publicKey => [(strUrl (this w) ++ "/api/v2/utxo/" ++ publicKey)%string]
    | None => []
    end
  /\ emitted "utxo" (trace w') =
     emitted "utxo" (trace w) +
     match scan_key (this w), utxo_resp with
     | Some _, Some _ => 1
     | _, _ => 0
     end.
Proof.
  unfold scan_key.
  destruct (masterKey (this w)) as [mk|] eqn:Hk.
  2:{ destruct w as [[en k lw url b ar sy] t]. cbn in Hk. subst k.
      unfold ExplorerNetwork.getUTXOs. js_unfold.
      now rewrite app_nil_r, Nat.add_0_r. }
  destruct (isSyncing (this w)) eqn:Hs.
  { destruct w as [[en k lw url b ar sy] t]. cbn in Hk, Hs. subst k sy.
    unfold ExplorerNetwork.getUTXOs. js_unfold.
    now rewrite app_nil_r, Nat.add_0_r. }
  cbn zeta. rewrite (getUTXOs_run utxo_resp w mk Hk Hs). cbn [snd].
  destruct w as [[en k lw url b ar sy] t]. cbn [this trace strUrl].
  destruct (utxo_key mk) as [pk|]; [destruct utxo_resp as [u|]|];
    destruct en; js_unfold;
    rewrite ?requests_app, ?emitted_app, <- ?app_assoc; cbn;
    rewrite ?app_nil_r; split; (reflexivity || lia).
Qed.

(** No other method writes [blocks]. *)
Lemma other_methods_keep_blocks (w : World) :
  (forall v, blocks (this (snd (Network.set_enabled v w))) = blocks (this w))
  /\ blocks (this (snd (ExplorerNetwork.error w))) = blocks (this w)
  /\ (forall k, blocks (this (snd (ExplorerNetwork.setMasterKey k w)))
                = blocks (this w))
  /\ (forall resp, blocks (this (snd (ExplorerNetwork.getUTXOs resp w)))
                   = blocks (this w))
  /\ (forall hex resp,
         blocks (this (snd (ExplorerNetwork.sendTransaction hex resp w)))
         = blocks (this w))
  /\ (forall cUTXO resp,
         blocks (this (snd (ExplorerNetwork.getUTXOFullInfo cUTXO resp w)))
         = blocks (this w))
  /\ (forall resp,
         blocks (this (snd (ExplorerNetwork.getStakingRewards resp w)))
         = blocks (this w)).
Proof.
  repeat apply conj.
  - intros v. destruct w as [[en mk lw url b ar sy] t].
    destruct v, en; reflexivity.
  - destruct w as [[[] mk lw url b ar sy] t]; reflexivity.
  - reflexivity.
  - intros resp. destruct (getUTXOs_frame resp w) as (w' & Hrun & Hb & _).
    now rewrite Hrun.
  - intros hex resp. destruct w as [[en mk lw url b ar sy] t].
    unfold ExplorerNetwork.sendTransaction. js_unfold.
    destruct resp as [data|]; js_unfold; [|now destruct en].
    destruct (get_prop data "result") as [res|]; js_unfold; [|now destruct en].
    unfold to_string_step.
    destruct (truthy res && length_is res 64), (stringifies res); js_unfold;
      try reflexivity; try (now destruct en).
    destruct (get_prop data "error"); js_unfold; [reflexivity|now destruct en].
  - intros cUTXO resp. destruct w as [[en mk lw url b ar sy] t].
    unfold ExplorerNetwork.getUTXOFullInfo. js_unfold.
    destruct resp as [cTx|]; js_unfold; [|reflexivity].
    destruct (eu_path cUTXO) as [p|];
      [destruct (p =? ""); [|destruct mk as [k|]]|];
      js_unfold; try reflexivity.
    all: destruct (index (TxSpecific.vout cTx) (eu_vout cUTXO));
         [destruct (index (TxSpecific.vout cTx) 0)|];
         try reflexivity.
    all: destruct (negb _ && negb _); reflexivity.
  - intros resp. destruct w as [[en mk lw url b ar sy] t].
    unfold ExplorerNetwork.getStakingRewards.
    cbv beta iota zeta delta [ExplorerNetwork.accountPath]. js_unfold.
    destruct en; [|reflexivity]. destruct mk as [k|]; [|reflexivity].
    js_unfold. destruct (isHD k); cbv iota.
    all: first [destruct (getxpub k _) as [key|]
               |destruct (getAddress k None) as [key|]];
         js_unfold; try reflexivity.
    all: destruct resp as [[[tokens [txs|] items]|]|]; js_unfold; try reflexivity.
    all: destruct (filter_throwing ExplorerNetwork.isCoinStake txs);
         reflexivity.
Qed.

(** What [getBlockCount] does with the height the explorer reports. *)
Lemma getBlockCount_run (r : api_status) (utxo_resp : option js_value) (w : World) :
  ExplorerNetwork.getBlockCount (Some r) utxo_resp w =
  (Ok tt,
   if (blocks (this w) <? backend_blocks r)%Z then
     snd (ExplorerNetwork.getUTXOs utxo_resp
            {| this := set_blocks (backend_blocks r) (this w);
               trace := trace w ++
                        [Fetch (strUrl (this w) ++ "/api/v2/api") None;
                         Emit "sync-status" [VStr "start"]] |})
   else {| this := this w;
           trace := trace w ++ [Fetch (strUrl (this w) ++ "/api/v2/api") None] |}).
Proof.
  destruct w as [n t]. unfold ExplorerNetwork.getBlockCount. js_unfold.
  destruct (blocks n <? backend_blocks r)%Z; [|reflexivity].
  js_simpl. rewrite <- app_assoc. cbn [app].
  match goal with
  | |- context [ExplorerNetwork.getUTXOs ?u ?x] =>
      destruct (getUTXOs_frame u x) as (w' & Hrun & _)
  end.
  rewrite Hrun. reflexivity.
Qed.

(** When the request fails, [error()] runs and the failure is thrown again;
    the cached height stays. *)
Lemma getBlockCount_failed (utxo_resp : option js_value) (w : World) :
  ExplorerNetwork.getBlockCount None utxo_resp w =
  (Throw Rejected,
   snd (ExplorerNetwork.error
          {| this := this w;
             trace := trace w ++ [Fetch (strUrl (this w) ++ "/api/v2/api") None] |})).
Proof.
  destruct w as [[en mk lw url b ar sy] t].
  unfold ExplorerNetwork.getBlockCount. js_unfold. now destruct en.
Qed.

(** C1, amended.  The cached height never decreases.  When the explorer
    reports a height [h]: if [h] is greater than the cached height, the
    cache takes [h], one ['sync-status'] event is emitted and [getUTXOs] is
    started on the state so updated; if [h] is not greater, the object is
    unchanged and the trace grows by the request alone, so that no event is
    emitted.  In both cases [cachedBlockCount] then returns the larger of
    the two.  The UTXO request is sent exactly when [h] is greater and there
    is a key to ask about: a master key is set, no scan is running and the
    key yields its public key; a ['utxo'] event follows exactly when that
    request is answered. *)
Theorem getBlockCount_monotone :
  forall (api_resp : option api_status) (utxo_resp : option js_value) (w : World),
    let w' := snd (ExplorerNetwork.getBlockCount api_resp utxo_resp w) in
    (blocks (this w) <= blocks (this w'))%Z
    /\ forall r : api_status,
         api_resp = Some r ->
         let h := backend_blocks r in
         let request := Fetch (strUrl (this w) ++ "/api/v2/api") None in
         let scanned :=
           if (blocks (this w) <? h)%Z then scan_key (this w) else None in
         ExplorerNetwork.cachedBlockCount w' =
           (Ok (Z.max (blocks (this w)) h), w')
         /\ ((blocks (this w) < h)%Z ->
             w' = snd (ExplorerNetwork.getUTXOs utxo_resp
                         {| this := set_blocks h (this w);
                            trace := trace w ++
                                     [request; Emit "sync-status" [VStr "start"]] |})
             /\ blocks (this w') = h)
         /\ ((h <= blocks (this w))%Z ->
             w' = {| this := this w; trace := trace w ++ [request] |}
             /\ events (trace w') = events (trace w))
         /\ emitted "sync-status" (trace w') =
            emitted "sync-status" (trace w)
            + (if (blocks (this w) <? h)%Z then 1 else 0)
         /\ requests (trace w') =
            requests (trace w) ++
            (strUrl (this w) ++ "/api/v2/api")%string ::
            match scanned with
            | Some publicKey =>
                [(strUrl (this w) ++ "/api/v2/utxo/" ++ publicKey)%string]
            | None => []
            end
         /\ emitted "utxo" (trace w') =
            emitted "utxo" (trace w)
            + match scanned, utxo_resp with
              | Some _, Some _ => 1
              | _, _ => 0
              end.
Proof.
  intros api_resp utxo_resp w w'. subst w'.
  destruct api_resp as [r|].
  - rewrite getBlockCount_run. cbn [snd].
    match goal with
    | |- context [ExplorerNetwork.getUTXOs ?u ?x] =>
        destruct (getUTXOs_frame u x) as (w' & Hrun & Hb & He);
        destruct (getUTXOs_effects u x) as [Hreq Hutxo]
    end.
    cbn zeta in Hreq, Hutxo.
    rewrite Hrun in *. cbn [snd this trace blocks set_blocks] in *.
    assert (Hmono :
      (blocks (this w) <=
       blocks (this (if (blocks (this w) <? backend_blocks r)%Z then w'
                     else {| this := this w;
                             trace := trace w ++
                               [Fetch (strUrl (this w) ++ "/api/v2/api") None] |})))%Z).
    { destruct (Z.ltb_spec (blocks (this w)) (backend_blocks r)); cbn; lia. }
    split; [exact Hmono|].
    intros r' [= <-]. cbn zeta.
    assert (Hkey : scan_key (set_blocks (backend_blocks r) (this w))
                   = scan_key (this w))
      by (destruct w as [[en k lw url b ar sy] t]; reflexivity).
    assert (Hurl : strUrl (set_blocks (backend_blocks r) (this w))
                   = strUrl (this w))
      by (destruct w as [[en k lw url b ar sy] t]; reflexivity).
    rewrite Hkey, Hurl in *.
    destruct (Z.ltb_spec (blocks (this w)) (backend_blocks r)) as [Hlt|Hge].
    + split; [|split; [|split; [|split; [|split]]]].
      * js_unfold. rewrite Hb. f_equal. f_equal. lia.
      * intros _. split; [now rewrite Hrun|exact Hb].
      * intros Hle. lia.
      * rewrite He, emitted_app. cbn. lia.
      * rewrite Hreq, requests_app, <- app_assoc. reflexivity.
      * rewrite Hutxo, emitted_app. cbn. lia.
    + split; [|split; [|split; [|split; [|split]]]].
      * js_unfold. f_equal. f_equal. lia.
      * intros Hlt. lia.
      * intros _. split; [reflexivity|].
        cbn [trace]. rewrite events_app. cbn. now rewrite app_nil_r.
      * cbn [trace]. rewrite emitted_app. cbn. lia.
      * cbn [trace]. rewrite requests_app. reflexivity.
      * cbn [trace]. rewrite emitted_app. cbn. lia.
  - rewrite getBlockCount_failed.
    split; [|discriminate].
    destruct w as [[en mk lw url b ar sy] t]. js_unfold.
    destruct en; cbn; lia.
Qed.

End BlockCount.

(** A first poll that finds height 10: the cache moves from 0 to 10, the
    event goes out and the UTXOs are fetched; a second poll that finds 10
    again changes nothing but the record of its request. *)
Example getBlockCount_sample_run :
  let poll := ExplorerNetwork.getBlockCount (H := sample_externals)
                (Some {| backend_blocks := 10 |}) (Some (VArr [])) in
  let w1 := snd (poll sample_world) in
  let w2 := snd (poll w1) in
  blocks (this w1) = 10%Z
  /\ trace w1 =
     [Fetch "https://explorer.example/api/v2/api" None;
      Emit "sync-status" [VStr "start"];
      Fetch "https://explorer.example/api/v2/utxo/DLabsktzGMnsK5K9uRTMCF6NoYNY6ET4Bb" None;
      Emit "utxo" [VArr []]]
  /\ this w2 = this w1
  /\ trace w2 = trace w1 ++ [Fetch "https://explorer.example/api/v2/api" None].
Proof.
  vm_compute. repeat split.
Qed.

(** ** [getUTXOFullInfo] *)

Section FullInfo.

Context `{Externals}.




End FullInfo.


(** ** [sendTransaction] *)

(** C4 as stated fails on three parsed responses.  The first carries a
    [result] that is an array of 64 elements: it is no string, yet the call
    returns true and announces success.  The second is [null]: reading
    [data.result] throws, so the call returns [undefined], not false, and
    emits no ['transaction-sent'] event at all; [error()] disables the
    network instead.  The third carries a [result] object with a [toString]
    entry: the log line cannot turn it into a string and throws, with the
    same outcome as for [null]. *)
Lemma sendTransaction_counterexample :
  let array64 := VObj [("result", VArr (repeat VNull 64))] in
  let unprintable :=
    VObj [("result", VObj [("toString", VNum 0)]); ("error", VStr "bad")] in
  (get_prop array64 "result" = Ok (VArr (repeat VNull 64))
   /\ (forall s, VArr (repeat VNull 64) <> VStr s)
   /\ ExplorerNetwork.sendTransaction "00" (Some array64) sample_world =
      (Ok (Some true),
       {| this := sample_network;
          trace := [Fetch "https://explorer.example/api/v2/sendtx/" (Some "00");
                    Emit "transaction-sent" [VBool true]] |}))
  /\ (let run := ExplorerNetwork.sendTransaction "00" (Some VNull) sample_world in
      fst run = Ok None
      /\ fst run <> Ok (Some false)
      /\ emitted "transaction-sent" (trace (snd run)) = 0
      /\ _enabled (this (snd run)) = false)
  /\ (let run := ExplorerNetwork.sendTransaction "00" (Some unprintable)
                   sample_world in
      fst run = Ok None
      /\ fst run <> Ok (Some false)
      /\ emitted "transaction-sent" (trace (snd run)) = 0
      /\ _enabled (this (snd run)) = false).
Proof.
  vm_compute. repeat split; discriminate.
Qed.

(** C4, amended.  For a parsed response that is not null, with [result]
    field [res] and [error] field [err], and a [res] that the log line can
    turn into a string: the call returns true and emits ['transaction-sent']
    with true when [res] is truthy and its length is 64, and otherwise
    returns false and emits ['transaction-sent'] with false and [err];
    nothing else changes.  When [res] is a string, that test is exactly "a
    string of length 64".  When [res] has no string (an object with a
    [toString] entry of its own) the log line throws, and for a null
    response the property read throws: in both cases [error()] runs on the
    state after the request, no ['transaction-sent'] event is emitted and
    the call returns [undefined]. *)
Theorem sendTransaction_spec :
  forall (hex : string) (data : js_value) (w : World),
    let request := Fetch (strUrl (this w) ++ "/api/v2/sendtx/") (Some hex) in
    let run := ExplorerNetwork.sendTransaction hex (Some data) w in
    let failed :=
      (Ok (@None bool),
       snd (ExplorerNetwork.error
              {| this := this w; trace := trace w ++ [request] |})) in
    (forall res err : js_value,
        get_prop data "result" = Ok res ->
        get_prop data "error" = Ok err ->
        run =
        if stringifies res then
          if truthy res && length_is res 64
          then (Ok (Some true),
                {| this := this w;
                   trace := trace w ++
                            [request; Emit "transaction-sent" [VBool true]] |})
          else (Ok (Some false),
                {| this := this w;
                   trace := trace w ++
                            [request; Emit "transaction-sent" [VBool false; err]] |})
        else failed)
    /\ (forall s : string,
           get_prop data "result" = Ok (VStr s) ->
           fst run = Ok (Some true) <-> String.length s = 64)
    /\ (data = VNull -> run = failed)
    /\ (fst run = Ok None ->
        emitted "transaction-sent" (trace (snd run)) =
        emitted "transaction-sent" (trace w)).
Proof.
  intros hex data [[en mk lw url b ar sy] t] request run failed.
  subst run request failed.
  unfold ExplorerNetwork.sendTransaction.
  split; [|split; [|split]].
  - intros res err Hres Herr. js_unfold. rewrite Hres. unfold to_string_step.
    destruct (stringifies res), (truthy res && length_is res 64); js_unfold.
    + now rewrite <- app_assoc.
    + rewrite Herr. js_unfold. now rewrite <- app_assoc.
    + now destruct en.
    + now destruct en.
  - intros s Hres. js_unfold. rewrite Hres.
    cbn [truthy length_is to_string_step stringifies].
    destruct (Nat.eqb_spec (String.length s) 64) as [Hlen|Hlen].
    + destruct s as [|c s]; [discriminate|]. cbn. tauto.
    + rewrite andb_false_r. js_unfold.
      destruct (get_prop data "error"); js_unfold; [|destruct en];
        (split; [discriminate|tauto]).
  - intros ->. js_unfold. now destruct en.
  - destruct en; js_unfold.
    all: destruct (get_prop data "result") as [res|]; js_unfold;
         unfold to_string_step;
         try destruct (truthy res && length_is res 64);
         try destruct (stringifies res); js_unfold;
         try destruct (get_prop data "error"); js_unfold.
    all: intros Hc; try discriminate Hc.
    all: rewrite ?emitted_app; cbn; lia.
Qed.

(** ** [getStakingRewards] *)




(** Unfold either copy of [getStakingRewards]. *)
Ltac staking_unfold :=
  unfold ExplorerNetwork.getStakingRewards, NetworkJs.getStakingRewards;
  cbv beta iota zeta delta
    [NetworkJs.perform NetworkJs.fetch_json NetworkJs.stopAnim
     ExplorerNetwork.accountPath];
  js_unfold;
  cbn [NetworkJs.networkEnabled NetworkJs.g_masterKey NetworkJs.g_arrRewards
       NetworkJs.cExplorer_url NetworkJs.g_trace NetworkJs.set_g_arrRewards].

Section StakingRewards.

Context `{Externals}.




End StakingRewards.


(** What that call stores: the reward of 2 coins, after the one it had. *)
Example getStakingRewards_sample_run :
  fst (ExplorerNetwork.getStakingRewards (H := sample_externals)
         (Some (Some sample_history)) world_with_reward_at_100) =
  Ok (Some [reward_at_100;
            {| rw_id := "feed"; time := 1577800000; blockHeight := 90;
               amount := 2%float |}]).
Proof. vm_compute. reflexivity. Qed.

(** An HD wallet with nothing stored asks for the account's xpub history up
    to 0. *)
Example getStakingRewards_hd_query :
  trace (snd (ExplorerNetwork.getStakingRewards (H := sample_externals)
                (Some (Some sample_history))
                {| this := new_ExplorerNetwork "https://explorer.example"
                             (Some sample_hd_key);
                   trace := [] |})) =
  [Fetch "https://explorer.example/api/v2/xpub/xpub6Sample?details=txs&pageSize=500&to=0"
     None].
Proof. vm_compute. reflexivity. Qed.

(** ** The two copies of [getStakingRewards] *)

Section TwoCopies.

Context `{Externals}.

(** Both runs ended without a page: same list, same outcome, nothing new. *)
Ltac copies_agree :=
  split; [reflexivity|];
  split;
  [intros ?; split; intros Hx;
   first [discriminate Hx | injection Hx as <-; reflexivity]
  |split;
   [intros ? ? ? ? (Hc1 & Hc2 & Hc3 & Hc4 & Hc5 & _);
    first [discriminate Hc1 | discriminate Hc2 | discriminate Hc4
          |injection Hc4 as <-; cbn in Hc5; discriminate Hc5
          |injection Hc2 as <-;
           match goal with
           | E : isHD _ = _ |- _ => rewrite E in Hc3
           end;
           congruence]
   |intros _; reflexivity]].

(** The closure [txSum] and the filter are written twice, word for word. *)
Lemma txSum_copies (mapPaths : Map_t) (v : list History.vio_t) :
  NetworkJs.txSum mapPaths v = ExplorerNetwork.txSum mapPaths v.
Proof. reflexivity. Qed.

Lemma isCoinStake_copies (tx : History.tx_t) :
  NetworkJs.isCoinStake tx = ExplorerNetwork.isCoinStake tx.
Proof. reflexivity. Qed.

(** The filter with [isCoinStake] selects what the spec's words select, and
    ends normally exactly on a page whose transactions all have an output. *)
Lemma filter_isCoinStake_ok (txs stakes : list History.tx_t) :
  filter_throwing ExplorerNetwork.isCoinStake txs = Ok stakes <->
  (forall tx, In tx txs -> History.vout tx <> [])
  /\ stakes = filter first_output_is_CoinStake txs.
Proof.
  revert stakes. induction txs as [|tx txs IH]; intros stakes;
    cbn [filter_throwing filter].
  - split; [intros [= <-]; split; [intros tx []|reflexivity]
           |intros [_ ->]; reflexivity].
  - unfold ExplorerNetwork.isCoinStake at 1, first_output_is_CoinStake at 1.
    destruct (History.vout tx) as [|o vs] eqn:Hv.
    + split; [discriminate|].
      intros [Hall _]. now elim (Hall tx (or_introl eq_refl)).
    + destruct (filter_throwing ExplorerNetwork.isCoinStake txs) as [l|e].
      * destruct (proj1 (IH l) eq_refl) as [Hall ->].
        split.
        -- intros [= <-]. split; [|reflexivity].
           intros tx' [<-|Hin]; [congruence|now apply Hall].
        -- intros [_ ->]. reflexivity.
      * split; [discriminate|].
        intros [Hall _].
        assert (Hok : @Throw (list History.tx_t) e
                      = Ok (filter first_output_is_CoinStake txs)).
        { apply IH. split; [|reflexivity].
          intros tx' Hin. apply Hall. now right. }
        discriminate Hok.
Qed.

(** C8.  Start the left-over top-level [getStakingRewards] and the method
    from the same enabled flag, master key and stored rewards, and give both
    the same explorer answer: they end with the same rewards list, and
    either both throw the same exception or neither throws.  When the
    network is enabled, the key yields its public key and the explorer
    answers with a page whose transactions all have an output, that list is
    the one the spec describes: the old list followed by the records, built
    with [txSum], of the transactions whose first output address is
    ['CoinStake TX'], those of amount 0 left out.  In every other run the
    list is the old one. *)
Theorem getStakingRewards_copies_agree :
  forall (history_resp : option (option History.t)) (n : network)
         (t gt : list effect) (url : string),
    let g := {| NetworkJs.networkEnabled := _enabled n;
                NetworkJs.g_masterKey := masterKey n;
                NetworkJs.g_arrRewards := arrRewards n;
                NetworkJs.cExplorer_url := url;
                NetworkJs.g_trace := gt |} in
    let top := NetworkJs.getStakingRewards history_resp g in
    let method :=
      ExplorerNetwork.getStakingRewards history_resp {| this := n; trace := t |} in
    let page mk key d txs :=
      _enabled n = true
      /\ masterKey n = Some mk
      /\ utxo_key mk = Some key
      /\ history_resp = Some (Some d)
      /\ History.transactions d = Some txs
      /\ forall tx, In tx txs -> History.vout tx <> [] in
    NetworkJs.g_arrRewards (snd top) = arrRewards (this (snd method))
    /\ (forall e : exn, fst top = Throw e <-> fst method = Throw e)
    /\ (forall mk key d txs,
           page mk key d txs ->
           arrRewards (this (snd method)) =
           spec_rewards_update (history_mapPaths mk key d) txs (arrRewards n))
    /\ ((forall mk key d txs, ~ page mk key d txs) ->
        arrRewards (this (snd method)) = arrRewards n).
Proof.
  intros history_resp [en k lw u b ar sy] t gt url.
  cbn [_enabled masterKey arrRewards].
  unfold utxo_key, history_mapPaths, spec_rewards_update, reward_record.
  staking_unfold.
  change NetworkJs.isCoinStake with ExplorerNetwork.isCoinStake.
  change NetworkJs.txSum with ExplorerNetwork.txSum.
  destruct en; [|copies_agree].
  destruct k as [mk|]; [|copies_agree].
  staking_unfold.
  destruct (isHD mk) eqn:Hhd; cbv iota.
  all: first [destruct (getxpub mk _) as [key|] eqn:Hkey
             |destruct (getAddress mk None) as [key|] eqn:Hkey];
       staking_unfold; try solve [copies_agree].
  all: destruct history_resp as [[[tokens [txs|] items]|]|];
       staking_unfold; try solve [copies_agree].
  all: destruct (filter_throwing ExplorerNetwork.isCoinStake txs)
         as [stakes|] eqn:Hf;
       staking_unfold.
  all: try (apply filter_isCoinStake_ok in Hf as [Hall ->]).
  all: try (destruct items as [k|];
            [destruct (Z.of_nat (List.length txs) =? k)%Z|];
            staking_unfold).
  all: split; [reflexivity|]; split;
       [intros ?; split; intros Hx;
        first [discriminate Hx|injection Hx as <-; reflexivity]|].
  all: split;
       [intros mk' key' d' txs' (_ & [= <-] & Hk' & [= <-] & [= <-] & Hall');
        rewrite ?Hhd in *; cbn [History.tokens] in *
       |intros Hnone].
  all: try (rewrite Hkey in Hk'; injection Hk' as <-).
  all: try reflexivity.
  all: try (exfalso;
            eapply (Hnone mk key _ txs);
            repeat split; try reflexivity; try exact Hall;
            rewrite ?Hhd; exact Hkey).
  all: exfalso;
       assert (Hok : filter_throwing ExplorerNetwork.isCoinStake txs
                     = Ok (filter first_output_is_CoinStake txs))
         by (apply filter_isCoinStake_ok; split; [exact Hall'|reflexivity]);
       rewrite Hok in Hf; discriminate Hf.
Qed.

End TwoCopies.

(** ** [createMasternode] *)

(** Unfold the helpers of [global.js]. *)
Ltac global_unfold :=
  cbv beta iota zeta delta
    [Global.createMasternode Global.afterBroadcast Global.the_masterKey
     Global.createAlert Global.perform Global.on_mempool Global.store_masternode
     ret bind throw get modify try_catch try_finally await lift detached];
  cbn [fst snd Global.app_masterKey Global.mempool Global.storage_masternode
       Global.encryptedWallet Global.app_trace].

Section CreateMasternode.

Context `{Externals} {T : Type} `{Mempool T}.

(** C5.  When [sendTransaction] does not report success (it resolves to a
    falsy value, or the run never gets that far), the mempool is left as it
    was.  When the run reaches the broadcast and [sendTransaction] resolves
    to a truthy value, the mempool is the old one with [autoRemoveUTXO]
    applied for every input of the transaction, in order, and then exactly
    two [addUTXO]: the change at [vout] 0 and the collateral at [vout] 1,
    both PENDING and both under the future txid. *)
Theorem createMasternode_mempool :
  forall (env : Global.create_env) (a : Global.App T),
    let a' := snd (Global.createMasternode env a) in
    ((forall r, Global.sendResult env = Some r -> truthy r = false) ->
     Global.mempool a' = Global.mempool a)
    /\ (forall (mk : MasterKey)
               (strAddress strAddressPath changeAddress changeAddressPath : string)
               (strTx : string) (r : js_value),
           let nValue := collateralInSats in
           let nChange :=
             (Global.cc_nValue (Global.cCoinControl env)
              - (NetworkJs.getFee (Global.serializedLength env) + nValue))%float in
           Global.app_masterKey a = Some mk ->
           isViewOnly mk = false ->
           Global.newAddress env = Some (strAddress, strAddressPath) ->
           Global.success (Global.cCoinControl env) = true ->
           Global.changeAddressAnswer env = Some (changeAddress, changeAddressPath) ->
           (0 <? nChange)%float = true ->
           Global.signedTx env = Some strTx ->
           Global.sendResult env = Some r ->
           truthy r = true ->
           Global.mempool a' =
           addUTXO
             {| id := txidOf strTx; path := Some strAddressPath; sats := nValue;
                script := Global.outputScript1 env; vout := 1; height := None;
                status := PENDING; isDelegate := false; isReward := false |}
             (addUTXO
                {| id := txidOf strTx; path := Some changeAddressPath;
                   sats := nChange; script := Global.outputScript0 env;
                   vout := 0; height := None; status := PENDING;
                   isDelegate := false; isReward := false |}
                (fold_left
                   (fun m tx =>
                      autoRemoveUTXO
                        {| or_id := Global.outpoint_hash tx;
                           or_path := Global.in_path tx;
                           or_vout := Global.outpoint_index tx |} m)
                   (Global.cc_inputs (Global.cCoinControl env))
                   (Global.mempool a)))).
Proof.
  intros env [k m st enc tr]. cbn zeta. split.
  - intros Hfail. global_unfold.
    destruct k as [mk|]; [|reflexivity]. global_unfold.
    destruct (isViewOnly mk); [reflexivity|].
    destruct (Global.newAddress env) as [[strAddress strAddressPath]|];
      [|reflexivity]. global_unfold.
    destruct (Global.success (Global.cCoinControl env)); [|reflexivity].
    cbn [negb].
    destruct (Global.changeAddressAnswer env) as [[changeAddress changeAddressPath]|];
      [|reflexivity]. global_unfold.
    destruct (0 <? _)%float; [|reflexivity]. cbn [negb].
    destruct (Global.debug env); global_unfold.
    all: destruct (isHardwareWallet mk); cbn [negb];
      (destruct (Global.signedTx env) as [strTx|]; [|reflexivity]);
      global_unfold;
      (destruct (Global.sendResult env) as [r|]; [|reflexivity]);
      rewrite (Hfail r eq_refl); global_unfold;
      (destruct (Global.domMnCreateType_value env =? "VPS"); [|reflexivity]);
      (destruct (Global.mnPrivkey env); reflexivity).
  - intros mk strAddress strAddressPath changeAddress changeAddressPath strTx r
           Hk Hview Haddr Hsel Hchange Hpos Hsig Hsend Htruthy.
    cbn [Global.app_masterKey Global.mempool] in *. subst k.
    global_unfold. rewrite Hview, Haddr. global_unfold.
    rewrite Hsel, Hchange. cbn [negb]. global_unfold.
    rewrite Hpos. cbn [negb].
    destruct (Global.debug env); global_unfold.
    all: destruct (isHardwareWallet mk); cbn [negb];
      rewrite Hsig; global_unfold; rewrite Hsend; global_unfold;
      rewrite Htruthy; global_unfold;
      (destruct (Global.domMnCreateType_value env =? "VPS"); [|reflexivity]);
      (destruct (Global.mnPrivkey env); reflexivity).
Qed.

End CreateMasternode.

(** On the list model of the mempool, the sample run spends the funding
    output and leaves the two pending outputs of the new transaction. *)
Example createMasternode_sample_run :
  Global.mempool
    (snd (Global.createMasternode (H := sample_externals) (H0 := ListMempool)
            sample_create_env sample_app)) =
  [ {| id := "txid:0100beef"; path := Some "m/44'/119'/0'/0/2";
       sats := 99990000%float; script := "76a9aa"; vout := 0; height := None;
       status := PENDING; isDelegate := false; isReward := false |};
    {| id := "txid:0100beef"; path := Some "m/44'/119'/0'/0/1";
       sats := 1000000000000%float; script := "76a9bb"; vout := 1; height := None;
       status := PENDING; isDelegate := false; isReward := false |} ].
Proof. vm_compute. reflexivity. Qed.

(** ** [updateMasternodeTab] *)

(** C6 as stated fails here.  No confirmed output matches the stored
    masternode's collateral (the collateral is still pending and the
    confirmed set is empty: the wallet is still loading), and yet the entry
    is still in local storage when [updateMasternodeTab] is done. *)
Lemma updateMasternodeTab_counterexample :
  let a := loading_app in
  let a' := snd (Global.updateMasternodeTab (H := sample_externals)
                   (H0 := ListMempool) None None a) in
  existsb (fun utxo => Global.isMasternodeUTXO (Global.storage_masternode a)
                         utxo (Some sample_masternode))
    (getConfirmed (Mempool := ListMempool) (Global.mempool a)) = false
  /\ Global.storage_masternode a = Some sample_masternode
  /\ Global.storage_masternode a' = Some sample_masternode
  /\ Global.storage_masternode a' <> None.
Proof.
  vm_compute. repeat split. discriminate.
Qed.

(** With a confirmed output that is not the collateral, the entry goes, the
    dashboard and the control panel stay hidden, and the creation form is
    offered. *)
Example updateMasternodeTab_orphan_run :
  let a' := snd (Global.updateMasternodeTab (H := sample_externals)
                   (H0 := ListMempool) None None orphan_app) in
  Global.storage_masternode a' = None
  /\ display_of "domMnDashboard" (Global.app_trace a') = Some "none"
  /\ display_of "domControlMasternode" (Global.app_trace a') = Some "none"
  /\ display_of "domCreateMasternode" (Global.app_trace a') = Some "block".
Proof.
  vm_compute. repeat split.
Qed.

Section MasternodeTab.

Context `{Externals} {T : Type} `{Mempool T}.

(** Evaluate the reads of [display] along a trace built by appending. *)
Ltac disp :=
  rewrite ?display_of_snoc;
  cbn [display_write String.eqb Ascii.eqb Bool.eqb andb].

(** Close a run of [updateMasternodeTab] that has been executed to its end,
    using what the frame lemmas say about the calls on the way. *)
Ltac tab_close :=
  split; [reflexivity|];
  split; [reflexivity|];
  split;
  [first [left; reflexivity
         |right; split; [reflexivity|];
          do 2 eexists; split; [reflexivity|]; split; [|reflexivity];
          match goal with
          | E : isHardwareWallet _ = _ |- _ => rewrite E
          end; reflexivity]
  |intros Hchecked ? Hkey Hguards;
   first [discriminate Hchecked
         |discriminate Hkey
         |reflexivity
         |injection Hkey as <-;
          repeat match goal with
                 | E : _ = _ |- _ =>
                     lazymatch E with
                     | Hguards => fail
                     | _ => rewrite E in Hguards
                     end
                 end;
          discriminate Hguards]].

Ltac tab_frames :=
  repeat match goal with
         | E : Global.mempool _ = _ |- _ => rewrite E; clear E
         | E : Global.storage_masternode _ = _ |- _ => rewrite E; clear E
         end;
  repeat (disp;
          match goal with
          | E : forall el, display_of el (Global.app_trace _) = _ |- _ =>
              rewrite !E
          end);
  disp.

Ltac tab_leaf :=
  cbn [snd Global.mempool Global.storage_masternode Global.app_trace] in *;
  repeat match goal with
         | E : _ \/ _ |- _ => destruct E
         end;
  tab_frames; tab_close.

Lemma appendOptions_frame (mk : MasterKey)
    (entries : list (option string * UTXO)) (a : Global.App T) :
  let a' := snd (Global.appendOptions mk entries a) in
  Global.storage_masternode a' = Global.storage_masternode a
  /\ Global.mempool a' = Global.mempool a
  /\ forall el, display_of el (Global.app_trace a') =
                display_of el (Global.app_trace a).
Proof.
  revert a. induction entries as [|[key u] entries IH]; intros a; cbn zeta.
  - repeat split.
  - cbn [Global.appendOptions]. global_unfold.
    destruct (getAddress mk key) as [text|]; [|repeat split].
    global_unfold.
    match goal with
    | |- context [Global.appendOptions mk entries ?x] =>
        specialize (IH x); cbn zeta in IH;
        destruct (Global.appendOptions mk entries x) as [[[]|e] a1]
    end;
      cbn [snd Global.storage_masternode Global.mempool Global.app_trace] in *;
      destruct IH as (Hs & Hm & Hd); repeat split; trivial;
      intros el; rewrite Hd; disp; reflexivity.
Qed.

Lemma refreshMasternodeData_frame
    (fullData : option (option Global.masternode_data)) (started : option bool)
    (cMasternode : Masternode) (fAlert : bool) (a : Global.App T) :
  let a' := snd (Global.refreshMasternodeData fullData started cMasternode fAlert a) in
  Global.mempool a' = Global.mempool a
  /\ (Global.storage_masternode a' = Global.storage_masternode a
      \/ Global.storage_masternode a' = Some cMasternode)
  /\ forall el, display_of el (Global.app_trace a') =
                display_of el (Global.app_trace a).
Proof.
  destruct a as [k m st enc tr]. cbn zeta.
  unfold Global.refreshMasternodeData. global_unfold.
  destruct fullData as [[d|]|]; global_unfold;
    [|repeat split; auto..].
  destruct (Global.md_status d =? "MISSING"); cbn [negb]; global_unfold.
  - destruct k as [mk|]; global_unfold;
      [destruct (isViewOnly mk); cbn [negb]; global_unfold;
       [|destruct started as [[|]|]; global_unfold]|];
      (split; [reflexivity|split; [auto|intros el; disp; reflexivity]]).
  - destruct ((Global.md_status d =? "ENABLED")
              || (Global.md_status d =? "PRE_ENABLED"));
      [|destruct (Global.md_status d =? "REMOVED")];
      destruct fAlert; global_unfold;
      (split; [reflexivity|split; [auto|intros el; disp; reflexivity]]).
Qed.

(** What a run of [updateMasternodeTab] leaves: the mempool as it was; the
    stored masternode as the guards and the collateral check decide; the
    dashboard hidden unless the check has passed. *)
Lemma updateMasternodeTab_run
    (fullData : option (option Global.masternode_data)) (started : option bool)
    (a : Global.App T) :
  let a' := snd (Global.updateMasternodeTab fullData started a) in
  let confirmed := getConfirmed (Global.mempool a) in
  let checked :=
    match Global.storage_masternode a with
    | Some m =>
        if existsb (fun utxo =>
                      Global.isMasternodeUTXO (Global.storage_masternode a)
                        utxo (Some m)) confirmed
        then Some m else None
    | None => None
    end in
  Global.mempool a' = Global.mempool a
  /\ Global.storage_masternode a' =
     match Global.app_masterKey a with
     | Some mk =>
         if isHardwareWallet mk || Nat.eqb (List.length confirmed) 0
         then Global.storage_masternode a
         else checked
     | None => Global.storage_masternode a
     end
  /\ (display_of "domMnDashboard" (Global.app_trace a') = Some "none"
      \/ display_of "domMnDashboard" (Global.app_trace a') = Some ""
         /\ exists mk m,
              Global.app_masterKey a = Some mk
              /\ isHardwareWallet mk || Nat.eqb (List.length confirmed) 0 = false
              /\ checked = Some m)
  /\ (checked = None ->
      forall mk, Global.app_masterKey a = Some mk ->
                 isHardwareWallet mk || Nat.eqb (List.length confirmed) 0 = false ->
                 display_of "domControlMasternode" (Global.app_trace a') = Some "none").
Proof.
  destruct a as [k m st enc tr]. cbn zeta.
  cbn [Global.app_masterKey Global.mempool Global.storage_masternode
       Global.app_trace].
  unfold Global.updateMasternodeTab. global_unfold.
  destruct k as [mk|]; global_unfold; [|tab_leaf].
  destruct (isHardwareWallet mk) eqn:Hhw; cbn [orb]; global_unfold; [tab_leaf|].
  destruct (Nat.eqb (List.length (getConfirmed m)) 0) eqn:Hlen;
    global_unfold; [tab_leaf|].
  destruct st as [cM|];
    [destruct (existsb _ _) eqn:Hex; cbn [negb]|]; global_unfold.
  all: destruct (isHD mk); cbn [negb]; global_unfold.
  all: first
         [destruct (find _ _);
          [|destruct (_ <? _)%float]
         |destruct (Nat.eqb (List.length (fold_left _ _ [])) 0);
          cbn [andb negb]];
       global_unfold.
  all: try match goal with
           | |- context [Global.refreshMasternodeData ?f ?s ?c ?b ?x] =>
               pose proof (refreshMasternodeData_frame f s c b x) as Hfr;
               cbn zeta in Hfr;
               destruct (Global.refreshMasternodeData f s c b x) as [[?|?] a1];
               destruct Hfr as (Hm & Hs & Hd)
           | |- context [Global.appendOptions ?k ?l ?x] =>
               pose proof (appendOptions_frame k l x) as Hfr;
               cbn zeta in Hfr;
               destruct (Global.appendOptions k l x) as [[[]|?] a1];
               destruct Hfr as (Hs & Hm & Hd)
           end;
       global_unfold.
  all: cbn [snd Global.mempool Global.storage_masternode Global.app_trace] in *.
  all: tab_leaf.
Qed.

Lemma existsb_false_forall {A} (f : A -> bool) (l : list A) :
  (forall x, In x l -> f x = false) -> existsb f l = false.
Proof.
  intros Hall. destruct (existsb f l) eqn:Hex; [|reflexivity].
  apply existsb_exists in Hex as (x & Hin & Hfx).
  now rewrite (Hall x Hin) in Hfx.
Qed.

(** C6, amended.  Let a wallet be loaded that is not a hardware wallet, and
    let the confirmed set be non-empty.  Then, if no confirmed UTXO matches
    the stored masternode's collateral, the [masternode] entry is removed
    and neither the dashboard nor the control panel is shown.  When one of
    these guards fails the function returns early: the entry stays as it is
    and the dashboard stays hidden.  In every run, the dashboard is shown
    only if afterwards a masternode is stored whose collateral is in the
    confirmed set. *)
Theorem updateMasternodeTab_removes_orphan :
  forall (fullData : option (option Global.masternode_data))
         (started : option bool) (a : Global.App T),
    let a' := snd (Global.updateMasternodeTab fullData started a) in
    let confirmed := getConfirmed (Global.mempool a) in
    (forall (mk : MasterKey) (m : Masternode),
        Global.app_masterKey a = Some mk ->
        isHardwareWallet mk = false ->
        confirmed <> [] ->
        Global.storage_masternode a = Some m ->
        (forall utxo, In utxo confirmed ->
           Global.isMasternodeUTXO (Global.storage_masternode a) utxo (Some m)
           = false) ->
        Global.storage_masternode a' = None
        /\ display_of "domMnDashboard" (Global.app_trace a') = Some "none"
        /\ display_of "domControlMasternode" (Global.app_trace a') = Some "none")
    /\ (Global.app_masterKey a = None
        \/ (exists mk, Global.app_masterKey a = Some mk
                       /\ isHardwareWallet mk = true)
        \/ confirmed = [] ->
        Global.storage_masternode a' = Global.storage_masternode a
        /\ display_of "domMnDashboard" (Global.app_trace a') = Some "none")
    /\ (display_of "domMnDashboard" (Global.app_trace a') = Some "" ->
        exists (m : Masternode) (utxo : UTXO),
          Global.storage_masternode a' = Some m
          /\ In utxo (getConfirmed (Global.mempool a'))
          /\ Global.isMasternodeUTXO (Global.storage_masternode a') utxo (Some m)
             = true).
Proof.
  intros fullData started a a' confirmed.
  destruct (updateMasternodeTab_run fullData started a)
    as (Hmem & Hsto & Hdash & Hctl).
  fold a' in Hmem, Hsto, Hdash, Hctl. fold confirmed in Hsto, Hdash, Hctl.
  split; [|split].
  - intros mk m Hk Hhw Hne Hst Hnone.
    assert (Hlen : Nat.eqb (List.length confirmed) 0 = false).
    { destruct confirmed; [contradiction|reflexivity]. }
    assert (Hchk :
      match Global.storage_masternode a with
      | Some m0 =>
          if existsb (fun utxo =>
                        Global.isMasternodeUTXO (Global.storage_masternode a)
                          utxo (Some m0)) confirmed
          then Some m0 else None
      | None => None
      end = None).
    { rewrite Hst in *. now rewrite (existsb_false_forall _ _ Hnone). }
    rewrite Hk, Hhw, Hlen in Hsto. cbn [orb] in Hsto.
    split; [now rewrite Hsto|]. split.
    + destruct Hdash as [Hd|(_ & mk' & m' & _ & _ & Hsome)]; [exact Hd|].
      rewrite Hchk in Hsome. discriminate.
    + apply (Hctl Hchk mk Hk). now rewrite Hhw, Hlen.
  - intros Hguard.
    assert (Hsame : Global.storage_masternode a' = Global.storage_masternode a
                    /\ forall mk, Global.app_masterKey a = Some mk ->
                          isHardwareWallet mk
                          || Nat.eqb (List.length confirmed) 0 = true).
    { destruct Hguard as [Hk|[(mk & Hk & Hhw)|Hnil]].
      - rewrite Hk in Hsto. split; [exact Hsto|]. intros mk. congruence.
      - rewrite Hk, Hhw in Hsto. split; [exact Hsto|].
        intros mk' Hk'. rewrite Hk in Hk'. injection Hk' as <-.
        now rewrite Hhw.
      - rewrite Hnil in Hsto. cbn [List.length Nat.eqb] in Hsto.
        split.
        + destruct (Global.app_masterKey a); [|exact Hsto].
          now rewrite orb_true_r in Hsto.
        + intros mk _. rewrite Hnil. apply orb_true_r. }
    destruct Hsame as [Hs Hg]. split; [exact Hs|].
    destruct Hdash as [Hd|(_ & mk & m & Hk & Hpass & _)]; [exact Hd|].
    rewrite (Hg mk Hk) in Hpass. discriminate.
  - intros Hshown.
    destruct Hdash as [Hd|(_ & mk & m & Hk & Hpass & Hsome)].
    { rewrite Hd in Hshown. discriminate. }
    rewrite Hk, Hpass, Hsome in Hsto.
    destruct (Global.storage_masternode a) as [m0|] eqn:Hst; [|discriminate].
    destruct (existsb _ confirmed) eqn:Hex; [|discriminate].
    injection Hsome as <-.
    apply existsb_exists in Hex as (utxo & Hin & Hmatch).
    exists m0, utxo. rewrite Hsto, Hmem. repeat split; assumption.
Qed.


End MasternodeTab.

(** * Further properties *)

(** ** [insert] *)

Lemma slice_bound_le (len : nat) (i : Z) : slice_bound len i <= len.
Proof.
  unfold slice_bound. destruct (Z.ltb_spec i 0); lia.
Qed.

Lemma insert_at_bound {A} (arr : list A) (index : Z) (newItem : A) :
  Global.insert arr index newItem =
  firstn (slice_bound (List.length arr) index) arr
  ++ newItem :: skipn (slice_bound (List.length arr) index) arr.
Proof.
  unfold Global.insert, slice.
  pose proof (slice_bound_le (List.length arr) index) as Hle.
  set (k := slice_bound (List.length arr) index) in *.
  replace (slice_bound (List.length arr) 0) with 0
    by (unfold slice_bound; cbn; lia).
  cbn [skipn]. rewrite Nat.sub_0_r.
  rewrite (firstn_all2 (skipn k arr)) by (rewrite length_skipn; lia).
  reflexivity.
Qed.

Lemma insert_length {A} (arr : list A) (index : Z) (newItem : A) :
  List.length (Global.insert arr index newItem) = S (List.length arr).
Proof.
  rewrite insert_at_bound.
  pose proof (slice_bound_le (List.length arr) index).
  rewrite length_app. cbn [List.length].
  rewrite length_firstn, length_skipn. lia.
Qed.

(** X1.  [insert] puts [newItem] at one place of [arr] and keeps all the
    rest in order: the place is [index] when it lies within the array, it
    counts from the end when [index] is negative, and it is clamped to the
    ends otherwise.  The result has one element more, and taking the new
    element out gives [arr] back. *)
Theorem insert_spec :
  forall (A : Type) (arr : list A) (index : Z) (newItem : A),
    let len := Z.of_nat (List.length arr) in
    let r := Global.insert arr index newItem in
    exists k : nat,
      Z.of_nat k =
        Z.max 0 (Z.min len (if (index <? 0)%Z then len + index else index))%Z
      /\ r = firstn k arr ++ newItem :: skipn k arr
      /\ nth_error r k = Some newItem
      /\ List.length r = S (List.length arr)
      /\ firstn k r ++ skipn (S k) r = arr.
Proof.
  intros A arr index newItem len r. subst r.
  rewrite insert_at_bound.
  pose proof (slice_bound_le (List.length arr) index) as Hle.
  exists (slice_bound (List.length arr) index).
  set (k := slice_bound (List.length arr) index) in *.
  assert (Hk : List.length (firstn k arr) = k) by (rewrite length_firstn; lia).
  split; [|split; [reflexivity|split; [|split]]].
  - subst k len. unfold slice_bound. destruct (Z.ltb_spec index 0); lia.
  - rewrite nth_error_app2 by lia. rewrite Hk, Nat.sub_diag. reflexivity.
  - rewrite length_app. cbn [List.length]. rewrite Hk, length_skipn. lia.
  - rewrite firstn_app, Hk, Nat.sub_diag. cbn [firstn].
    rewrite app_nil_r, firstn_firstn, Nat.min_id.
    replace (S k) with (List.length (firstn k arr) + 1) by lia.
    rewrite skipn_app, Hk.
    replace (k + 1 - k) with 1 by lia.
    rewrite (skipn_all2 (firstn k arr)) by lia. cbn [skipn app].
    apply firstn_skipn.
Qed.

(** ** [findCompressedPubKey] *)

Lemma read_eqb_Some (a : option Z) (z : Z) :
  read_eqb a (Some z) = true <-> a = Some z.
Proof.
  destruct a as [x|]; cbn; [|split; discriminate].
  rewrite Z.eqb_eq. split; [now intros ->|now intros [= ->]].
Qed.

Lemma findCompressedPubKey_loop_spec (arr : list Z) (n i : nat) :
  (forall i', i' < i ->
     ~ (nth_error arr i' = Some 1%Z /\ nth_error arr (i' + 1) = Some 33%Z)) ->
  i + n = List.length arr ->
  match Global.findCompressedPubKey_loop n i arr with
  | Some key =>
      exists i0,
        (nth_error arr i0 = Some 1%Z /\ nth_error arr (i0 + 1) = Some 33%Z)
        /\ (forall i', i' < i0 ->
              ~ (nth_error arr i' = Some 1%Z /\ nth_error arr (i' + 1) = Some 33%Z))
        /\ key = map (fun j => nth_error arr (i0 + 2 + j)) (seq 0 33)
  | None =>
      forall i',
        ~ (nth_error arr i' = Some 1%Z /\ nth_error arr (i' + 1) = Some 33%Z)
  end.
Proof.
  revert i. induction n as [|n IH]; intros i Hbefore Hlen.
  - cbn. intros i' Hm.
    assert (Hin : i' < List.length arr).
    { apply nth_error_Some. destruct Hm as [H1 _]. congruence. }
    apply (Hbefore i'); [lia|exact Hm].
  - cbn [Global.findCompressedPubKey_loop].
    destruct (read_eqb (nth_error arr i) (Some 1%Z)) eqn:E1.
    + destruct (read_eqb (nth_error arr (i + 1)) (Some 33%Z)) eqn:E33.
      * exists i. apply read_eqb_Some in E1, E33. repeat split; trivial.
      * apply IH; [|lia]. intros i' Hlt [H1 H33].
        destruct (Nat.eq_dec i' i) as [->|Hne].
        -- apply read_eqb_Some in H33. congruence.
        -- apply (Hbefore i'); [lia|tauto].
    + apply IH; [|lia]. intros i' Hlt [H1 H33].
      destruct (Nat.eq_dec i' i) as [->|Hne].
      * apply read_eqb_Some in H1. congruence.
      * apply (Hbefore i'); [lia|tauto].
Qed.

(** X2.  [findCompressedPubKey] returns a key exactly when the marker
    [1, 33] occurs in the array.  The key then has 33 entries, the ones that
    follow the first occurrence of the marker; an entry is undefined where
    the array ends before it.  Without the marker the result is undefined. *)
Theorem findCompressedPubKey_spec :
  forall arr : list Z,
    let marker i :=
      nth_error arr i = Some 1%Z /\ nth_error arr (i + 1) = Some 33%Z in
    match Global.findCompressedPubKey arr with
    | Some key =>
        exists i,
          marker i
          /\ (forall i', i' < i -> ~ marker i')
          /\ List.length key = 33
          /\ (forall j, j < 33 -> nth_error key j = Some (nth_error arr (i + 2 + j)))
          /\ (i + 35 <= List.length arr <-> Forall (fun b => b <> None) key)
    | None => forall i, ~ marker i
    end.
Proof.
  intros arr marker. unfold Global.findCompressedPubKey.
  pose proof (findCompressedPubKey_loop_spec arr (List.length arr) 0) as Hloop.
  destruct (Global.findCompressedPubKey_loop (List.length arr) 0 arr) as [key|].
  - destruct Hloop as (i & Hm & Hfirst & ->); [intros i' Hlt; lia|reflexivity|].
    exists i. split; [exact Hm|]. split; [exact Hfirst|].
    split; [now rewrite length_map, length_seq|].
    split.
    + intros j Hj.
      rewrite nth_error_map, nth_error_seq.
      destruct (Nat.ltb_spec j 33); [reflexivity|lia].
    + rewrite Forall_map, Forall_forall. split.
      * intros Hlen j Hin. apply in_seq in Hin.
        apply nth_error_Some. lia.
      * intros Hall.
        assert (Hlast : nth_error arr (i + 2 + 32) <> None).
        { apply Hall, in_seq. lia. }
        apply nth_error_Some in Hlast. lia.
  - apply Hloop; [intros i' Hlt; lia|reflexivity].
Qed.

(** ** [addExtraBytes] *)

Lemma zero_padded_snoc (a b : list Z) (x : Z) :
  zero_padded a b -> zero_padded (a ++ [x]) (b ++ [x]).
Proof.
  induction 1; cbn; repeat constructor; assumption.
Qed.

Lemma zero_padded_put (a b : list Z) (k : nat) :
  zero_padded a b -> zero_padded a (firstn k b ++ 0%Z :: skipn k b).
Proof.
  intros Hzp. revert k. induction Hzp as [|x a b Hzp IH|a b Hzp IH]; intros k.
  - rewrite firstn_nil, skipn_nil. repeat constructor.
  - destruct k as [|k]; cbn; [now repeat constructor|].
    constructor. apply IH.
  - destruct k as [|k]; cbn; [now repeat constructor|].
    constructor. apply IH.
Qed.

Lemma zero_padded_length (a b : list Z) :
  zero_padded a b -> List.length a <= List.length b.
Proof.
  induction 1; cbn; lia.
Qed.

Lemma zero_padded_same_length (a b : list Z) :
  zero_padded a b -> List.length b = List.length a -> b = a.
Proof.
  induction 1 as [|x a b Hzp IH|a b Hzp IH]; cbn; intros Hlen.
  - reflexivity.
  - f_equal. apply IH. lia.
  - apply zero_padded_length in Hzp. lia.
Qed.

Lemma firstn_succ_nth {A} (a : list A) (i : nat) (x : A) :
  nth_error a i = Some x -> firstn (S i) a = firstn i a ++ [x].
Proof.
  revert i. induction a as [|y a IH]; intros [|i] Hx; cbn in Hx;
    try discriminate.
  - now injection Hx as ->.
  - change (firstn (S (S i)) (y :: a)) with (y :: firstn (S i) a).
    now rewrite (IH i Hx).
Qed.

Lemma addExtraBytes_loop_spec (arr pub : list Z) (nLen : Z) (n i : nat)
    (arrNew : list Z) (nFound : Z) :
  zero_padded (firstn i arr) arrNew ->
  i + n = List.length arr ->
  Z.of_nat (List.length arrNew) = (Z.of_nat i + nFound)%Z ->
  let r := Global.addExtraBytes_loop n i arr pub nLen arrNew nFound in
  zero_padded arr r
  /\ exists c : Z,
       Z.of_nat (List.length r) = (Z.of_nat (List.length arr) + c)%Z
       /\ (nFound <= c)%Z
       /\ (nFound <= nLen -> c <= nLen)%Z.
Proof.
  revert i arrNew nFound.
  induction n as [|n IH]; intros i arrNew nFound Hzp Hlen Hcount; cbn zeta.
  - cbn. replace i with (List.length arr) in * by lia.
    rewrite firstn_all in Hzp. split; [exact Hzp|].
    exists nFound. lia.
  - cbn [Global.addExtraBytes_loop].
    destruct (nth_error arr i) as [b|] eqn:Hb.
    2:{ apply nth_error_None in Hb. lia. }
    pose proof (zero_padded_snoc _ _ b Hzp) as Hzp1.
    rewrite <- (firstn_succ_nth _ _ _ Hb) in Hzp1.
    assert (Hlen1 : List.length (arrNew ++ [b]) = S (List.length arrNew)).
    { rewrite length_app. cbn. lia. }
    destruct (negb (nFound =? nLen)%Z && Global.pubkey_at arr pub i) eqn:Hfound.
    + apply andb_prop in Hfound as [Hne _].
      apply negb_true_iff, Z.eqb_neq in Hne.
      pose proof (insert_at_bound (arrNew ++ [b])
                    (Z.of_nat (List.length (arrNew ++ [b])) - 2) 0%Z) as Hins.
      pose proof (insert_length (arrNew ++ [b])
                    (Z.of_nat (List.length (arrNew ++ [b])) - 2) 0%Z) as Hinslen.
      specialize (IH (S i)
        (Global.insert (arrNew ++ [b])
           (Z.of_nat (List.length (arrNew ++ [b])) - 2) 0%Z)
        (nFound + 1)%Z).
      cbn zeta in IH.
      destruct IH as (Hr & c & Hc1 & Hc2 & Hc3).
      * rewrite Hins. now apply zero_padded_put.
      * lia.
      * rewrite Hinslen, Hlen1. lia.
      * split; [exact Hr|]. exists c. lia.
    + specialize (IH (S i) (arrNew ++ [b]) nFound Hzp1).
      cbn zeta in IH.
      destruct IH as (Hr & c & Hc1 & Hc2 & Hc3); [lia|rewrite Hlen1; lia|].
      split; [exact Hr|]. exists c. lia.
Qed.

(** X3.  [addExtraBytes] returns the transaction bytes with zeros put in and
    nothing else changed.  For a count [nLen] that is not negative it puts
    in at most [nLen] zeros, so with [nLen] 0 it returns a copy of the
    input. *)
Theorem addExtraBytes_spec :
  forall (arrTxBytes arrPubkeyBytes : list Z) (nLen : Z),
    let r := Global.addExtraBytes arrTxBytes arrPubkeyBytes nLen in
    zero_padded arrTxBytes r
    /\ List.length arrTxBytes <= List.length r
    /\ ((0 <= nLen)%Z ->
        (Z.of_nat (List.length r) <= Z.of_nat (List.length arrTxBytes) + nLen)%Z)
    /\ (nLen = 0%Z -> r = arrTxBytes).
Proof.
  intros arr pub nLen r. subst r. unfold Global.addExtraBytes.
  destruct (addExtraBytes_loop_spec arr pub nLen (List.length arr) 0 [] 0%Z)
    as (Hzp & c & Hc1 & Hc2 & Hc3); [constructor|reflexivity|reflexivity|].
  split; [exact Hzp|]. split; [now apply zero_padded_length|].
  split; [intros Hn; lia|].
  intros ->. apply zero_padded_same_length; [exact Hzp|]. lia.
Qed.

(** ** [addScriptLength] *)

Lemma array_incr_length (a : list Z) (i : nat) :
  List.length (Global.array_incr a i) = List.length a.
Proof.
  revert i. induction a as [|x a IH]; intros [|i]; cbn; auto.
Qed.

Lemma array_incr_other (a : list Z) (i k : nat) :
  k <> i -> nth_error (Global.array_incr a i) k = nth_error a k.
Proof.
  revert i k. induction a as [|x a IH]; intros [|i] [|k] Hne; cbn;
    try reflexivity; try contradiction.
  apply IH. lia.
Qed.

Lemma array_incr_same (a : list Z) (i : nat) (x : Z) :
  nth_error a i = Some x ->
  nth_error (Global.array_incr a i) i = Some (x + 1)%Z.
Proof.
  revert i. induction a as [|y a IH]; intros [|i]; cbn; try discriminate.
  - now intros [= ->].
  - apply IH.
Qed.

Lemma array_incr_sum (a : list Z) (i : nat) (x : Z) :
  nth_error a i = Some x ->
  sumZ (Global.array_incr a i) = (sumZ a + 1)%Z.
Proof.
  revert i. induction a as [|y a IH]; intros [|i]; cbn; try discriminate.
  - intros _. lia.
  - intros Hx. fold (sumZ (Global.array_incr a i)). fold (sumZ a).
    rewrite (IH i Hx). lia.
Qed.

Lemma addScriptLength_loop_spec (nInputLen : Z) (n i : nat) (arr : list Z)
    (n_found : Z) :
  let run := Global.addScriptLength_loop n i arr n_found nInputLen in
  List.length (snd run) = List.length arr
  /\ (forall k, k < i \/ List.length arr <= k + 1 ->
                nth_error (snd run) k = nth_error arr k)
  /\ (forall k x, nth_error arr k = Some x ->
                  nth_error (snd run) k = Some x
                  \/ nth_error (snd run) k = Some (x + 1)%Z)
  /\ ((nInputLen <= n_found)%Z -> fst run = None)
  /\ exists c : Z,
       (0 <= c)%Z
       /\ sumZ (snd run) = (sumZ arr + c)%Z
       /\ forall r, fst run = Some r ->
                    r = snd run /\ (n_found + c)%Z = nInputLen /\ (1 <= c)%Z.
Proof.
  revert i arr n_found.
  induction n as [|n IH]; intros i arr n_found; cbn zeta.
  - cbn [Global.addScriptLength_loop fst snd].
    split; [reflexivity|]. split; [reflexivity|].
    split; [intros k x Hx; now left|]. split; [reflexivity|].
    exists 0%Z. split; [lia|]. split; [lia|]. intros r Hr. discriminate Hr.
  - cbn [Global.addScriptLength_loop].
    assert (Hskip :
      let run := Global.addScriptLength_loop n (S i) arr n_found nInputLen in
      List.length (snd run) = List.length arr
      /\ (forall k, k < i \/ List.length arr <= k + 1 ->
                    nth_error (snd run) k = nth_error arr k)
      /\ (forall k x, nth_error arr k = Some x ->
                      nth_error (snd run) k = Some x
                      \/ nth_error (snd run) k = Some (x + 1)%Z)
      /\ ((nInputLen <= n_found)%Z -> fst run = None)
      /\ exists c : Z,
           (0 <= c)%Z
           /\ sumZ (snd run) = (sumZ arr + c)%Z
           /\ forall r, fst run = Some r ->
                        r = snd run /\ (n_found + c)%Z = nInputLen /\ (1 <= c)%Z).
    { destruct (IH (S i) arr n_found) as (Hl & Hu & Hp & Hn & Hc).
      cbn zeta. repeat split; auto. intros k Hk. apply Hu. lia. }
    destruct (read_eqb (nth_error arr (i + 1)) (Some 71%Z)
              || read_eqb (nth_error arr (i + 1)) (Some 72%Z)
              || read_eqb (nth_error arr (i + 1)) (Some 73%Z)) eqn:Hnext;
      [|exact Hskip].
    destruct (nth_error arr i) as [len_i|] eqn:Hi; [|exact Hskip].
    destruct (read_eqb (index arr (Z.of_nat i + len_i))
                (nth_error arr (List.length arr - 1))); [|exact Hskip].
    clear Hskip.
    assert (Hin : i + 1 < List.length arr).
    { apply nth_error_Some. intros Hnone. rewrite Hnone in Hnext.
      discriminate. }
    pose proof (array_incr_length arr i) as Hlen'.
    destruct (Z.eqb_spec (n_found + 1) nInputLen) as [Heq|Hneq].
    + cbn [fst snd]. split; [exact Hlen'|]. split.
      { intros k Hk. apply array_incr_other. lia. }
      split.
      { intros k x Hx. destruct (Nat.eq_dec k i) as [->|Hne].
        - right. rewrite Hi in Hx. injection Hx as <-.
          now apply array_incr_same.
        - left. now rewrite array_incr_other. }
      split; [intros Hle; lia|].
      exists 1%Z. split; [lia|]. split; [now apply (array_incr_sum arr i len_i)|].
      intros r [= <-]. repeat split; lia.
    + destruct (IH (S i) (Global.array_incr arr i) (n_found + 1)%Z)
        as (Hl & Hu & Hp & Hn & c & Hc0 & Hsum & Hret).
      split; [now rewrite Hl|]. split.
      { intros k Hk. rewrite Hu by (rewrite Hlen'; lia).
        apply array_incr_other. lia. }
      split.
      { intros k x Hx. destruct (Nat.eq_dec k i) as [->|Hne].
        - right. rewrite Hi in Hx. injection Hx as <-.
          rewrite Hu by lia. now apply array_incr_same.
        - apply Hp. now rewrite array_incr_other. }
      split; [intros Hle; apply Hn; lia|].
      exists (c + 1)%Z. split; [lia|]. split.
      { rewrite Hsum, (array_incr_sum arr i len_i Hi). lia. }
      intros r Hr. destruct (Hret r Hr) as (-> & Hcount & Hpos).
      repeat split; lia.
Qed.

(** X4.  [addScriptLength] works on the array it is given: whatever it
    returns, the array keeps its length, every byte is either as it was or
    one higher, and the last byte is as it was.  When it returns the array,
    it has raised exactly [nInputLen] bytes by one; for a count below 1 it
    returns undefined, though it may have raised bytes all the same. *)
Theorem addScriptLength_spec :
  forall (arrTxBytes arrTxBytes2 : list Z) (nInputLen : Z),
    let run := Global.addScriptLength arrTxBytes arrTxBytes2 nInputLen in
    let after := snd run in
    List.length after = List.length arrTxBytes
    /\ (forall k x, nth_error arrTxBytes k = Some x ->
                    nth_error after k = Some x
                    \/ nth_error after k = Some (x + 1)%Z)
    /\ nth_error after (List.length arrTxBytes - 1)
       = nth_error arrTxBytes (List.length arrTxBytes - 1)
    /\ (forall r, fst run = Some r ->
                  r = after
                  /\ sumZ after = (sumZ arrTxBytes + nInputLen)%Z
                  /\ (1 <= nInputLen)%Z)
    /\ ((nInputLen <= 0)%Z -> fst run = None).
Proof.
  intros arr arr2 nIn run after. subst after run.
  unfold Global.addScriptLength.
  destruct (addScriptLength_loop_spec nIn (List.length arr) 0 arr 0%Z)
    as (Hl & Hu & Hp & Hn & c & Hc0 & Hsum & Hret).
  split; [exact Hl|]. split; [exact Hp|]. split; [apply Hu; lia|].
  split; [|exact Hn].
  intros r Hr. destruct (Hret r Hr) as (-> & Hcount & Hpos).
  repeat split; lia.
Qed.

(** ** [toggle] *)

(** X5.  [toggle()] always flips the flag and emits one ['network-toggle']
    event with the new value; two in a row give the object back as it was,
    with both events on the trace. *)
Theorem toggle_twice :
  forall w : World,
    let e := _enabled (this w) in
    Network.toggle w =
      (Ok tt,
       {| this := set__enabled (negb e) (this w);
          trace := trace w ++ [Emit "network-toggle" [VBool (negb e)]] |})
    /\ Network.toggle (snd (Network.toggle w)) =
       (Ok tt,
        {| this := this w;
           trace := trace w ++
                    [Emit "network-toggle" [VBool (negb e)];
                     Emit "network-toggle" [VBool e]] |}).
Proof.
  intros [[en mk lw url b ar sy] t].
  destruct en; js_unfold; rewrite <- ?app_assoc; split; reflexivity.
Qed.

(** ** [getUTXOs] *)

Section Utxos.

Context `{Externals}.

(** Whatever [getUTXOs] does, the object differs at most in its [enabled]
    flag afterwards, which is never raised. *)
Lemma getUTXOs_object (utxo_resp : option js_value) (w : World) :
  let w' := snd (ExplorerNetwork.getUTXOs utxo_resp w) in
  this w' = set__enabled (_enabled (this w')) (this w)
  /\ (_enabled (this w') = true -> _enabled (this w) = true).
Proof.
  destruct (masterKey (this w)) as [mk|] eqn:Hk.
  2:{ destruct w as [[en k lw url b ar sy] t]. cbn in Hk. subst k.
      unfold ExplorerNetwork.getUTXOs. js_unfold. split; trivial. }
  destruct (isSyncing (this w)) eqn:Hs.
  { destruct w as [[en k lw url b ar sy] t]. cbn in Hk, Hs. subst k sy.
    unfold ExplorerNetwork.getUTXOs. js_unfold. split; trivial. }
  cbn zeta. rewrite (getUTXOs_run utxo_resp w mk Hk Hs). cbn [fst snd].
  destruct w as [[en k lw url b ar sy] t].
  destruct (utxo_key mk); [destruct utxo_resp|]; destruct en;
    js_unfold; split; trivial.
Qed.

(** X6.  [getUTXOs] never throws.  Without a master key, or while a scan is
    running, it does nothing at all.  In every run it may change only the
    [enabled] flag of the object, and only from true to false: the scan flag
    it raises is lowered again before it returns. *)
Theorem getUTXOs_guarded :
  forall (utxo_resp : option js_value) (w : World),
    let run := ExplorerNetwork.getUTXOs utxo_resp w in
    fst run = Ok tt
    /\ (masterKey (this w) = None \/ isSyncing (this w) = true -> snd run = w)
    /\ this (snd run) = set__enabled (_enabled (this (snd run))) (this w)
    /\ (_enabled (this (snd run)) = true -> _enabled (this w) = true).
Proof.
  intros utxo_resp w. cbn zeta.
  split; [|split; [|exact (getUTXOs_object utxo_resp w)]].
  - destruct (getUTXOs_frame utxo_resp w) as (w' & Hrun & _).
    now rewrite Hrun.
  - destruct w as [[en k lw url b ar sy] t]. cbn [this masterKey isSyncing].
    unfold ExplorerNetwork.getUTXOs.
    intros [->| ->]; [|destruct k]; js_unfold; reflexivity.
Qed.

(** X7.  Past its guards, [getUTXOs] asks the master key for the public key
    and the explorer for the UTXOs.  When both answer, it emits one ['utxo']
    event with the explorer's answer and leaves the object as it was.  When
    either fails, it emits no ['utxo'] event and calls [error()], after the
    request if one was made. *)
Theorem getUTXOs_outcome :
  forall (utxo_resp : option js_value) (w : World) (mk : MasterKey),
    masterKey (this w) = Some mk ->
    isSyncing (this w) = false ->
    let w' := snd (ExplorerNetwork.getUTXOs utxo_resp w) in
    match utxo_key mk, utxo_resp with
    | Some publicKey, Some utxos =>
        w' = {| this := this w;
                trace := trace w ++
                         [Fetch (strUrl (this w) ++ "/api/v2/utxo/" ++ publicKey) None;
                          Emit "utxo" [utxos]] |}
    | Some publicKey, None =>
        w' = snd (ExplorerNetwork.error
                    {| this := this w;
                       trace := trace w ++
                                [Fetch (strUrl (this w) ++ "/api/v2/utxo/" ++ publicKey)
                                   None] |})
        /\ emitted "utxo" (trace w') = emitted "utxo" (trace w)
        /\ _enabled (this w') = false
    | None, _ =>
        w' = snd (ExplorerNetwork.error w)
        /\ emitted "utxo" (trace w') = emitted "utxo" (trace w)
        /\ _enabled (this w') = false
    end.
Proof.
  intros utxo_resp w mk Hk Hs. cbn zeta.
  rewrite (getUTXOs_run utxo_resp w mk Hk Hs). cbn [snd].
  destruct (utxo_key mk) as [pk|]; [destruct utxo_resp as [u|]|];
    [reflexivity| |];
    (split; [reflexivity|]);
    destruct w as [[en k lw url b ar sy] t]; destruct en; js_unfold;
    rewrite ?emitted_app; cbn; split; (lia || reflexivity).
Qed.

End Utxos.

(** The theorem at [sample_world], whose key and explorer both answer. *)
Lemma getUTXOs_outcome_witness :
  snd (ExplorerNetwork.getUTXOs (H := sample_externals) (Some (VArr [])) sample_world)
  = {| this := sample_network;
       trace := [Fetch "https://explorer.example/api/v2/utxo/DLabsktzGMnsK5K9uRTMCF6NoYNY6ET4Bb" None;
                 Emit "utxo" [VArr []]] |}.
Proof.
  exact (getUTXOs_outcome (H := sample_externals) (Some (VArr [])) sample_world
           sample_key eq_refl eq_refl).
Defined.

(** ** [sendTransaction] *)

(** The object and the events named [name] after [error()]. *)
Lemma error_disables (name : string) (w : World) :
  name <> "network-toggle" ->
  let w' := snd (ExplorerNetwork.error w) in
  _enabled (this w') = false
  /\ emitted name (trace w') = emitted name (trace w).
Proof.
  intros Hname. destruct w as [[en k lw url b ar sy] t].
  destruct en; js_unfold; [|split; reflexivity].
  split; [reflexivity|].
  rewrite !emitted_app. unfold emitted at 2 3. cbn [filter].
  destruct (String.eqb_spec "network-toggle" name) as [Heq|_];
    [now elim Hname|cbn [List.length]; lia].
Qed.

(** X8.  [sendTransaction] never throws, whatever the explorer answers.
    It returns a boolean exactly when it has emitted one
    ['transaction-sent'] event, which carries that boolean first (and nothing
    else when it is true), directly after the request and with the object
    unchanged.  It returns [undefined] otherwise: then no
    ['transaction-sent'] event was emitted and the network is disabled.  A
    failed request is such a case. *)
Theorem sendTransaction_returns :
  forall (hex : string) (send_resp : option js_value) (w : World),
    let run := ExplorerNetwork.sendTransaction hex send_resp w in
    let request := Fetch (strUrl (this w) ++ "/api/v2/sendtx/") (Some hex) in
    (exists r, fst run = Ok r)
    /\ (forall b : bool,
           fst run = Ok (Some b) ->
           this (snd run) = this w
           /\ exists rest,
               trace (snd run) =
               trace w ++ [request; Emit "transaction-sent" (VBool b :: rest)]
               /\ (b = true -> rest = []))
    /\ (fst run = Ok None ->
        _enabled (this (snd run)) = false
        /\ emitted "transaction-sent" (trace (snd run)) =
           emitted "transaction-sent" (trace w))
    /\ (send_resp = None -> fst run = Ok None).
Proof.
  intros hex resp w.
  assert (Herr : forall t',
             emitted "transaction-sent" t' = emitted "transaction-sent" (trace w) ->
             let w' := snd (ExplorerNetwork.error {| this := this w; trace := t' |}) in
             _enabled (this w') = false
             /\ emitted "transaction-sent" (trace w') =
                emitted "transaction-sent" (trace w)).
  { intros t' Ht'.
    destruct (error_disables "transaction-sent" {| this := this w; trace := t' |})
      as [He Hn]; [discriminate|].
    split; [exact He|]. cbn zeta in Hn. rewrite Hn. exact Ht'. }
  specialize (Herr (trace w ++ [Fetch (strUrl (this w) ++ "/api/v2/sendtx/") (Some hex)])).
  rewrite emitted_app in Herr. cbn [emitted filter List.length] in Herr.
  specialize (Herr (Nat.add_0_r _)).
  destruct w as [[en k lw url b0 ar sy] t]. cbn [this trace strUrl] in *.
  unfold ExplorerNetwork.sendTransaction.
  destruct resp as [data|].
  2:{ js_unfold. cbn zeta in Herr.
      destruct en; js_unfold; (split; [eexists; reflexivity|]);
        (split; [discriminate|]); (split; [intros _|reflexivity]);
        revert Herr; js_unfold; rewrite <- ?app_assoc; trivial. }
  js_unfold.
  destruct (get_prop data "result") as [res|e] eqn:Hres.
  2:{ cbn zeta in Herr.
      destruct en; js_unfold; (split; [eexists; reflexivity|]);
        (split; [discriminate|]); (split; [intros _|discriminate]);
        revert Herr; js_unfold; rewrite <- ?app_assoc; trivial. }
  assert (Hprop : exists err, get_prop data "error" = Ok err)
    by (destruct data; try discriminate; eexists; reflexivity).
  destruct Hprop as [err Herr'].
  unfold to_string_step.
  destruct (stringifies res).
  2:{ cbn zeta in Herr.
      destruct (truthy res && length_is res 64);
        destruct en; js_unfold; (split; [eexists; reflexivity|]);
        (split; [discriminate|]); (split; [intros _|discriminate]);
        revert Herr; js_unfold; rewrite <- ?app_assoc; trivial. }
  destruct (truthy res && length_is res 64).
  - js_unfold. rewrite <- app_assoc.
    split; [eexists; reflexivity|].
    split; [|split; discriminate].
    intros b [= <-]. split; [reflexivity|]. exists []. now split.
  - js_unfold. rewrite Herr'. js_unfold. rewrite <- app_assoc.
    split; [eexists; reflexivity|].
    split; [|split; discriminate].
    intros b [= <-]. split; [reflexivity|]. exists [err]. now split.
Qed.

(** ** [getStakingRewards] *)

Section StakingRewardsRuns.

Context `{Externals}.

(** X9.  [getStakingRewards] has no error handler of its own: whatever
    happens, the only field of the object it may write is [arrRewards], and a
    run that throws (rejected key operation, failed request, a [null] answer
    for an HD wallet, a transaction without outputs) leaves the object as it
    was, so the network stays enabled.  It returns [undefined] exactly when
    the network is disabled or no master key is set, and then does nothing.
    Otherwise a run that returns gives the reward list the object holds
    afterwards. *)
Theorem getStakingRewards_atomic :
  forall (history_resp : option (option History.t)) (w : World),
    let run := ExplorerNetwork.getStakingRewards history_resp w in
    let w' := snd run in
    this w' = set_arrRewards (arrRewards (this w')) (this w)
    /\ (forall e, fst run = Throw e -> this w' = this w)
    /\ (fst run = Ok None <->
        _enabled (this w) = false \/ masterKey (this w) = None)
    /\ (fst run = Ok None -> w' = w)
    /\ (forall l, fst run = Ok (Some l) -> l = arrRewards (this w')).
Proof.
  intros resp [[en k lw url b ar sy] t].
  cbn [this _enabled masterKey arrRewards].
  destruct en, k as [mk|];
    try solve [staking_unfold; repeat apply conj; trivial;
               try discriminate; intros; auto].
  assert (Hno : ~ (true = false \/ Some mk = @None MasterKey))
    by (intros [Hc|Hc]; discriminate).
  staking_unfold.
  destruct (last_elem ar) as [rl|], (isHD mk); cbv iota.
  all: first [destruct (getxpub mk _) as [key|]
             |destruct (getAddress mk None) as [key|]];
       js_unfold.
  all: try destruct resp as [[[tokens [txs|] items]|]|]; js_unfold.
  all: try destruct (filter_throwing ExplorerNetwork.isCoinStake txs)
         as [stakes|]; js_unfold.
  all: repeat apply conj; trivial; try discriminate;
       try (intros Hc; now elim Hno);
       try (intros l [= <-]; reflexivity).
Qed.

(** X12.  After [setMasterKey], the next [getStakingRewards] on an enabled
    network behaves as on a network freshly constructed for that key: same
    result, same rewards stored, and the same effects (appended to the trace
    so far).  Nothing of the previous key's rewards survives, and the query
    starts again from [to=0]. *)
Theorem getStakingRewards_after_setMasterKey :
  forall (k : option MasterKey) (history_resp : option (option History.t))
         (w : World),
    _enabled (this w) = true ->
    let rekeyed :=
      ExplorerNetwork.getStakingRewards history_resp
        (snd (ExplorerNetwork.setMasterKey k w)) in
    let fresh :=
      ExplorerNetwork.getStakingRewards history_resp
        {| this := new_ExplorerNetwork (strUrl (this w)) k; trace := [] |} in
    fst rekeyed = fst fresh
    /\ arrRewards (this (snd rekeyed)) = arrRewards (this (snd fresh))
    /\ trace (snd rekeyed) = trace w ++ trace (snd fresh).
Proof.
  intros k resp [[en k0 lw url b ar sy] t] Hen.
  cbn [this _enabled strUrl trace] in *. subst en.
  unfold ExplorerNetwork.setMasterKey, new_ExplorerNetwork.
  destruct k as [mk|];
    [|staking_unfold; rewrite ?app_nil_r; repeat split].
  staking_unfold.
  destruct (isHD mk); cbv iota.
  all: first [destruct (getxpub mk _) as [key|]
             |destruct (getAddress mk None) as [key|]];
       js_unfold; rewrite ?app_nil_r.
  all: try destruct resp as [[[tokens [txs|] items]|]|];
       js_unfold; rewrite ?app_nil_r.
  all: try destruct (filter_throwing ExplorerNetwork.isCoinStake txs)
         as [stakes|]; js_unfold; rewrite ?app_nil_r.
  all: repeat split.
Qed.

End StakingRewardsRuns.

(** The theorem at [world_with_reward_at_100], re-keyed with the HD sample
    key. *)
Lemma getStakingRewards_after_setMasterKey_witness :
  trace
    (snd (ExplorerNetwork.getStakingRewards (H := sample_externals)
            (Some (Some sample_history))
            (snd (ExplorerNetwork.setMasterKey (Some sample_hd_key)
                    world_with_reward_at_100))))
  = trace world_with_reward_at_100 ++
    trace
      (snd (ExplorerNetwork.getStakingRewards (H := sample_externals)
              (Some (Some sample_history))
              {| this := new_ExplorerNetwork
                           (strUrl (this world_with_reward_at_100))
                           (Some sample_hd_key);
                 trace := [] |})).
Proof.
  exact (proj2 (proj2
           (getStakingRewards_after_setMasterKey (H := sample_externals)
              (Some sample_hd_key) (Some (Some sample_history))
              world_with_reward_at_100 eq_refl))).
Defined.

(** ** [txSum] *)

(** X10.  [txSum] counts an input or output only when it has exactly two
    addresses and at least one of them has a (non-empty) entry in
    [mapPaths]: over a list where no element is like that, the sum is 0,
    whatever the values are. *)
Theorem txSum_foreign :
  forall (mapPaths : Map_t) (v : list History.vio_t),
    (forall s, In s v ->
       List.length (History.addresses s) <> 2
       \/ forall a, In a (History.addresses s) ->
                    truthy_entry (Map_get String.eqb mapPaths a) = false) ->
    ExplorerNetwork.txSum mapPaths v = 0%float.
Proof.
  intros mapPaths v. unfold ExplorerNetwork.txSum.
  induction v as [|s v IH]; intros Hv; [reflexivity|].
  cbn [fold_left].
  replace (negb _ && _) with false; [apply IH; intros; apply Hv; now right|].
  symmetry. destruct (Hv s (or_introl eq_refl)) as [Hlen|Hnone].
  - apply andb_false_intro2. now apply Nat.eqb_neq.
  - apply andb_false_intro1.
    replace (filter truthy_entry _) with (@nil (option string)); [reflexivity|].
    symmetry. induction (History.addresses s) as [|a l IHl]; [reflexivity|].
    cbn [map filter]. rewrite (Hnone a (or_introl eq_refl)).
    apply IHl. intros; apply Hnone; now right.
Qed.

(** The theorem for a wallet that owns no address, on the outputs of
    [sample_history]'s shape: one cold-stake output worth 5 coins. *)
Lemma txSum_foreign_witness :
  ExplorerNetwork.txSum []
    [{| History.addresses := ["SdgQDpS8jDRJDX8yK8m9KnTMarsE84zdsy"; "DLabsktzGMnsK5K9uRTMCF6NoYNY6ET4Bb"];
        History.value := "500000000" |}]
  = 0%float.
Proof.
  apply txSum_foreign. intros s _. right. intros a _. reflexivity.
Defined.

(** ** [getBlockCount] over several polls *)

Section Polls.

Context `{Externals}.

(** X13.  A poll writes at most the cached height and the [enabled] flag,
    and never raises the flag: no poll re-enables a disabled network.  A
    failed poll leaves the network disabled; on an already disabled network
    it adds the request to the trace and nothing else, so that the alert of
    [error()] is raised once, not once per failed poll.  Being disabled does
    not stop the request from being sent. *)
Theorem getBlockCount_never_enables :
  forall (api_resp : option api_status) (utxo_resp : option js_value) (w : World),
    let w' := snd (ExplorerNetwork.getBlockCount api_resp utxo_resp w) in
    this w' =
      set__enabled (_enabled (this w')) (set_blocks (blocks (this w')) (this w))
    /\ (_enabled (this w') = true -> _enabled (this w) = true)
    /\ (api_resp = None -> _enabled (this w') = false)
    /\ (api_resp = None ->
        _enabled (this w) = false ->
        w' = {| this := this w;
                trace := trace w ++
                         [Fetch (strUrl (this w) ++ "/api/v2/api") None] |}).
Proof.
  intros api_resp utxo_resp w. cbn zeta.
  destruct api_resp as [r|].
  - rewrite getBlockCount_run. cbn [snd].
    destruct (blocks (this w) <? backend_blocks r)%Z.
    + match goal with
      | |- context [ExplorerNetwork.getUTXOs ?u ?x] =>
          destruct (getUTXOs_object u x) as [Hobj Hen]
      end.
      cbn zeta in Hobj, Hen.
      split; [|split; [|split; discriminate]].
      * destruct w as [[en k lw url b ar sy] t]. cbn [this trace strUrl] in *.
        set (w' := snd _) in *. clearbody w'. rewrite Hobj. reflexivity.
      * intros He. specialize (Hen He).
        destruct w as [[en k lw url b ar sy] t]. exact Hen.
    + destruct w as [[en k lw url b ar sy] t].
      repeat apply conj; trivial; discriminate.
  - rewrite getBlockCount_failed. cbn [snd].
    destruct w as [[en k lw url b ar sy] t].
    destruct en; js_unfold; repeat apply conj; trivial; discriminate.
Qed.

(** X14.  Once a poll has seen height [h1], a later poll that reports a
    height not above [h1] changes nothing in the object and adds only its
    request to the trace, whatever the UTXO scan of the first poll did: no
    second ['sync-status'] event, no second scan. *)
Theorem getBlockCount_stale_height :
  forall (r1 r2 : api_status) (utxo1 utxo2 : option js_value) (w : World),
    (backend_blocks r2 <= backend_blocks r1)%Z ->
    let w1 := snd (ExplorerNetwork.getBlockCount (Some r1) utxo1 w) in
    ExplorerNetwork.getBlockCount (Some r2) utxo2 w1 =
    (Ok tt,
     {| this := this w1;
        trace := trace w1 ++ [Fetch (strUrl (this w) ++ "/api/v2/api") None] |}).
Proof.
  intros r1 r2 utxo1 utxo2 w Hle. cbn zeta.
  rewrite (getBlockCount_run r2).
  assert (Hw1 : (backend_blocks r1 <=
                 blocks (this (snd (ExplorerNetwork.getBlockCount (Some r1) utxo1 w))))%Z
                /\ strUrl (this (snd (ExplorerNetwork.getBlockCount (Some r1) utxo1 w)))
                   = strUrl (this w)).
  { rewrite getBlockCount_run. cbn [snd].
    destruct (Z.ltb_spec (blocks (this w)) (backend_blocks r1)) as [Hlt|Hge].
    - match goal with
      | |- context [ExplorerNetwork.getUTXOs ?u ?x] =>
          destruct (getUTXOs_object u x) as [Hobj _]
      end.
      cbn zeta in Hobj. rewrite Hobj.
      destruct w as [[en k lw url b ar sy] t]. cbn. split; [lia|reflexivity].
    - cbn [this]. split; [lia|reflexivity]. }
  destruct Hw1 as [Hb Hu]. rewrite Hu.
  destruct (Z.ltb_spec
              (blocks (this (snd (ExplorerNetwork.getBlockCount (Some r1) utxo1 w))))
              (backend_blocks r2)); [lia|reflexivity].
Qed.

End Polls.

(** The theorem at [sample_world]: a poll that finds height 10, then one
    that finds height 9. *)
Lemma getBlockCount_stale_height_witness :
  let w1 := snd (ExplorerNetwork.getBlockCount (H := sample_externals)
                   (Some {| backend_blocks := 10 |}) (Some (VArr [])) sample_world) in
  ExplorerNetwork.getBlockCount (H := sample_externals)
    (Some {| backend_blocks := 9 |}) None w1 =
  (Ok tt,
   {| this := this w1;
      trace := trace w1 ++
               [Fetch (strUrl (this sample_world) ++ "/api/v2/api") None] |}).
Proof.
  apply (getBlockCount_stale_height (H := sample_externals)
           {| backend_blocks := 10 |} {| backend_blocks := 9 |}).
  cbn. lia.
Defined.

(** ** The derivation path of [getUTXOFullInfo] *)

(** [split] undoes [join] on components that do not hold the separator. *)
Lemma split_no_slash (s : string) :
  includes s "/" = false -> split "/" s = [s].
Proof.
  induction s as [|c r IH]; [reflexivity|].
  cbn [includes split]. intros Hc. apply orb_false_elim in Hc as [Hc Hr].
  rewrite Hc, (IH Hr). reflexivity.
Qed.

Lemma split_append_slash (x rest : string) :
  includes x "/" = false ->
  split "/" (x ++ String "/" rest) = x :: split "/" rest.
Proof.
  induction x as [|c r IH]; [reflexivity|].
  cbn [includes]. intros Hc. apply orb_false_elim in Hc as [Hc Hr].
  cbn [String.append split]. rewrite Hc, (IH Hr). reflexivity.
Qed.

Lemma split_join (comps : list string) :
  comps <> [] ->
  Forall (fun s => includes s "/" = false) comps ->
  split "/" (join "/" comps) = comps.
Proof.
  unfold join. induction comps as [|x [|y l] IH]; [congruence| |].
  - intros _ Hall. apply split_no_slash. now inversion Hall.
  - intros _ Hall. inversion Hall as [|? ? Hx Hrest]; subst.
    change (String.concat "/" (x :: y :: l))
      with (x ++ String "/" (String.concat "/" (y :: l)))%string.
    rewrite (split_append_slash _ _ Hx), IH; [reflexivity|discriminate|exact Hrest].
Qed.

Section FullInfoPath.

Context `{Externals}.

(** X11.  For an explorer entry whose path has the components [comps], and
    with a master key loaded: whatever the fetched transaction is, and
    whether the call then returns a UTXO, returns null or throws,
    [lastWallet] becomes the larger of its old value and [parseInt] of the
    component at index 5 (after the coin type was written at index 2), and
    nothing else of the object changes.  A UTXO that is returned carries the
    same components with the coin type of the wallet kind, followed by an
    apostrophe, at index 2. *)
Theorem getUTXOFullInfo_path :
  forall (cUTXO : explorer_utxo) (cTx : TxSpecific.t) (w : World)
         (mk : MasterKey) (comps : list string),
    masterKey (this w) = Some mk ->
    eu_path cUTXO = Some (join "/" comps) ->
    join "/" comps <> "" ->
    Forall (fun s => includes s "/" = false) comps ->
    let run := ExplorerNetwork.getUTXOFullInfo cUTXO (Some cTx) w in
    let rewritten :=
      array_set comps 2
        (show_Z (if isHardwareWallet mk then BIP44_TYPE_LEDGER else BIP44_TYPE)
         ++ "'") in
    this (snd run) =
      set_lastWallet
        (Math_max (parseInt (array_get rewritten 5)) (lastWallet (this w)))
        (this w)
    /\ forall u, fst run = Ok (Some u) -> path u = Some (join "/" rewritten).
Proof.
  intros cUTXO cTx [[en k lw url b ar sy] t] mk comps Hk Hp Hne Hall.
  cbn [this masterKey] in Hk. subst k.
  assert (Hcomps : comps <> []) by (intros ->; now apply Hne).
  unfold ExplorerNetwork.getUTXOFullInfo. js_unfold. rewrite Hp.
  destruct (String.eqb_spec (join "/" comps) "") as [Hc|_]; [contradiction|].
  rewrite (split_join comps Hcomps Hall). js_unfold.
  destruct (index (TxSpecific.vout cTx) (eu_vout cUTXO)) as [cVout|];
    [|js_unfold; split; [reflexivity|discriminate]].
  destruct (index (TxSpecific.vout cTx) 0) as [cVout0|];
    [|js_unfold; split; [reflexivity|discriminate]].
  destruct (negb _ && negb _); js_unfold;
    (split; [reflexivity|]); [discriminate|].
  intros u [= <-]. reflexivity.
Qed.

End FullInfoPath.

(** The theorem for a Ledger-style path on the sample wallet: the coin type
    [1'] of the entry is replaced by the chain's, and the address index 7
    becomes [lastWallet]. *)
Lemma getUTXOFullInfo_path_witness :
  let run := ExplorerNetwork.getUTXOFullInfo (H := sample_externals)
               sample_cUTXO (Some sample_tx) sample_world in
  lastWallet (this (snd run)) = 7%float
  /\ forall u, fst run = Ok (Some u) -> path u = Some "m/44'/119'/0'/0/7".
Proof.
  destruct (getUTXOFullInfo_path (H := sample_externals)
              sample_cUTXO sample_tx sample_world sample_key
              ["m"; "44'"; "1'"; "0'"; "0"; "7"]
              eq_refl eq_refl) as [Hobj Hpath].
  - discriminate.
  - repeat constructor.
  - cbn zeta. split.
    + rewrite Hobj. vm_compute. reflexivity.
    + intros u Hu. rewrite (Hpath u Hu). vm_compute. reflexivity.
Defined.

(** ** The stored masternode *)

Section StoredMasternode.

Context `{Externals} {T : Type} `{Mempool T}.

(** When [refreshMasternodeData] persists its argument. *)
Lemma refreshMasternodeData_stores
    (d : Global.masternode_data) (started : option bool)
    (cMasternode : Masternode) (fAlert : bool) (a : Global.App T) :
  let run := Global.refreshMasternodeData (Some (Some d)) started cMasternode
               fAlert a in
  let persists :=
    (Global.md_status d = "ENABLED" \/ Global.md_status d = "PRE_ENABLED")
    \/ (Global.md_status d = "MISSING"
        /\ started = Some true
        /\ exists mk, Global.app_masterKey a = Some mk /\ isViewOnly mk = false) in
  Global.app_masterKey (snd run) = Global.app_masterKey a
  /\ (persists ->
      fst run = Ok (Some d) /\ Global.storage_masternode (snd run) = Some cMasternode)
  /\ (~ persists ->
      Global.storage_masternode (snd run) = Global.storage_masternode a).
Proof.
  destruct a as [k m st enc tr]. cbn zeta.
  cbn [Global.app_masterKey Global.storage_masternode].
  unfold Global.refreshMasternodeData. global_unfold.
  destruct (String.eqb_spec (Global.md_status d) "MISSING") as [Hm|Hm];
    cbn [negb]; global_unfold.
  - destruct k as [mk|]; global_unfold.
    + destruct (isViewOnly mk) eqn:Hv; cbn [negb]; global_unfold;
        [|destruct started as [[|]|]; global_unfold].
      all: split; [reflexivity|]; split.
      all: try (intros [[He|He]|(_ & Hst & mk' & Hk & Hv')];
                [rewrite Hm in He; discriminate..|];
                first [discriminate Hst
                      |injection Hk as <-; congruence
                      |now split]).
      all: intros Hnp;
           first [reflexivity
                 |exfalso; apply Hnp; right;
                  split; [exact Hm|]; split; [reflexivity|]; now exists mk].
    + split; [reflexivity|].
      split; [|reflexivity].
      intros [[He|He]|(_ & _ & mk' & Hk & _)];
        [rewrite Hm in He; discriminate..|discriminate].
  - destruct (String.eqb_spec (Global.md_status d) "ENABLED") as [He|He];
      [|destruct (String.eqb_spec (Global.md_status d) "PRE_ENABLED") as [Hp|Hp]];
      cbn [orb].
    3: destruct (Global.md_status d =? "REMOVED").
    all: destruct fAlert; global_unfold.
    all: split; [reflexivity|]; split.
    all: try (intros [[He'|He']|(Hm' & _)]; try contradiction; now split).
    all: intros Hnp; first [reflexivity|exfalso; apply Hnp; left; auto].
Qed.

(** X15.  [refreshMasternodeData] writes the masternode it was given to
    local storage exactly when the node reports [ENABLED] or [PRE_ENABLED],
    or reports [MISSING] while the wallet can sign and [start()] answers
    true; in every other case the stored entry is left as it was.  When
    [getFullData()] resolves to [null] the function throws a TypeError
    before it has written anything, and a rejected [getFullData()] is passed
    on the same way. *)
Theorem refreshMasternodeData_persists :
  forall (fullData : option (option Global.masternode_data))
         (started : option bool) (cMasternode : Masternode) (fAlert : bool)
         (a : Global.App T),
    let run := Global.refreshMasternodeData fullData started cMasternode fAlert a in
    (forall d,
        fullData = Some (Some d) ->
        let persists :=
          (Global.md_status d = "ENABLED" \/ Global.md_status d = "PRE_ENABLED")
          \/ (Global.md_status d = "MISSING"
              /\ started = Some true
              /\ exists mk, Global.app_masterKey a = Some mk
                            /\ isViewOnly mk = false) in
        (persists ->
         fst run = Ok (Some d)
         /\ Global.storage_masternode (snd run) = Some cMasternode)
        /\ (~ persists ->
            Global.storage_masternode (snd run) = Global.storage_masternode a))
    /\ (fullData = Some None -> run = (Throw TypeError, a))
    /\ (fullData = None -> run = (Throw Rejected, a)).
Proof.
  intros fullData started cMasternode fAlert a. cbn zeta.
  split; [|split].
  - intros d ->.
    exact (proj2 (refreshMasternodeData_stores d started cMasternode fAlert a)).
  - intros ->. reflexivity.
  - intros ->. reflexivity.
Qed.

(** X16.  After [destroyMasternode] no masternode is stored, whatever the
    tab update it starts finds; the mempool is untouched.  With no
    masternode stored it does nothing at all; with one stored, the dashboard
    ends hidden. *)
Theorem destroyMasternode_clears :
  forall (fullData : option (option Global.masternode_data))
         (started : option bool) (a : Global.App T),
    let run := Global.destroyMasternode fullData started a in
    fst run = Ok tt
    /\ Global.storage_masternode (snd run) = None
    /\ Global.mempool (snd run) = Global.mempool a
    /\ (Global.storage_masternode a = None -> snd run = a)
    /\ (Global.storage_masternode a <> None ->
        display_of "domMnDashboard" (Global.app_trace (snd run)) = Some "none").
Proof.
  intros fullData started [k m st enc tr]. cbn zeta.
  unfold Global.destroyMasternode. global_unfold.
  destruct st as [cM|]; global_unfold; [|repeat apply conj; trivial; congruence].
  unfold detached.
  match goal with
  | |- context [Global.updateMasternodeTab ?f ?s ?x] =>
      pose proof (updateMasternodeTab_run f s x) as Hrun;
      destruct (Global.updateMasternodeTab f s x) as [r a1]
  end.
  cbn zeta in Hrun.
  cbn [fst snd Global.app_masterKey Global.mempool Global.storage_masternode
       Global.app_trace] in *.
  destruct Hrun as (Hm & Hs & Hd & _).
  split; [reflexivity|].
  split; [rewrite Hs; destruct k as [mk|]; [destruct (_ || _)|]; reflexivity|].
  split; [exact Hm|].
  split; [discriminate|].
  intros _. destruct Hd as [Hd|(_ & mk & m0 & _ & _ & Hc)];
    [exact Hd|discriminate].
Qed.

End StoredMasternode.

(** ** [importMasternode] *)

Section ImportMasternode.

Context `{Externals} `{MoreExternals} {T : Type} `{Mempool T}.

(** Unfold [importMasternode] down to its calls of [refreshMasternodeData]
    and [updateMasternodeTab]. *)
Ltac import_unfold :=
  unfold Global.importMasternode;
  cbv beta iota zeta delta
    [Global.on_app Global.on_form Global.the_masterKey Global.createAlert
     Global.perform ret bind throw get modify await];
  cbn [fst snd Global.app_masterKey Global.mempool Global.storage_masternode
       Global.encryptedWallet Global.app_trace
       Global.domMnPrivateKey_value Global.domMnIP_value Global.domMnTxId_value].

(** The collateral output [importMasternode] binds the masternode to: the
    first confirmed output of the collateral size for a wallet that is not
    HD, the last confirmed output on the selected path for an HD wallet. *)
Lemma collateral_confirmed (mk : MasterKey) (strPath : string) (m : T) (u : UTXO) :
  (if isHD mk
   then Global.findLast (Global.path_is strPath) (getConfirmed m)
   else find (fun cUTXO => (sats cUTXO =? collateralInSats)%float)
          (getConfirmed m)) = Some u ->
  In u (getConfirmed m).
Proof.
  destruct (isHD mk); intros Hfind.
  - unfold Global.findLast in Hfind.
    apply find_some in Hfind as [Hin _]. now apply in_rev.
  - now apply find_some in Hfind as [Hin _].
Qed.

(** X17.  Let a wallet be loaded and let the form select a confirmed
    output [u] of the collateral size (for a wallet that is not HD: the
    first such output).  When the node reports [ENABLED] or [PRE_ENABLED],
    [importMasternode] ends with a masternode stored that is bound to [u]
    ([collateralTxId] and [outidx] are [u]'s id and vout), carries the
    private key typed into the form, the wallet path of the selection
    (['legacy'] when the wallet is not HD) and the typed address, with the
    chain's masternode port appended when the address names none.  The
    collateral check of the tab update that follows does not remove it; the
    mempool is untouched and all three inputs of the form are cleared. *)
Theorem importMasternode_persists :
  forall (d : Global.masternode_data) (started1 : option bool)
         (fullData2 : option (option Global.masternode_data))
         (started2 : option bool)
         (form : Global.mn_form) (a : Global.App T) (mk : MasterKey) (u : UTXO),
    Global.app_masterKey a = Some mk ->
    (if isHD mk
     then Global.findLast (Global.path_is (Global.domMnTxId_value form))
            (getConfirmed (Global.mempool a))
     else find (fun cUTXO => (sats cUTXO =? collateralInSats)%float)
            (getConfirmed (Global.mempool a))) = Some u ->
    (sats u =? collateralInSats)%float = true ->
    Global.md_status d = "ENABLED" \/ Global.md_status d = "PRE_ENABLED" ->
    let run := Global.importMasternode (Some (Some d)) started1 fullData2 started2
                 (form, a) in
    let ip := Global.domMnIP_value form in
    Global.storage_masternode (snd (snd run)) =
      Some {| walletPrivateKeyPath :=
                if isHD mk then Global.domMnTxId_value form else "legacy";
              mnPrivateKey := Global.domMnPrivateKey_value form;
              collateralTxId := id u;
              outidx := vout u;
              addr := if includes ip ":" then ip
                      else (ip ++ ":" ++ show_Z MASTERNODE_PORT)%string |}
    /\ Global.mempool (snd (snd run)) = Global.mempool a
    /\ fst (snd run) =
       {| Global.domMnPrivateKey_value := "";
          Global.domMnIP_value := "";
          Global.domMnTxId_value := "" |}.
Proof.
  intros d started1 fullData2 started2 form [k m st enc tr] mk u Hk Hfind Hsats
         Hstatus.
  cbn [Global.app_masterKey Global.mempool] in Hk, Hfind. subst k.
  pose proof (collateral_confirmed mk _ m u Hfind) as Hin.
  cbn zeta. import_unfold.
  assert (Hcoll :
    exists cM,
      cM = {| walletPrivateKeyPath :=
                if isHD mk then Global.domMnTxId_value form else "legacy";
              mnPrivateKey := Global.domMnPrivateKey_value form;
              collateralTxId := id u;
              outidx := vout u;
              addr := if includes (Global.domMnIP_value form) ":"
                      then Global.domMnIP_value form
                      else (Global.domMnIP_value form ++ ":" ++
                            show_Z MASTERNODE_PORT)%string |})
    by (eexists; reflexivity).
  destruct Hcoll as [cM HcM]. rewrite <- HcM.
  destruct (isHD mk); cbn [negb]; import_unfold; rewrite Hfind; import_unfold;
    rewrite ?Hsats; cbn [negb]; import_unfold;
    destruct (includes (Global.domMnIP_value form) ":"); cbn [negb] in *;
    rewrite <- HcM.
  all: match goal with
       | |- context [Global.refreshMasternodeData ?f ?s ?c ?b ?x] =>
           pose proof (refreshMasternodeData_stores d s c b x) as Hst;
           pose proof (refreshMasternodeData_frame f s c b x) as Hfr;
           cbn zeta in Hst, Hfr;
           destruct Hst as (Hkey & Hst & _);
           destruct (Hst (or_introl Hstatus)) as [Hok Hstored];
           destruct Hfr as (Hmem & _);
           destruct (Global.refreshMasternodeData f s c b x) as [r a1]
       end;
       cbn [fst snd Global.app_masterKey Global.mempool] in *; subst r.
  all: match goal with
       | |- context [Global.updateMasternodeTab ?f ?s ?x] =>
           pose proof (updateMasternodeTab_run f s x) as Hrun;
           cbn zeta in Hrun;
           destruct Hrun as (Hmem' & Hs' & _);
           destruct (Global.updateMasternodeTab f s x) as [r a2]
       end;
       cbn [fst snd] in *.
  all: rewrite Hmem', Hmem; split; [|split; reflexivity].
  all: rewrite Hs', Hkey, Hstored, Hmem.
  all: destruct (isHardwareWallet mk || _); [reflexivity|].
  all: replace (existsb _ _) with true; [reflexivity|].
  all: symmetry; apply existsb_exists; exists u; split; [exact Hin|].
  all: rewrite HcM; unfold Global.isMasternodeUTXO;
       cbn [collateralTxId outidx];
       now rewrite String.eqb_refl, Z.eqb_refl.
Qed.

(** X18.  [importMasternode] clears the address and private-key inputs
    before anything else, and keeps the selection input in every run that
    stops early.  With no wallet loaded it throws a TypeError.  For a wallet
    that is not HD and holds no confirmed output of the collateral size it
    raises one warning and stops.  For an HD wallet it throws a TypeError
    when no confirmed output lies on the selected path, and raises one
    warning and stops when the last such output is not of the collateral
    size.  In none of these runs is a masternode stored, the mempool changed
    or the tab updated. *)
Theorem importMasternode_rejects :
  forall (fullData1 : option (option Global.masternode_data))
         (started1 : option bool)
         (fullData2 : option (option Global.masternode_data))
         (started2 : option bool)
         (form : Global.mn_form) (a : Global.App T),
    let run := Global.importMasternode fullData1 started1 fullData2 started2
                 (form, a) in
    let typed :=
      {| Global.domMnPrivateKey_value := "";
         Global.domMnIP_value := "";
         Global.domMnTxId_value := Global.domMnTxId_value form |} in
    let alerted message :=
      {| Global.app_masterKey := Global.app_masterKey a;
         Global.mempool := Global.mempool a;
         Global.storage_masternode := Global.storage_masternode a;
         Global.encryptedWallet := Global.encryptedWallet a;
         Global.app_trace :=
           Global.app_trace a ++ [CreateAlert "warning" message] |} in
    (Global.app_masterKey a = None -> run = (Throw TypeError, (typed, a)))
    /\ (forall mk,
           Global.app_masterKey a = Some mk ->
           isHD mk = false ->
           find (fun cUTXO => (sats cUTXO =? collateralInSats)%float)
             (getConfirmed (Global.mempool a)) = None ->
           exists message, run = (Ok tt, (typed, alerted message)))
    /\ (forall mk,
           Global.app_masterKey a = Some mk ->
           isHD mk = true ->
           Global.findLast (Global.path_is (Global.domMnTxId_value form))
             (getConfirmed (Global.mempool a)) = None ->
           run = (Throw TypeError, (typed, a)))
    /\ (forall mk u,
           Global.app_masterKey a = Some mk ->
           isHD mk = true ->
           Global.findLast (Global.path_is (Global.domMnTxId_value form))
             (getConfirmed (Global.mempool a)) = Some u ->
           (sats u =? collateralInSats)%float = false ->
           run = (Ok tt,
                  (typed, alerted "This is not a suitable UTXO for a Masternode"))).
Proof.
  intros fullData1 started1 fullData2 started2 form [k m st enc tr]. cbn zeta.
  cbn [Global.app_masterKey Global.mempool Global.storage_masternode
       Global.encryptedWallet Global.app_trace].
  split; [|split; [|split]].
  - intros ->. import_unfold. reflexivity.
  - intros mk -> Hhd Hfind. import_unfold. rewrite Hhd. cbn [negb].
    import_unfold. rewrite Hfind. import_unfold.
    destruct (getBalance m <? collateralInSats)%float; import_unfold;
      eexists; reflexivity.
  - intros mk -> Hhd Hfind. import_unfold. rewrite Hhd. cbn [negb].
    import_unfold. rewrite Hfind. reflexivity.
  - intros mk u -> Hhd Hfind Hsats. import_unfold. rewrite Hhd. cbn [negb].
    import_unfold. rewrite Hfind. import_unfold. rewrite Hsats. cbn [negb].
    import_unfold. reflexivity.
Qed.

End ImportMasternode.

(** The theorem for the sample import: the masternode stored is
    [sample_masternode]. *)
Lemma importMasternode_persists_witness :
  Global.storage_masternode
    (snd (snd (Global.importMasternode (H := sample_externals)
                 (H0 := ListMempool) (H1 := sample_more_externals)
                 (Some (Some sample_node_data)) None None None
                 (sample_form, funded_app))))
  = Some sample_masternode.
Proof.
  exact (proj1 (importMasternode_persists (H := sample_externals)
                  (H0 := sample_more_externals) (H1 := ListMempool)
                  sample_node_data None None None sample_form funded_app
                  sample_key sample_collateral
                  eq_refl eq_refl eq_refl (or_introl eq_refl))).
Defined.

(** ** [createMasternode]: what the user is told *)

Section CreateMasternodeAlerts.

Context `{Externals} {T : Type} `{Mempool T}.

(** X19.  The three ways [createMasternode] stops before it signs: a
    view-only wallet, a failed coin selection, and a change that is not
    positive.  Each ends normally with exactly one message (an alert of the
    page, [window.alert] for the coin selection) and changes nothing else:
    the mempool and the stored masternode are as before. *)
Theorem createMasternode_refusals :
  forall (env : Global.create_env) (a : Global.App T) (mk : MasterKey),
    Global.app_masterKey a = Some mk ->
    let run := Global.createMasternode env a in
    let told e :=
      (Ok tt,
       {| Global.app_masterKey := Global.app_masterKey a;
          Global.mempool := Global.mempool a;
          Global.storage_masternode := Global.storage_masternode a;
          Global.encryptedWallet := Global.encryptedWallet a;
          Global.app_trace := Global.app_trace a ++ [e] |}) in
    let cc := Global.cCoinControl env in
    (isViewOnly mk = true ->
     run = told (CreateAlert "warning" "Can't create a masternode in view only mode"))
    /\ (isViewOnly mk = false ->
        forall addr, Global.newAddress env = Some addr ->
        (Global.success cc = false -> run = told (WindowAlert (Global.msg cc)))
        /\ (Global.success cc = true ->
            forall change, Global.changeAddressAnswer env = Some change ->
            (0 <? Global.cc_nValue cc
                  - (NetworkJs.getFee (Global.serializedLength env)
                     + collateralInSats))%float = false ->
            run = told (CreateAlert "warning"
                          ("You don't have enough " ++ TICKER ++
                           " to create a masternode")))).
Proof.
  intros env [k m st enc tr] mk Hk. cbn [Global.app_masterKey] in Hk. subst k.
  cbn zeta.
  cbn [Global.app_masterKey Global.mempool Global.storage_masternode
       Global.encryptedWallet Global.app_trace].
  split.
  - intros Hv. global_unfold. rewrite Hv. reflexivity.
  - intros Hv [strAddress strAddressPath] Haddr. split.
    + intros Hs. global_unfold. rewrite Hv, Haddr. global_unfold.
      rewrite Hs. reflexivity.
    + intros Hs [changeAddress changeAddressPath] Hchange Hlow.
      global_unfold. rewrite Hv, Haddr. global_unfold.
      rewrite Hs. cbn [negb]. rewrite Hchange. global_unfold.
      rewrite Hlow. reflexivity.
Qed.

(** X20.  Once a software wallet has signed and [sendTransaction] has
    resolved, [createMasternode] reports success whatever the answer was:
    the run ends normally, the last alert is the success alert "Masternode
    Created!", preceded only by the summary the debug setting writes to the
    page and by the private-key popup of a VPS setup, and no masternode is
    stored afterwards.  A rejected broadcast is told apart only by the
    mempool. *)
Theorem createMasternode_reports_success :
  forall (env : Global.create_env) (a : Global.App T) (mk : MasterKey)
         (addr change : string * string) (strTx key : string) (r : js_value),
    Global.app_masterKey a = Some mk ->
    isViewOnly mk = false ->
    isHardwareWallet mk = false ->
    Global.newAddress env = Some addr ->
    Global.success (Global.cCoinControl env) = true ->
    Global.changeAddressAnswer env = Some change ->
    (0 <? Global.cc_nValue (Global.cCoinControl env)
          - (NetworkJs.getFee (Global.serializedLength env)
             + collateralInSats))%float = true ->
    Global.signedTx env = Some strTx ->
    Global.sendResult env = Some r ->
    ((Global.domMnCreateType_value env =? "VPS") = true ->
     Global.mnPrivkey env = Some key) ->
    let run := Global.createMasternode env a in
    let nFee := NetworkJs.getFee (Global.serializedLength env) in
    let nChange :=
      (Global.cc_nValue (Global.cCoinControl env)
       - (nFee + collateralInSats))%float in
    fst run = Ok tt
    /\ Global.storage_masternode (snd run) = None
    /\ Global.app_trace (snd run) =
       Global.app_trace a ++
       (if Global.debug env
        then [DomHtml "domHumanReadable"
                (Global.humanReadable (getBalance (Global.mempool a)) nFee
                   (fst addr) collateralInSats nChange (fst change))]
        else []) ++
       (if Global.domMnCreateType_value env =? "VPS"
        then [ConfirmPopup CONFIRM_POPUP_MN_P_KEY
                (key ++ CONFIRM_POPUP_MN_P_KEY_HTML)]
        else []) ++
       [CreateAlert "success"
          "<b>Masternode Created!<b><br>Wait 15 confirmations to proceed further"].
Proof.
  intros env [k m st enc tr] mk [strAddress strAddressPath]
         [changeAddress changeAddressPath] strTx key r
         Hk Hv Hhw Haddr Hs Hchange Hpos Hsign Hsend Hkey.
  cbn [Global.app_masterKey] in Hk. subst k. cbn zeta.
  cbn [fst Global.mempool Global.app_trace].
  global_unfold. rewrite Hv, Haddr. global_unfold.
  rewrite Hs. cbn [negb]. rewrite Hchange. global_unfold.
  rewrite Hpos. cbn [negb].
  destruct (Global.debug env); global_unfold.
  all: rewrite Hhw; cbn [negb]; rewrite Hsign; global_unfold;
       rewrite Hsend; global_unfold.
  all: destruct (Global.domMnCreateType_value env =? "VPS");
       [rewrite (Hkey eq_refl)|];
       destruct (truthy r); global_unfold;
       rewrite <- ?app_assoc; repeat split.
Qed.

End CreateMasternodeAlerts.

(** The first theorem at a run whose coin selection fails. *)
Lemma createMasternode_refusals_witness :
  Global.createMasternode (H := sample_externals) (H0 := ListMempool)
    refused_env sample_app
  = (Ok tt,
     {| Global.app_masterKey := Some sample_key;
        Global.mempool := [sample_funds];
        Global.storage_masternode := None;
        Global.encryptedWallet := false;
        Global.app_trace := [WindowAlert "Balance is too small!"] |}).
Proof.
  destruct (createMasternode_refusals (H := sample_externals) (H0 := ListMempool)
              refused_env sample_app sample_key eq_refl) as [_ Hrun].
  destruct (Hrun eq_refl ("DCollateral", "m/44'/119'/0'/0/1") eq_refl)
    as [Hfail _].
  exact (Hfail eq_refl).
Defined.

(** The second theorem at a run with the debug setting on whose broadcast
    the explorer rejects. *)
Lemma createMasternode_reports_success_witness :
  Global.app_trace
    (snd (Global.createMasternode (H := sample_externals) (H0 := ListMempool)
            rejected_env orphan_app))
  = [DomHtml "domHumanReadable"
       "Balance: ?<br>Fee: ?<br>To: DCollateral<br>Sent: ?<br>Change Address: DChange<br>Change: ?";
     CreateAlert "success"
       "<b>Masternode Created!<b><br>Wait 15 confirmations to proceed further"]
  /\ Global.storage_masternode
       (snd (Global.createMasternode (H := sample_externals) (H0 := ListMempool)
               rejected_env orphan_app)) = None.
Proof.
  destruct (createMasternode_reports_success (H := sample_externals)
              (H0 := ListMempool) rejected_env orphan_app sample_key
              ("DCollateral", "m/44'/119'/0'/0/1")
              ("DChange", "m/44'/119'/0'/0/2") "0100beef" "" (VBool false)
              eq_refl eq_refl eq_refl eq_refl eq_refl eq_refl eq_refl eq_refl
              eq_refl (fun e => match Bool.diff_false_true e with end))
    as (_ & Hstore & Htrace).
  split; [rewrite Htrace; vm_compute; reflexivity|exact Hstore].
Defined.

(** ** [updateMasternodeTab] on a confirmed collateral *)

Section ConfirmedCollateral.

Context `{Externals} {T : Type} `{Mempool T}.

(** X21.  [updateMasternodeTab] keeps a stored masternode whose collateral
    is among the confirmed outputs: whatever wallet is loaded (or none) and
    whatever the node answers, the same masternode is stored afterwards, and
    the mempool is as before. *)
Theorem updateMasternodeTab_keeps_confirmed :
  forall (fullData : option (option Global.masternode_data))
         (started : option bool) (a : Global.App T) (m : Masternode) (utxo : UTXO),
    Global.storage_masternode a = Some m ->
    In utxo (getConfirmed (Global.mempool a)) ->
    Global.isMasternodeUTXO (Global.storage_masternode a) utxo (Some m) = true ->
    let a' := snd (Global.updateMasternodeTab fullData started a) in
    Global.storage_masternode a' = Some m
    /\ Global.mempool a' = Global.mempool a.
Proof.
  intros fullData started a m utxo Hst Hin Hmatch. cbn zeta.
  destruct (updateMasternodeTab_run fullData started a) as (Hmem & Hsto & _).
  cbn zeta in Hmem, Hsto. split; [|exact Hmem].
  rewrite Hsto. rewrite Hst in Hmatch |- *.
  replace (existsb _ _) with true.
  - destruct (Global.app_masterKey a) as [mk|]; [destruct (_ || _)|]; reflexivity.
  - symmetry. apply existsb_exists. exists utxo. split; [exact Hin|exact Hmatch].
Qed.

End ConfirmedCollateral.

(** The theorem at [running_app]. *)
Lemma updateMasternodeTab_keeps_confirmed_witness :
  Global.storage_masternode
    (snd (Global.updateMasternodeTab (H := sample_externals) (H0 := ListMempool)
            (Some (Some sample_node_data)) None running_app))
  = Some sample_masternode.
Proof.
  exact (proj1 (updateMasternodeTab_keeps_confirmed (H := sample_externals)
                  (H0 := ListMempool) (Some (Some sample_node_data)) None
                  running_app sample_masternode sample_collateral
                  eq_refl (or_intror (or_introl eq_refl)) eq_refl)).
Defined.

(** ** A page of the history with a malformed transaction *)

(** [filter] with [isCoinStake] throws exactly on a page that holds a
    transaction without outputs. *)
Lemma filter_isCoinStake_throws (txs : list History.tx_t) :
  (exists e, filter_throwing ExplorerNetwork.isCoinStake txs = Throw e)
  <-> exists tx, In tx txs /\ History.vout tx = [].
Proof.
  induction txs as [|tx txs IH]; cbn [filter_throwing].
  - split; [intros [e He]; discriminate|intros (tx & [] & _)].
  - unfold ExplorerNetwork.isCoinStake at 1.
    destruct (History.vout tx) as [|o vs] eqn:Hv.
    + split; [intros _; exists tx; split; [now left|exact Hv]
             |intros _; eexists; reflexivity].
    + destruct (filter_throwing ExplorerNetwork.isCoinStake txs) as [l|e0].
      * split.
        -- intros [e He]. destruct (match History.addresses o with
                                    | [] => false
                                    | a :: _ => (a =? "CoinStake TX")%string
                                    end); discriminate.
        -- intros (tx' & [<-|Hin] & Hv'); [congruence|].
           destruct (proj2 IH (ex_intro _ tx' (conj Hin Hv'))) as [e He].
           discriminate.
      * split.
        -- intros _. destruct (proj1 IH (ex_intro _ e0 eq_refl)) as (tx' & Hin & Hv').
           exists tx'. split; [now right|exact Hv'].
        -- intros _. exists e0.
           destruct (match History.addresses o with
                     | [] => false
                     | a :: _ => (a =? "CoinStake TX")%string
                     end); reflexivity.
Qed.

Section StakingPage.

Context `{Externals}.

(** X22.  Let the network be enabled, the key answer and the explorer
    return a page of transactions.  Then [getStakingRewards] throws exactly
    when some transaction of the page has no outputs at all, wherever it
    stands in the page; in that case nothing of the page is stored, not even
    the rewards that precede the malformed transaction.  Otherwise it
    returns the list it has stored. *)
Theorem getStakingRewards_page :
  forall (d : History.t) (txs : list History.tx_t) (w : World)
         (mk : MasterKey) (key : string),
    _enabled (this w) = true ->
    masterKey (this w) = Some mk ->
    utxo_key mk = Some key ->
    History.transactions d = Some txs ->
    let run := ExplorerNetwork.getStakingRewards (Some (Some d)) w in
    ((exists e, fst run = Throw e) <->
     exists tx, In tx txs /\ History.vout tx = [])
    /\ ((exists e, fst run = Throw e) -> this (snd run) = this w)
    /\ ((forall tx, In tx txs -> History.vout tx <> []) ->
        fst run = Ok (Some (arrRewards (this (snd run))))).
Proof.
  intros d txs [[en k lw url b ar sy] t] mk key Hen Hk Hkey Htxs.
  cbn [this _enabled masterKey] in Hen, Hk. subst en k.
  pose proof (filter_isCoinStake_throws txs) as Hthrows.
  unfold utxo_key in Hkey. cbn zeta.
  destruct d as [tokens txs' items]. cbn [History.transactions] in Htxs.
  subst txs'.
  revert Hkey. staking_unfold.
  destruct (last_elem ar) as [rl|], (isHD mk); cbv iota;
    intros Hkey; rewrite Hkey; js_unfold.
  all: destruct (filter_throwing ExplorerNetwork.isCoinStake txs)
         as [stakes|e0]; js_unfold.
  all: split; [|split].
  all: try (split; [intros [e He]; discriminate He|]).
  all: try (intros Hbad; apply Hthrows in Hbad as [e He]; discriminate He).
  all: try (intros [e He]; discriminate He).
  all: try (intros _; reflexivity).
  all: try (split; [intros _; apply Hthrows; eexists; reflexivity
                   |intros _; eexists; reflexivity]).
  all: intros Hgood; exfalso;
       destruct (proj1 Hthrows (ex_intro _ e0 eq_refl)) as (tx & Hin & Hv);
       exact (Hgood tx Hin Hv).
Qed.

End StakingPage.

(** The theorem at [sample_world] and [sample_history]. *)
Lemma getStakingRewards_page_witness :
  let run := ExplorerNetwork.getStakingRewards (H := sample_externals)
               (Some (Some sample_history)) sample_world in
  (exists e, fst run = Throw e) <->
  exists tx, In tx (match History.transactions sample_history with
                    | Some txs => txs
                    | None => []
                    end) /\ History.vout tx = [].
Proof.
  exact (proj1 (getStakingRewards_page (H := sample_externals)
                  sample_history
                  (match History.transactions sample_history with
                   | Some txs => txs
                   | None => []
                   end)
                  sample_world sample_key "DLabsktzGMnsK5K9uRTMCF6NoYNY6ET4Bb"
                  eq_refl eq_refl eq_refl eq_refl)).
Defined.

(** ** [error()] *)

(** X23.  [error()] acts on the transition only.  On an enabled network it
    disables it, which emits one ['network-toggle'] event with false, and
    raises one warning; on a disabled network it does nothing.  It never
    throws and is idempotent: a second [error()] changes nothing. *)
Theorem error_once :
  forall w : World,
    let w' := snd (ExplorerNetwork.error w) in
    fst (ExplorerNetwork.error w) = Ok tt
    /\ w' =
       (if _enabled (this w)
        then {| this := set__enabled false (this w);
                trace := trace w ++
                         [Emit "network-toggle" [VBool false]; sync_failed_alert] |}
        else w)
    /\ ExplorerNetwork.error w' = (Ok tt, w').
Proof.
  intros [[en k lw url b ar sy] t].
  destruct en; js_unfold; rewrite <- ?app_assoc; repeat split.
Qed.

(** ** The effects of [getUTXOFullInfo] *)

Section FullInfoEffects.

Context `{Externals}.

(** X24.  Every run of [getUTXOFullInfo] sends exactly one request, for the
    transaction of the entry, and emits no event; the only field of the
    object it can write is [lastWallet].  It throws when the request fails
    (the object is then unchanged), when the fetched transaction has no
    output at the entry's index, and when the entry carries a path while no
    master key is loaded (the object is then unchanged as well); it has no
    error handler, so none of these disables the network. *)
Theorem getUTXOFullInfo_effects :
  forall (cUTXO : explorer_utxo) (tx_resp : option TxSpecific.t) (w : World),
    let run := ExplorerNetwork.getUTXOFullInfo cUTXO tx_resp w in
    trace (snd run) =
      trace w ++
      [Fetch (strUrl (this w) ++ "/api/v2/tx-specific/" ++ eu_txid cUTXO) None]
    /\ this (snd run) = set_lastWallet (lastWallet (this (snd run))) (this w)
    /\ (tx_resp = None -> fst run = Throw Rejected /\ this (snd run) = this w)
    /\ (forall cTx,
           tx_resp = Some cTx ->
           index (TxSpecific.vout cTx) (eu_vout cUTXO) = None ->
           exists e, fst run = Throw e)
    /\ (forall cTx p,
           tx_resp = Some cTx ->
           eu_path cUTXO = Some p ->
           p <> "" ->
           masterKey (this w) = None ->
           fst run = Throw TypeError /\ this (snd run) = this w).
Proof.
  intros cUTXO tx_resp [[en k lw url b ar sy] t]. cbn zeta.
  unfold ExplorerNetwork.getUTXOFullInfo. js_unfold.
  destruct tx_resp as [cTx|]; js_unfold.
  2:{ split; [reflexivity|]. split; [reflexivity|].
      split; [intros _; split; reflexivity|].
      split; [intros cTx Hc; discriminate Hc|intros cTx p Hc; discriminate Hc]. }
  assert (Hpath :
    eu_path cUTXO = None \/ eu_path cUTXO = Some ""
    \/ exists p, eu_path cUTXO = Some p /\ (p =? "") = false).
  { destruct (eu_path cUTXO) as [p|]; [|now left].
    right. destruct (String.eqb_spec p "") as [->|Hp]; [now left|right].
    exists p. split; [reflexivity|]. now apply String.eqb_neq. }
  destruct Hpath as [Hp|[Hp|(p & Hp & Hne)]]; rewrite Hp; cbn [String.eqb];
    rewrite ?Hne; js_unfold.
  3: destruct k as [mk|]; js_unfold.
  all: try destruct (index (TxSpecific.vout cTx) (eu_vout cUTXO))
         as [cVout|] eqn:Hsel;
       js_unfold.
  all: try destruct (index (TxSpecific.vout cTx) 0) as [cVout0|]; js_unfold.
  all: try destruct (negb _ && negb _); js_unfold.
  all: split; [reflexivity|]; split; [reflexivity|];
       split; [intros Hc; discriminate Hc|]; split.
  all: try (intros cTx' [= <-] Hnone; first [congruence
                                             |eexists; reflexivity]).
  all: intros cTx' p' [= <-] Hp' Hne' Hk;
       first [discriminate Hp'
             |injection Hp' as <-; now elim Hne'
             |discriminate Hk
             |split; reflexivity].
Qed.

End FullInfoEffects.
